(** * Tailor: change-set engine, filter parsing and command dispatch

    A shallow embedding of the Go sources of tailor:

    - [Main]      : [main.go] of release 0.7.0 ([kindMapping], [getFilter],
                    [calculateChangeset], [compare], the [status], [update]
                    and [secrets edit] cases of [main]);
    - [MainRest]  : the [export], [re-encrypt] and [generate-key] cases
                    of the same [main], with [export] and [reEncrypt];
    - [Commands]  : package [commands] ([Diff], [calculateChangeset],
                    [compare], the two [assemble...ResourceList] helpers);
    - [Cmd]       : the [diff] case of the newer [main].

    Package [openshift] is called by these sources and is not among
    them: its data model, the changeset engine ([Engine]) and the
    parameter store ([Params]) follow the specification.

    Go strings are byte strings; they are embedded as [string].
    [strings.ToLower] is written out for strings of ASCII bytes and is
    a [Lowering] otherwise, since the case tables of package [unicode]
    are Go's.  Standard output, the log, the prompt, the calls of the
    remote mutation and of [ioutil.WriteFile] are recorded in a trace
    of [Event]s; [log.Fatal] and [os.Exit] end the process with an exit
    code. *)

From Stdlib Require Import String Ascii List Bool Arith NArith Lia DecimalString.
Import ListNotations.

Local Open Scope list_scope.
Local Open Scope string_scope.

Set Implicit Arguments.

(* ================================================================== *)
(** * Go's [strings] and [fmt] helpers *)

Module GoStrings.

(** The line feed written ["\n"] in the Go sources. *)
Definition nl : string := String (ascii_of_nat 10) EmptyString.

Definition is_upper (c : ascii) : bool :=
  let n := nat_of_ascii c in Nat.leb 65 n && Nat.leb n 90.

(** The loop of [strings.ToLower] over a string of ASCII bytes, on one
    byte: ['A'..'Z'] gain ['a' - 'A']. *)
Definition lower_byte (c : ascii) : ascii :=
  if is_upper c then ascii_of_nat (nat_of_ascii c + 32) else c.

Fixpoint lowerASCII (s : string) : string :=
  match s with
  | EmptyString => EmptyString
  | String c s' => String (lower_byte c) (lowerASCII s')
  end.

(** A byte below [utf8.RuneSelf]. *)
Definition ascii_byte (c : ascii) : bool := (nat_of_ascii c <? 128)%nat.

(** The test [isASCII] of [strings.ToLower]. *)
Fixpoint isASCII (s : string) : bool :=
  match s with
  | EmptyString => true
  | String c s' => ascii_byte c && isASCII s'
  end.

(** [strings.HasPrefix s p]. *)
Fixpoint HasPrefix (s p : string) : bool :=
  match p, s with
  | EmptyString, _ => true
  | String _ _, EmptyString => false
  | String b p', String a s' => Ascii.eqb a b && HasPrefix s' p'
  end.

(** [strings.Contains s sub]. *)
Fixpoint Contains (s sub : string) : bool :=
  HasPrefix s sub ||
  match s with
  | EmptyString => false
  | String _ s' => Contains s' sub
  end.

(** [strings.HasSuffix s suf]. *)
Definition HasSuffix (s suf : string) : bool :=
  let n := String.length s in
  let m := String.length suf in
  Nat.leb m n && String.eqb (substring (n - m) m s) suf.

(** [strings.Split s sep] for a separator of one byte, which is what
    every call site passes (["/"], [","], ["="], ["@"]): the pieces
    between the occurrences of [sep], always at least one piece. *)
Fixpoint Split (s : string) (sep : ascii) : list string :=
  match s with
  | EmptyString => [EmptyString]
  | String c s' =>
      if Ascii.eqb c sep then EmptyString :: Split s' sep
      else match Split s' sep with
           | [] => [String c EmptyString]
           | p :: ps => String c p :: ps
           end
  end.

(** [strings.Join elems sep]. *)
Fixpoint Join (elems : list string) (sep : string) : string :=
  match elems with
  | [] => EmptyString
  | [e] => e
  | e :: rest => e ++ sep ++ Join rest sep
  end.

(** The verb [%d] of [fmt.Printf] on a non-negative [int]. *)
Definition itoa (n : nat) : string := NilZero.string_of_uint (Nat.to_uint n).

(** [sort.Strings]: ascending byte-wise order (insertion sort). *)
Fixpoint insert_string (x : string) (l : list string) : list string :=
  match l with
  | [] => [x]
  | y :: l' => if String.leb x y then x :: l else y :: insert_string x l'
  end.

Definition SortStrings (l : list string) : list string :=
  fold_right insert_string [] l.

(** [strings.ToLower].  On a string of ASCII bytes it is the loop
    [lowerASCII] (the function tests [isASCII] first).  On any other
    string it is [strings.Map(unicode.ToLower, s)]: every rune is
    replaced by its lower case, an invalid byte by [U+FFFD].  The case
    tables of package [unicode] belong to Go's library and are not
    written out here; the function comes with what holds of it
    whatever the tables say of the letters: lowering twice is lowering
    once; no rune is dropped, so only the empty string is lowered to
    the empty string; and the bytes [/] and [,] are runes of their
    own, which are their own lower case and the lower case of no other
    rune, so lowering neither makes nor removes one. *)
Record Lowering : Type := {
  ToLower : string -> string;
  ToLower_ascii : forall s, isASCII s = true -> ToLower s = lowerASCII s;
  ToLower_idem : forall s, ToLower (ToLower s) = ToLower s;
  ToLower_empty : forall s, ToLower s = EmptyString -> s = EmptyString;
  ToLower_slash : forall s, Contains (ToLower s) "/" = Contains s "/";
  ToLower_comma : forall s, Contains (ToLower s) "," = Contains s ","
}.

(** A lowering to run the scenarios with: besides ASCII it knows the
    capital letters of Latin-1 (in UTF-8 the byte [0xC3] and then
    [0x80..0x9E] but [0x97], lowered by [0x20]) and the dotted capital
    I, [U+0130] (the bytes [0xC4 0xB0]), whose lower case is [i]. *)
Definition latinLead (c : ascii) : bool := Ascii.eqb c (ascii_of_nat 195).
Definition latinCapital (d : ascii) : bool :=
  let n := nat_of_ascii d in Nat.leb 128 n && Nat.leb n 158 && negb (Nat.eqb n 151).
Definition dottedLead (c : ascii) : bool := Ascii.eqb c (ascii_of_nat 196).
Definition dottedTail (d : ascii) : bool := Ascii.eqb d (ascii_of_nat 176).

Fixpoint lowerLatin (s : string) : string :=
  match s with
  | EmptyString => EmptyString
  | String c s' =>
      match s' with
      | String d s'' =>
          if latinLead c && latinCapital d then
            String c (String (ascii_of_nat (nat_of_ascii d + 32)) (lowerLatin s''))
          else if dottedLead c && dottedTail d then String "i" (lowerLatin s'')
          else String (lower_byte c) (lowerLatin s')
      | EmptyString => String (lower_byte c) EmptyString
      end
  end.

Definition latin : Lowering.
Proof.
  assert (Hplain : forall c s, latinLead c = false -> dottedLead c = false ->
            lowerLatin (String c s) = String (lower_byte c) (lowerLatin s)).
  { intros c [|d r] H1 H2; cbn [lowerLatin]; [reflexivity|]. now rewrite H1, H2. }
  assert (Hpair : forall c d r,
            lowerLatin (String c (String d r))
            = if latinLead c && latinCapital d then
                String c (String (ascii_of_nat (nat_of_ascii d + 32)) (lowerLatin r))
              else if dottedLead c && dottedTail d then String "i" (lowerLatin r)
              else String (lower_byte c) (lowerLatin (String d r)))
    by reflexivity.
  assert (Hcontains : forall s b, Contains s (String b EmptyString)
            = match s with
              | EmptyString => false
              | String c s' => Ascii.eqb c b || Contains s' (String b EmptyString)
              end).
  { intros [|c s'] b; simpl; [reflexivity|].
    assert (E : HasPrefix s' EmptyString = true) by (destruct s'; reflexivity).
    now rewrite E, andb_true_r. }
  assert (Hbyte : forall c,
            lower_byte (lower_byte c) = lower_byte c
            /\ latinLead (lower_byte c) = latinLead c
            /\ dottedLead (lower_byte c) = dottedLead c
            /\ latinCapital (lower_byte c) = latinCapital c
            /\ dottedTail (lower_byte c) = dottedTail c
            /\ Ascii.eqb (lower_byte c) "/" = Ascii.eqb c "/"
            /\ Ascii.eqb (lower_byte c) "," = Ascii.eqb c ","
            /\ (ascii_byte c = true -> latinLead c = false /\ dottedLead c = false)
            /\ (latinLead c = true \/ dottedLead c = true \/ latinCapital c = true
                \/ dottedTail c = true ->
                Ascii.eqb c "/" = false /\ Ascii.eqb c "," = false
                /\ latinCapital c && latinLead c = false)
            /\ (latinCapital c = true ->
                latinLead (ascii_of_nat (nat_of_ascii c + 32)) = false
                /\ dottedLead (ascii_of_nat (nat_of_ascii c + 32)) = false
                /\ latinCapital (ascii_of_nat (nat_of_ascii c + 32)) = false
                /\ lower_byte (ascii_of_nat (nat_of_ascii c + 32))
                   = ascii_of_nat (nat_of_ascii c + 32)
                /\ Ascii.eqb (ascii_of_nat (nat_of_ascii c + 32)) "/" = false
                /\ Ascii.eqb (ascii_of_nat (nat_of_ascii c + 32)) "," = false)).
  { intros c. destruct c as [[] [] [] [] [] [] [] []]; vm_compute;
      repeat split; intros; try reflexivity; try discriminate;
      repeat match goal with H : _ \/ _ |- _ => destruct H end; discriminate. }
  assert (Hhead : forall d r,
            exists h t, lowerLatin (String d r) = String h t
                        /\ (latinCapital h = true -> latinCapital d = true)
                        /\ (dottedTail h = true -> dottedTail d = true)).
  { intros d [|e r]; cbn [lowerLatin].
    - exists (lower_byte d), EmptyString.
      destruct (Hbyte d) as (_ & _ & _ & -> & -> & _). auto.
    - destruct (latinLead d && latinCapital e) eqn:E1.
      + apply andb_true_iff in E1 as [E1 _]. eexists _, _. split; [reflexivity|].
        unfold latinLead in E1. apply Ascii.eqb_eq in E1. subst d. split; discriminate.
      + destruct (dottedLead d && dottedTail e) eqn:E2.
        * eexists _, _. split; [reflexivity|]. split; discriminate.
        * eexists _, _. split; [reflexivity|].
          destruct (Hbyte d) as (_ & _ & _ & -> & -> & _). auto. }
  refine {| ToLower := lowerLatin |}.
  - (* ASCII *)
    induction s as [|c s IH]; [reflexivity|]. cbn [isASCII]. intros H.
    apply andb_true_iff in H as [Hc Hs].
    destruct (Hbyte c) as (_ & _ & _ & _ & _ & _ & _ & Ha & _).
    destruct (Ha Hc) as [H1 H2]. rewrite (Hplain c s H1 H2), (IH Hs). reflexivity.
  - (* idempotent *)
    intros s. remember (String.length s) as n eqn:Hn.
    assert (Hle : (String.length s <= n)%nat) by lia. clear Hn.
    revert s Hle. induction n as [|n IH]; intros [|c [|d r]] Hle; cbn in Hle; try lia;
      try reflexivity.
    + cbn. now destruct (Hbyte c) as (-> & _).
    + rewrite (Hpair c d r).
      destruct (latinLead c && latinCapital d) eqn:E1.
      * apply andb_true_iff in E1 as [Ec Ed].
        destruct (Hbyte d) as (_ & _ & _ & _ & _ & _ & _ & _ & _ & Hr).
        destruct (Hr Ed) as (R1 & R2 & R3 & R4 & _).
        rewrite Hpair, R3, andb_false_r.
        assert (Hdc : dottedLead c = false).
        { unfold latinLead in Ec. apply Ascii.eqb_eq in Ec. now subst c. }
        rewrite Hdc. cbn [andb].
        assert (Hlc : lower_byte c = c).
        { unfold latinLead in Ec. apply Ascii.eqb_eq in Ec. now subst c. }
        rewrite Hlc, (Hplain _ (lowerLatin r) R1 R2), R4, IH by lia. reflexivity.
      * destruct (dottedLead c && dottedTail d) eqn:E2.
        -- rewrite (Hplain "i"%char (lowerLatin r)) by reflexivity.
           rewrite IH by lia. reflexivity.
        -- destruct (Hhead d r) as (h & t & Hht & Hcap & Htail).
           assert (IHd : lowerLatin (lowerLatin (String d r)) = lowerLatin (String d r))
             by (apply IH; cbn; lia).
           rewrite Hht in *. rewrite Hpair.
           destruct (Hbyte c) as (Hcc & L1 & L2 & _).
           rewrite L1, L2.
           assert (F1 : latinLead c && latinCapital h = false).
           { destruct (latinLead c); [|reflexivity]. cbn in *.
             destruct (latinCapital h); [|reflexivity]. now rewrite Hcap in E1. }
           assert (F2 : dottedLead c && dottedTail h = false).
           { destruct (dottedLead c); [|reflexivity]. cbn in *.
             destruct (dottedTail h); [|reflexivity]. now rewrite Htail in E2. }
           rewrite F1, F2, Hcc. f_equal. exact IHd.
  - (* never empty *)
    intros [|c [|d r]]; cbn [lowerLatin]; [reflexivity|discriminate|].
    destruct (_ && _); [discriminate|]. destruct (_ && _); discriminate.
  - (* slash *)
    intros s. remember (String.length s) as n eqn:Hn.
    assert (Hle : (String.length s <= n)%nat) by lia. clear Hn.
    revert s Hle. induction n as [|n IH]; intros [|c [|d r]] Hle; cbn in Hle; try lia;
      try reflexivity.
    + cbn [lowerLatin]. rewrite !(Hcontains (String _ _)).
      now destruct (Hbyte c) as (_ & _ & _ & _ & _ & -> & _).
    + rewrite (Hpair c d r).
      rewrite (Hcontains (String c _)), (Hcontains (String d r)).
      destruct (latinLead c && latinCapital d) eqn:E1.
      * apply andb_true_iff in E1 as [Ec Ed].
        destruct (Hbyte c) as (_ & _ & _ & _ & _ & _ & _ & _ & Hc & _).
        destruct (Hc (or_introl Ec)) as (-> & _).
        destruct (Hbyte d) as (_ & _ & _ & _ & _ & _ & _ & _ & Hd & Hr).
        destruct (Hd (or_intror (or_intror (or_introl Ed)))) as (-> & _).
        destruct (Hr Ed) as (_ & _ & _ & _ & R5 & _).
        rewrite !(Hcontains (String _ _)), R5, IH by lia.
        now destruct (Hc (or_introl Ec)) as (-> & _).
      * destruct (dottedLead c && dottedTail d) eqn:E2.
        -- apply andb_true_iff in E2 as [Ec Ed].
           destruct (Hbyte c) as (_ & _ & _ & _ & _ & _ & _ & _ & Hc & _).
           destruct (Hc (or_intror (or_introl Ec))) as (-> & _).
           destruct (Hbyte d) as (_ & _ & _ & _ & _ & _ & _ & _ & Hd & _).
           destruct (Hd (or_intror (or_intror (or_intror Ed)))) as (-> & _).
           rewrite (Hcontains (String "i"%char _)), IH by lia. reflexivity.
        -- rewrite (Hcontains (String (lower_byte c) _)).
           destruct (Hbyte c) as (_ & _ & _ & _ & _ & -> & _).
           rewrite IH by (cbn; lia). now rewrite (Hcontains (String d r)).
  - (* comma *)
    intros s. remember (String.length s) as n eqn:Hn.
    assert (Hle : (String.length s <= n)%nat) by lia. clear Hn.
    revert s Hle. induction n as [|n IH]; intros [|c [|d r]] Hle; cbn in Hle; try lia;
      try reflexivity.
    + cbn [lowerLatin]. rewrite !(Hcontains (String _ _)).
      now destruct (Hbyte c) as (_ & _ & _ & _ & _ & _ & -> & _).
    + rewrite (Hpair c d r).
      rewrite (Hcontains (String c _)), (Hcontains (String d r)).
      destruct (latinLead c && latinCapital d) eqn:E1.
      * apply andb_true_iff in E1 as [Ec Ed].
        destruct (Hbyte c) as (_ & _ & _ & _ & _ & _ & _ & _ & Hc & _).
        destruct (Hc (or_introl Ec)) as (_ & -> & _).
        destruct (Hbyte d) as (_ & _ & _ & _ & _ & _ & _ & _ & Hd & Hr).
        destruct (Hd (or_intror (or_intror (or_introl Ed)))) as (_ & -> & _).
        destruct (Hr Ed) as (_ & _ & _ & _ & _ & R6).
        rewrite !(Hcontains (String _ _)), R6, IH by lia.
        now destruct (Hc (or_introl Ec)) as (_ & -> & _).
      * destruct (dottedLead c && dottedTail d) eqn:E2.
        -- apply andb_true_iff in E2 as [Ec Ed].
           destruct (Hbyte c) as (_ & _ & _ & _ & _ & _ & _ & _ & Hc & _).
           destruct (Hc (or_intror (or_introl Ec))) as (_ & -> & _).
           destruct (Hbyte d) as (_ & _ & _ & _ & _ & _ & _ & _ & Hd & _).
           destruct (Hd (or_intror (or_intror (or_intror Ed)))) as (_ & -> & _).
           rewrite (Hcontains (String "i"%char _)), IH by lia. reflexivity.
        -- rewrite (Hcontains (String (lower_byte c) _)).
           destruct (Hbyte c) as (_ & _ & _ & _ & _ & _ & -> & _).
           rewrite IH by (cbn; lia). now rewrite (Hcontains (String d r)).
Defined.

End GoStrings.
Export GoStrings.

(* ================================================================== *)
(** * Results, processes and their traces *)

(** A Go [error] value: only its message is observable here. *)
Definition error := string.

(** The pair [(value, err)] a Go function returns, with the index
    panic of a slice access as a third outcome. *)
Inductive result (A : Type) : Type :=
| Ok (a : A)
| Err (e : error)
| Panic (msg : string).
Arguments Ok {A} a.
Arguments Err {A} e.
Arguments Panic {A} msg.

Definition is_err {A} (r : result A) : bool :=
  match r with Err _ => true | _ => false end.

(** The pair [(value, err)] returned by the functions of the packages
    and of the system that are called, not embedded. *)
Inductive fallible (A : Type) : Type :=
| Success (a : A)
| Failure (err : error).
Arguments Success {A} a.
Arguments Failure {A} err.

(** [l[i]] on a slice. *)
Definition index {A} (l : list A) (i : nat) : result A :=
  match nth_error l i with
  | Some a => Ok a
  | None => Panic "index out of range"
  end.

(* ================================================================== *)
(** * Package [openshift]: data model *)

(** The declarations of package [openshift] are not part of the sources
  at hand; the types below have the fields its callers use, completed
  with the data model of the specification. *)

Module Resource.
(** Modelled from the spec: the payload of a resource, "a canonical
    ordered tree of scalars, mappings and sequences". *)
#[warning="-register-all"] Inductive Tree : Type :=
| Scalar (s : string)
| Mapping (entries : list (string * Tree))
| Sequence (items : list Tree).

Inductive Provenance : Type := desired | current.

(** Modelled from the spec: one API object. *)
Record t : Type := Build {
  Kind : string;
  Name : string;
  Labels : list (string * string);
  Annotations : list (string * string);
  Payload : Tree;
  Source : Provenance
}.

(** [(Kind, Name)] is the identity of a resource. *)
Definition same_key (a b : t) : bool :=
  String.eqb (Kind a) (Kind b) && String.eqb (Name a) (Name b).

(** The address [Kind/Name] of a resource. *)
Definition address (r : t) : string := Kind r ++ "/" ++ Name r.
End Resource.

Module ResourceFilter.
(** [openshift.ResourceFilter], as [getFilter] builds it; [Exclude]
    is the exclude list of the later releases. *)
Record t : Type := Build {
  Kinds : list string;
  Name : string;
  Label : string;
  Exclude : list string
}.
End ResourceFilter.

Module ResourceList.
(** Modelled from the spec: a resource list, the resources of one side
    with the filter they were selected by. *)
Record t : Type := Build {
  Filter : ResourceFilter.t;
  Items : list Resource.t
}.

(** Modelled from the spec: the method [Length] of a resource list,
    the number of its resources. *)
Definition Length (l : t) : nat := List.length (Items l).
End ResourceList.

Module Patch.
Inductive Operation : Type := add | remove | replace.

(** One RFC 6902 operation. *)
Record t : Type := Build {
  Op : Operation;
  Path : string;
  Value : option Resource.Tree
}.
End Patch.

Module Action.
Inductive t : Type := Noop | Create | Update | Delete | Recreate.

Definition eqb (a b : t) : bool :=
  match a, b with
  | Noop, Noop | Create, Create | Update, Update
  | Delete, Delete | Recreate, Recreate => true
  | _, _ => false
  end.
End Action.

Module Change.
(** Modelled from the spec: the record [Change]. *)
Record t : Type := Build {
  Action : Action.t;
  Current : option Resource.t;
  Desired : option Resource.t;
  Patches : list Patch.t;
  RenderedDiff : string
}.

(** The resource a change is about: the desired one when present. *)
Definition subject (c : t) : option Resource.t :=
  match Desired c with
  | Some r => Some r
  | None => Current c
  end.

(** Modelled from the spec: the method [ItemName] of a change, the [Kind/Name]
    under which a change is reported ([<Kind/Name>] in the messages
    of [compare]). *)
Definition ItemName (c : t) : string :=
  match subject c with
  | Some r => Resource.address r
  | None => EmptyString
  end.

(** Whether the change is about the resource with [r]'s identity. *)
Definition concerns (r : Resource.t) (c : t) : bool :=
  match subject c with
  | Some r' => Resource.same_key r r'
  | None => false
  end.
End Change.

Module Changeset.
(** The buckets of a changeset; [compare] reads [Noop], [Delete],
    [Create] and [Update], the specification adds [Recreate]. *)
Record t : Type := Build {
  Noop : list Change.t;
  Create : list Change.t;
  Update : list Change.t;
  Delete : list Change.t;
  Recreate : list Change.t
}.

(** The zero value [&openshift.Changeset{}]. *)
Definition empty : t := Build [] [] [] [] [].

Definition is_nil {A} (l : list A) : bool :=
  match l with [] => true | _ :: _ => false end.

(** Modelled from the spec: the method [Blank] of a changeset, "true iff all
    mutation buckets are empty"; the mutation buckets are all but
    [Noop]. *)
Definition Blank (c : t) : bool :=
  is_nil (Create c) && is_nil (Update c) && is_nil (Delete c)
  && is_nil (Recreate c).

(** Every change of every bucket. *)
Definition changes (c : t) : list Change.t :=
  (Noop c ++ Create c ++ Update c ++ Delete c ++ Recreate c)%list.
End Changeset.

(* ================================================================== *)
(** * Package [openshift]: the changeset engine *)

(** Package [openshift] is not part of the sources at hand: the engine
    is modelled from the algorithm of the specification. *)

Module Engine.

(** Modelled from the spec: the immutable path table, per kind. *)
Definition immutablePaths (kind : string) : list string :=
  if String.eqb kind "DeploymentConfig" then
    ["/spec/selector"; "/spec/triggers/*/imageChangeParams/from"]
  else if String.eqb kind "Service" then ["/spec/clusterIP"]
  else if String.eqb kind "PersistentVolumeClaim" then ["/spec"]
  else if String.eqb kind "Route" then ["/spec/host"]
  else if String.eqb kind "BuildConfig" then ["/spec/source/type"]
  else [].

(** Modelled from the spec: a pattern of the table covers a path when
    its segments, [*] standing for any one segment, are the first
    segments of the path ("[/spec] (whole)"). *)
Fixpoint segments_cover (pattern path : list string) : bool :=
  match pattern, path with
  | [], _ => true
  | _ :: _, [] => false
  | p :: ps, q :: qs =>
      (String.eqb p "*" || String.eqb p q) && segments_cover ps qs
  end.

(** Modelled from the spec: "any op in [P] targets an immutable path
    for that kind". *)
Definition targetsImmutable (kind : string) (op : Patch.t) : bool :=
  existsb
    (fun pattern => segments_cover (Split pattern "/") (Split (Patch.Path op) "/"))
    (immutablePaths kind).

(** Modelled from the spec: a path matches a preserve pointer when it
    is that pointer or continues it after a [/]. *)
Definition pathMatches (pointer path : string) : bool :=
  String.eqb path pointer || HasPrefix path (pointer ++ "/").

Section NewChangeset.

(** Canonicalisation of a payload and the structural diff of two
    canonical payloads (RFC 6902 operations), the rendering of a diff,
    and the resolution of the kind written in a preserve pointer. *)
Variable canon : Resource.Tree -> Resource.Tree.
Variable jsonPatch : Resource.Tree -> Resource.Tree -> list Patch.t.
Variable renderDiff : option Resource.t -> option Resource.t -> list Patch.t -> string.
Variable resolveKind : string -> string.

(** Modelled from the spec: a preserve pointer [Kind:Name:/json/pointer],
    [Kind:*:/json/pointer], [*:*:/json/pointer] or a bare pointer applies
    to a resource and covers the path of an operation. *)
Definition preserves (r : Resource.t) (path : string) (pointer : string) : bool :=
  match Split pointer ":" with
  | [kind; name; p] =>
      (String.eqb kind "*" || String.eqb (resolveKind kind) (Resource.Kind r))
      && (String.eqb name "*" || String.eqb name (Resource.Name r))
      && pathMatches p path
  | _ => pathMatches pointer path
  end.

Definition mkChange (a : Action.t) (cur des : option Resource.t)
    (ps : list Patch.t) : Change.t :=
  Change.Build a cur des ps (renderDiff cur des ps).

(** Modelled from the spec: step 4 of the algorithm, for one key of
    both lists. *)
Definition classify (allowRecreate : bool) (preservePaths : list string)
    (cur des : Resource.t) : Change.t + error :=
  let P :=
    filter
      (fun op => negb (existsb (preserves cur (Patch.Path op)) preservePaths))
      (jsonPatch (canon (Resource.Payload cur)) (canon (Resource.Payload des))) in
  match P with
  | [] => inl (mkChange Action.Noop (Some cur) (Some des) [])
  | _ :: _ =>
      if existsb (targetsImmutable (Resource.Kind cur)) P then
        if allowRecreate
        then inl (mkChange Action.Recreate (Some cur) (Some des) P)
        else inr "ImmutableFieldChanged"
      else inl (mkChange Action.Update (Some cur) (Some des) P)
  end.

Fixpoint classifyAll (allowRecreate : bool) (preservePaths : list string)
    (pairs : list (Resource.t * Resource.t)) : list Change.t + error :=
  match pairs with
  | [] => inl []
  | (cur, des) :: rest =>
      match classify allowRecreate preservePaths cur des with
      | inl c =>
          match classifyAll allowRecreate preservePaths rest with
          | inl cs => inl (c :: cs)
          | inr e => inr e
          end
      | inr e => inr e
      end
  end.

Definition hasKey (l : list Resource.t) (r : Resource.t) : bool :=
  existsb (Resource.same_key r) l.

(** The keys of both lists, each with its two resources. *)
Definition common (cur des : list Resource.t) : list (Resource.t * Resource.t) :=
  flat_map
    (fun c =>
       match find (Resource.same_key c) des with
       | Some d => [(c, d)]
       | None => []
       end)
    cur.

(** Modelled from the spec: "sort each bucket by [Kind] then [Name]". *)
Definition change_leb (a b : Change.t) : bool :=
  match Change.subject a, Change.subject b with
  | Some x, Some y =>
      if String.eqb (Resource.Kind x) (Resource.Kind y)
      then String.leb (Resource.Name x) (Resource.Name y)
      else String.leb (Resource.Kind x) (Resource.Kind y)
  | None, _ => true
  | Some _, None => false
  end.

Fixpoint insertChange (c : Change.t) (l : list Change.t) : list Change.t :=
  match l with
  | [] => [c]
  | d :: l' => if change_leb c d then c :: l else d :: insertChange c l'
  end.

Definition sortBucket (l : list Change.t) : list Change.t :=
  fold_right insertChange [] l.

Definition withAction (a : Action.t) (l : list Change.t) : list Change.t :=
  filter (fun c => Action.eqb (Change.Action c) a) l.

(** Modelled from the spec: [openshift.NewChangeset], the algorithm of
    the changeset engine (create set, delete set unless upsert-only,
    classification of the common keys, sorted buckets).  A failed
    classification returns the error with the zero changeset. *)
Definition NewChangeset (current desired : ResourceList.t)
    (upsertOnly allowRecreate : bool) (preservePaths : list string)
    : Changeset.t * option error :=
  let C := ResourceList.Items current in
  let D := ResourceList.Items desired in
  let creates :=
    map (fun r => mkChange Action.Create None (Some r) [])
        (filter (fun r => negb (hasKey C r)) D) in
  let deletes :=
    if upsertOnly then []
    else map (fun r => mkChange Action.Delete (Some r) None [])
             (filter (fun r => negb (hasKey D r)) C) in
  match classifyAll allowRecreate preservePaths (common C D) with
  | inl cs =>
      (Changeset.Build
         (sortBucket (withAction Action.Noop cs))
         (sortBucket creates)
         (sortBucket (withAction Action.Update cs))
         (sortBucket deletes)
         (sortBucket (withAction Action.Recreate cs)),
       None)
  | inr e => (Changeset.empty, Some e)
  end.

End NewChangeset.
End Engine.

(* ================================================================== *)
(** * Processes: traces and exit codes *)

Inductive Color : Type := Plain | Red | Green | Yellow.

(** What a run does to the outside, in order. *)
Inductive Event : Type :=
| Print (c : Color) (text : string)
    (** [fmt.Printf], [fmt.Println], [cli.PrintRedf] and the like *)
| Log (text : string)
    (** the line [log.Fatal] writes before it exits *)
| Debug (text : string)
    (** [cli.DebugMsg] *)
| Diffed (c : Change.t)
    (** [cli.ShowDiff] on the two states of a change *)
| Asked (prompt : string) (answer : bool)
    (** [cli.AskForConfirmation] and what it returned *)
| RemoteUpdated (changeset : Changeset.t)
    (** [openshift.UpdateRemote]: the mutation of the cluster *)
| Written (filename content : string)
    (** the call of [ioutil.WriteFile] on a file and the content given
        to it, whether or not the call returns an error: the file is
        truncated before it is written *).

(** A run either returns to its caller or ends the process. *)
Inductive outcome (A : Type) : Type :=
| Return (a : A)
| Exit (code : nat).
Arguments Return {A} a.
Arguments Exit {A} code.

Definition proc (A : Type) : Type := list Event * outcome A.

Definition ret {A} (a : A) : proc A := ([], Return a).

Definition bind {A B} (m : proc A) (k : A -> proc B) : proc B :=
  match m with
  | (t, Return a) => let (t', o) := k a in ((t ++ t')%list, o)
  | (t, Exit code) => (t, Exit code)
  end.

Notation "x <- m ;; k" := (bind m (fun x => k))
  (at level 61, m at next level, right associativity).
Notation "m ;;; k" := (bind m (fun _ => k))
  (at level 61, right associativity).

Definition emit (e : Event) : proc unit := ([e], Return tt).

(** [fmt.Printf] with its verbs already filled in. *)
Definition Printf (text : string) : proc unit := emit (Print Plain text).
Definition PrintRedf (text : string) : proc unit := emit (Print Red text).
Definition PrintGreenf (text : string) : proc unit := emit (Print Green text).
Definition PrintYellowf (text : string) : proc unit := emit (Print Yellow text).

(** [os.Exit]. *)
Definition osExit {A} (code : nat) : proc A := ([], Exit code).

(** [log.Fatalln], [log.Fatalf], [log.Fatal]: the message, then
    [os.Exit(1)]. *)
Definition Fatal {A} (msg : string) : proc A := ([Log msg], Exit 1).

(** Go's [for _, x := range l { body }]. *)
Fixpoint forEach {A} (l : list A) (body : A -> proc unit) : proc unit :=
  match l with
  | [] => ret tt
  | x :: rest => body x ;;; forEach rest body
  end.

Definition trace {A} (p : proc A) : list Event := fst p.

(** The exit code of the process whose [main] is [p]. *)
Definition exitCode {A} (p : proc A) : nat :=
  match snd p with
  | Return _ => 0
  | Exit code => code
  end.

(** Whether an event changes the cluster. *)
Definition mutatesCluster (e : Event) : bool :=
  match e with
  | RemoteUpdated _ => true
  | _ => false
  end.

(** The lines on the limits of the comparison, the same in both
    [calculateChangeset]s. *)
Definition limiting (resource selector : string) : proc unit :=
  if (0 <? String.length resource)%nat && (0 <? String.length selector)%nat then
    Printf ("Limiting resources to " ++ resource
            ++ " with selector " ++ selector ++ "." ++ nl)
  else if (0 <? String.length selector)%nat then
    Printf ("Limiting to resources with selector " ++ selector ++ "." ++ nl)
  else if (0 <? String.length resource)%nat then
    Printf ("Limiting resources to " ++ resource ++ "." ++ nl)
  else ret tt.

(** The line on what was found in the cluster and in the templates. *)
Definition resourcesWord (n : nat) : string :=
  if (n =? 1)%nat then "resource" else "resources".

Definition found (remote local_ : nat) : proc unit :=
  Printf ("Found " ++ itoa remote ++ " " ++ resourcesWord remote
          ++ " in OCP cluster (current state) and "
          ++ itoa local_ ++ " " ++ resourcesWord local_
          ++ " in processed templates (desired state)." ++ nl ++ nl).

(* ================================================================== *)
(** * Package [openshift]: the parameter store *)

(** The parameter store of package [openshift] ([NewParamsFromFile],
    [Process], [NewParamsFromInput], [Render]) is not part of the
    sources at hand.  It is modelled on the lines of a parameter file
    rather than on its bytes: a file is the serialisation of a
    [ParamFile]. *)

Module Params.

(** Modelled from the spec: the record [Parameter].  For an encrypted
    parameter of a file [Value] is the envelope in base 64; [Decrypted]
    is the plaintext kept next to it once the file is read (for a
    plain parameter, its value). *)
Record Param : Type := {
  Key : string;
  Value : string;
  Encrypted : bool;
  Decrypted : string
}.

(** Modelled from the spec: a line of a parameter file, a parameter
    ([encrypted] for a [*.ENC] key) or a blank line or comment, which
    is "preserved across round-trip". *)
Inductive Entry : Type :=
| Assign (key value : string) (encrypted : bool)
| Verbatim (line : string).

(** Modelled from the spec: "ordered sequence of parameters plus a
    trailing public-key fingerprint block". *)
Record ParamFile : Type := {
  Entries : list Entry;
  Fingerprints : list string
}.

(** Modelled from the spec: the file grammar, [KEY=plain-value] and
    [KEY.ENC=base64(envelope)]. *)
Definition line (e : Entry) : string :=
  match e with
  | Assign key value true => key ++ ".ENC=" ++ value
  | Assign key value false => key ++ "=" ++ value
  | Verbatim l => l
  end.

(** Modelled from the spec: the bytes of a parameter file, its lines
    and then [#public-key-fingerprints: <hex>[,<hex>]*]. *)
Definition serialize (f : ParamFile) : string :=
  String.concat EmptyString
    (map (fun l => l ++ nl)
         (List.app (map line (Entries f))
                   ["#public-key-fingerprints: " ++ Join (Fingerprints f) ","])).

(** Modelled from the spec: what [openshift.Params] holds in memory,
    parameters and the preserved lines between them. *)
Inductive Item : Type :=
| OfParam (p : Param)
| Kept (line : string).

Definition t : Type := list Item.

Section Store.

(** Decryption of an envelope with the configured private key and
    passphrase; encryption of a plaintext to every public key of
    [public-key-dir] (a fresh session key each time: any function);
    the fingerprints of those public keys. *)
Variable decrypt : string -> option string.
Variable encrypt : string -> string.
Variable fingerprints : list string.

(** Modelled from the spec: the operation Read of
    [openshift.NewParamsFromFile], "parse, and for each [*.ENC] key
    decrypt"; "a decryption failure aborts the operation with
    [KeyMismatch]". *)
Fixpoint readEntries (es : list Entry) : fallible t :=
  match es with
  | [] => Success []
  | e :: rest =>
      match readEntries rest with
      | Failure err => Failure err
      | Success items =>
          match e with
          | Verbatim l => Success (Kept l :: items)
          | Assign key value false =>
              Success (OfParam (Build_Param key value false value) :: items)
          | Assign key value true =>
              match decrypt value with
              | Some plaintext =>
                  Success (OfParam (Build_Param key value true plaintext) :: items)
              | None => Failure "KeyMismatch"
              end
          end
      end
  end.

(** Modelled from the spec: [openshift.NewParamsFromFile] on the
    parameter file at its path. *)
Definition NewParamsFromFile (f : ParamFile) : fallible t :=
  readEntries (Entries f).

(** Modelled from the spec: the method [Process] of [openshift.Params],
    "decrypt into a plaintext editor buffer"; the buffer has the lines
    of the file with the plaintexts in the place of the envelopes. *)
Definition Process (params : t) : list Entry :=
  map (fun i =>
         match i with
         | OfParam p => Assign (Key p) (Decrypted p) (Encrypted p)
         | Kept l => Verbatim l
         end)
      params.

(** Modelled from the spec: [openshift.NewParamsFromInput], the
    buffer is "re-read"; what it holds are plaintexts. *)
Definition NewParamsFromInput (buffer : list Entry) : fallible t :=
  Success
    (map (fun e =>
            match e with
            | Assign key value encrypted =>
                OfParam (Build_Param key value encrypted value)
            | Verbatim l => Kept l
            end)
         buffer).

(** Modelled from the spec: the "diff against original" of Edit, by
    key: the encrypted parameter of the original with this key. *)
Definition previousOf (previous : t) (key : string) : option Param :=
  let hit i :=
    match i with
    | OfParam q => Encrypted q && String.eqb (Key q) key
    | Kept _ => false
    end in
  match find hit previous with
  | Some (OfParam q) => Some q
  | _ => None
  end.

(** Modelled from the spec: one parameter in the method [Render] of
    [openshift.Params], "keys whose plaintext did not change keep
    their original ciphertext byte-for-byte; changed or new keys are
    re-encrypted using every public key discovered in
    [public-key-dir]". *)
Definition renderItem (previous : t) (i : Item) : Entry :=
  match i with
  | Kept l => Verbatim l
  | OfParam p =>
      if Encrypted p then
        match previousOf previous (Key p) with
        | Some q =>
            if String.eqb (Decrypted q) (Decrypted p)
            then Assign (Key p) (Value q) true
            else Assign (Key p) (encrypt (Decrypted p)) true
        | None => Assign (Key p) (encrypt (Decrypted p)) true
        end
      else Assign (Key p) (Decrypted p) false
  end.

(** Modelled from the spec: the method [Render] of [openshift.Params],
    the rendered parameters and the fingerprints of the public keys. *)
Definition Render (params previous : t) : fallible string :=
  Success (serialize
             {| Entries := map (renderItem previous) params;
                Fingerprints := fingerprints |}).

End Store.



End Params.

(* ================================================================== *)
(** * [main.go] (release 0.7.0) *)

Module Main.

(** The table [kindMapping], in the order of the source. *)
Definition kindMapping : list (string * string) :=
  [ ("svc", "Service");
    ("service", "Service");
    ("route", "Route");
    ("dc", "DeploymentConfig");
    ("deploymentconfig", "DeploymentConfig");
    ("bc", "BuildConfig");
    ("buildconfig", "BuildConfig");
    ("is", "ImageStream");
    ("imagestream", "ImageStream");
    ("pvc", "PersistentVolumeClaim");
    ("persistentvolumeclaim", "PersistentVolumeClaim");
    ("template", "Template");
    ("cm", "ConfigMap");
    ("configmap", "ConfigMap");
    ("secret", "Secret");
    ("rolebinding", "RoleBinding");
    ("serviceaccount", "ServiceAccount") ].

(** [v, ok := m[k]] on a map literal. *)
Fixpoint lookup (m : list (string * string)) (k : string) : option string :=
  match m with
  | [] => None
  | (k', v) :: m' => if String.eqb k k' then Some v else lookup m' k
  end.

(** [m[k]]: the zero value, the empty string, for a missing key. *)
Definition at_key (m : list (string * string)) (k : string) : string :=
  match lookup m k with
  | Some v => v
  | None => EmptyString
  end.

Definition known (kind : string) : bool :=
  match lookup kindMapping kind with
  | Some _ => true
  | None => false
  end.

(** The short aliases the table knows, with their kinds. *)
Definition shortAliases : list (string * string) :=
  [ ("dc", "DeploymentConfig"); ("bc", "BuildConfig"); ("svc", "Service");
    ("is", "ImageStream"); ("pvc", "PersistentVolumeClaim"); ("cm", "ConfigMap") ].

(** [targetedKinds[k] = true] on a [map[string]bool] used as a set. *)
Definition setTrue (keys : list string) (k : string) : list string :=
  if existsb (String.eqb k) keys then keys else (keys ++ [k])%list.

(** The loop of [getFilter] over the kinds: the set of targeted kinds
    and the unknown tokens, in order. *)
Fixpoint scanKinds (kinds : list string) (targetedKinds unknownKinds : list string)
    : list string * list string :=
  match kinds with
  | [] => (targetedKinds, unknownKinds)
  | kind :: rest =>
      match lookup kindMapping kind with
      | None => scanKinds rest targetedKinds (unknownKinds ++ [kind])%list
      | Some _ => scanKinds rest (setTrue targetedKinds (at_key kindMapping kind)) unknownKinds
      end
  end.

Definition errMoreThanOne : error := "You cannot target more than one resource name".

Definition errUnknownKinds (unknownKinds : list string) : error :=
  "Unknown resource kinds: " ++ Join unknownKinds ",".

(** [getFilter]: [kindArg] might be blank, or a list of kinds
    (['pvc,dc']) or a kind/name combination (['dc/foo']). *)
Definition getFilter (lower : Lowering) (kindArg selectorFlag : string)
    : result ResourceFilter.t :=
  let filter := ResourceFilter.Build [] EmptyString selectorFlag [] in
  if (String.length kindArg =? 0)%nat then Ok filter
  else
    let kindArg := ToLower lower kindArg in
    if Contains kindArg "/" then
      if Contains kindArg "," then Err errMoreThanOne
      else
        let nameParts := Split kindArg "/" in
        match index nameParts 0 with
        | Ok kind =>
            match index nameParts 1 with
            | Ok name =>
                Ok (ResourceFilter.Build
                      (ResourceFilter.Kinds filter)
                      (at_key kindMapping kind ++ "/" ++ name)
                      (ResourceFilter.Label filter)
                      (ResourceFilter.Exclude filter))
            | Err e => Err e
            | Panic m => Panic m
            end
        | Err e => Err e
        | Panic m => Panic m
        end
    else
      let kinds := Split kindArg "," in
      let '(targetedKinds, unknownKinds) := scanKinds kinds [] [] in
      if (0 <? List.length unknownKinds)%nat then Err (errUnknownKinds unknownKinds)
      else
        Ok (ResourceFilter.Build
              (SortStrings (ResourceFilter.Kinds filter ++ targetedKinds)%list)
              (ResourceFilter.Name filter)
              (ResourceFilter.Label filter)
              (ResourceFilter.Exclude filter)).

(** The options of a comparison, after [UpdateWithFile] and
    [UpdateWithFlags]: the fields [main.go] reads. *)
Record CompareOptions : Type := {
  NonInteractive : bool;
  Namespace : string;
  Selector : string;
  TemplateDirs : list string;
  ParamDirs : list string;
  UpsertOnly : bool;
  Resource : string
}.

(** What the run gets from packages [cli] and [openshift], from the
    file system, from [oc] and from the user. *)
Record Env : Type := {
  Config : Type;
  GetFileFlags : option error;
    (** the error of [cli.GetFileFlags] *)
  GlobalProcess : option error;
    (** the error of [globalOptions.Process] *)
  CompareProcess : option error;
    (** the error of [compareOptions.Process] *)
  Whoami : bool;
    (** whether [oc whoami] succeeded *)
  Lower : Lowering;
    (** [strings.ToLower] *)
  Getwd : string;
  ReadDir : string -> fallible (list string);
  ProcessTemplate : string -> string -> string -> CompareOptions -> fallible string;
  NewConfigFromList : string -> Config;
  AppendItems : ResourceList.t -> Config -> ResourceList.t;
  ExportResources : ResourceFilter.t -> CompareOptions -> fallible string;
  FilterString : ResourceFilter.t -> string;
  NewChangeset : ResourceList.t -> ResourceList.t -> bool -> Changeset.t;
  Stdin : string;
    (** what the user types at a prompt *)
  AskForConfirmation : string -> string -> bool;
    (** [cli.AskForConfirmation] on a prompt and the user's input *)
  ParamFileAt : string -> fallible Params.ParamFile;
    (** the parameter file at a path *)
  Decrypt : string -> option string;
    (** with [globalOptions.PrivateKey] and [globalOptions.Passphrase] *)
  Encrypt : string -> string;
    (** to the public keys of [globalOptions.PublicKeyDir] *)
  PublicKeys : list string;
    (** the fingerprints of those public keys *)
  EditEnvFile : list Params.Entry -> fallible (list Params.Entry);
    (** [cli.EditEnvFile]: the buffer as the user's editor leaves it *)
  WriteFile : string -> string -> option error
    (** the error of [ioutil.WriteFile] *)
}.

(** A panic is recovered by the deferred function of [main], which
    calls [log.Fatalf]. *)
Definition panic {A} (msg : string) : proc A := Fatal ("Fatal error: " ++ msg).

(** The pattern [".*\\.ya?ml$"] of [regexp.MatchString]. *)
Definition matchedYaml (name : string) : bool :=
  HasSuffix name ".yml" || HasSuffix name ".yaml".

Section Run.

Variable env : Env.

Definition checkLoggedIn : proc unit :=
  if Whoami env then ret tt
  else Fatal "You need to login with 'oc login' first.".

(** The inner loop of [assembleLocalResourceList], over the files of
    the template directory of index [i]. *)
Fixpoint readTemplates (compareOptions : CompareOptions) (templateDir : string)
    (i : nat) (files : list string) (list : ResourceList.t) : proc ResourceList.t :=
  match files with
  | [] => ret list
  | file :: rest =>
      if negb (matchedYaml file) then
        readTemplates compareOptions templateDir i rest list
      else
        emit (Debug ("Reading " ++ file)) ;;;
        match index (ParamDirs compareOptions) i with
        | Ok paramDir =>
            match ProcessTemplate env templateDir file paramDir compareOptions with
            | Success processedOut =>
                let processedConfig := NewConfigFromList env processedOut in
                readTemplates compareOptions templateDir i rest
                  (AppendItems env list processedConfig)
            | Failure err =>
                Fatal ("Could not process " ++ file ++ " template: " ++ err)
            end
        | Err err => Fatal err
        | Panic msg => panic msg
        end
  end.

(** The outer loop, over the template directories from index [i]. *)
Fixpoint readTemplateDirs (compareOptions : CompareOptions) (i : nat)
    (templateDirs : list string) (list : ResourceList.t) : proc ResourceList.t :=
  match templateDirs with
  | [] => ret list
  | templateDir :: rest =>
      match ReadDir env templateDir with
      | Success files =>
          list' <- readTemplates compareOptions templateDir i files list ;;
          readTemplateDirs compareOptions (S i) rest list'
      | Failure err => Fatal err
      end
  end.

Definition assembleLocalResourceList (filter : ResourceFilter.t)
    (compareOptions : CompareOptions) : proc ResourceList.t :=
  readTemplateDirs compareOptions 0 (TemplateDirs compareOptions)
    (ResourceList.Build filter []).

Definition assembleRemoteResourceList (filter : ResourceFilter.t)
    (compareOptions : CompareOptions) : proc ResourceList.t :=
  let list := ResourceList.Build filter [] in
  match ExportResources env filter compareOptions with
  | Success exportedOut =>
      ret (AppendItems env list (NewConfigFromList env exportedOut))
  | Failure _ =>
      Fatal ("Could not export " ++ FilterString env filter ++ "  resources.")
  end.

Definition compare (remoteResourceList localResourceList : ResourceList.t)
    (upsertOnly : bool) : proc Changeset.t :=
  let changeset := NewChangeset env remoteResourceList localResourceList upsertOnly in
  forEach (Changeset.Noop changeset) (fun change =>
    Printf ("* " ++ Change.ItemName change ++ " is in sync" ++ nl)) ;;;
  forEach (Changeset.Delete changeset) (fun change =>
    PrintRedf ("- " ++ Change.ItemName change ++ " to be deleted" ++ nl) ;;;
    emit (Diffed change)) ;;;
  forEach (Changeset.Create changeset) (fun change =>
    PrintGreenf ("+ " ++ Change.ItemName change ++ " to be created" ++ nl) ;;;
    emit (Diffed change)) ;;;
  forEach (Changeset.Update changeset) (fun change =>
    PrintYellowf ("~ " ++ Change.ItemName change ++ " to be updated" ++ nl) ;;;
    emit (Diffed change)) ;;;
  ret changeset.

(** [calculateChangeset] of [main.go]: the triple
    [(updateRequired, changeset, err)]. *)
Definition calculateChangeset (compareOptions : CompareOptions)
    : proc (bool * Changeset.t * option error) :=
  let updateRequired := false in
  let where_ :=
    if (List.length (TemplateDirs compareOptions) =? 1)%nat
       && String.eqb (hd EmptyString (TemplateDirs compareOptions)) "."
    then Getwd env
    else Join (TemplateDirs compareOptions) ", " in
  Printf ("Comparing templates in " ++ where_ ++ " with OCP namespace "
          ++ Namespace compareOptions ++ "." ++ nl) ;;;
  limiting (Resource compareOptions) (Selector compareOptions) ;;;
  let resource := Resource compareOptions in
  let selectorFlag := Selector compareOptions in
  let upsertOnly := UpsertOnly compareOptions in
  match getFilter (Lower env) resource selectorFlag with
  | Err err => ret (updateRequired, Changeset.empty, Some err)
  | Panic msg => panic msg
  | Ok filter =>
      localResourceList <- assembleLocalResourceList filter compareOptions ;;
      remoteResourceList <- assembleRemoteResourceList filter compareOptions ;;
      found (ResourceList.Length remoteResourceList)
            (ResourceList.Length localResourceList) ;;;
      changeset <- compare remoteResourceList localResourceList upsertOnly ;;
      let updateRequired := negb (Changeset.Blank changeset) in
      ret (updateRequired, changeset, None)
  end.

(** The commands of [main] that are embedded here. *)
Inductive Command : Type :=
| versionCommand
| editCommand (editFileArg : string)
| statusCommand
| updateCommand.

(** [openshift.UpdateRemote]. *)
Definition UpdateRemote (changeset : Changeset.t) : proc unit :=
  emit (RemoteUpdated changeset).

(** [c := cli.AskForConfirmation(prompt)]. *)
Definition askForConfirmation (prompt : string) : proc bool :=
  let c := AskForConfirmation env prompt (Stdin env) in
  emit (Asked prompt c) ;;; ret c.

(** The case [statusCommand] of [main]. *)
Definition status (compareOptions : CompareOptions) : proc unit :=
  checkLoggedIn ;;;
  match CompareProcess env with
  | Some err => Fatal ("Options could not be processed: " ++ err)
  | None =>
      r <- calculateChangeset compareOptions ;;
      let '(updateRequired, _, err) := r in
      match err with
      | Some err => Fatal err
      | None => if updateRequired then osExit 3 else ret tt
      end
  end.

(** The case [updateCommand] of [main]. *)
Definition update (compareOptions : CompareOptions) : proc unit :=
  checkLoggedIn ;;;
  match CompareProcess env with
  | Some err => Fatal ("Options could not be processed: " ++ err)
  | None =>
      r <- calculateChangeset compareOptions ;;
      let '(updateRequired, changeset, err) := r in
      match err with
      | Some err => Fatal err
      | None =>
          if updateRequired then
            if NonInteractive compareOptions then UpdateRemote changeset
            else
              c <- askForConfirmation "Apply changes?" ;;
              if c then UpdateRemote changeset else ret tt
          else ret tt
      end
  end.

(** The case [editCommand] of [main]. *)
Definition edit (editFileArg : string) : proc unit :=
  match ParamFileAt env editFileArg with
  | Failure err => Fatal ("Could not read file: " ++ err ++ ".")
  | Success file =>
  match Params.NewParamsFromFile (Decrypt env) file with
  | Failure err => Fatal ("Could not read file: " ++ err ++ ".")
  | Success readParams =>
  let readContent := Params.Process readParams in
  match EditEnvFile env readContent with
  | Failure err => Fatal ("Could not edit file: " ++ err ++ ".")
  | Success editedContent =>
  match Params.NewParamsFromInput editedContent with
  | Failure err => Fatal err
  | Success editedParams =>
  match Params.Render (Encrypt env) (PublicKeys env) editedParams readParams with
  | Failure err => Fatal err
  | Success renderedContent =>
  emit (Written editFileArg renderedContent) ;;;
  match WriteFile env editFileArg renderedContent with
  | Some err => Fatal ("Could not write file: " ++ err ++ ".")
  | None => ret tt
  end end end end end end.

(** [main], after the command line is parsed. *)
Definition main (command : Command) (compareOptions : CompareOptions) : proc unit :=
  match GetFileFlags env with
  | Some err => Fatal ("Could not read Tailorfile: " ++ err)
  | None =>
      match GlobalProcess env with
      | Some err => Fatal ("Options could not be processed: " ++ err)
      | None =>
          match command with
          | versionCommand => Printf ("0.7.0" ++ nl)
          | editCommand editFileArg => edit editFileArg
          | statusCommand => status compareOptions
          | updateCommand => update compareOptions
          end
      end
  end.

End Run.
End Main.

(* ================================================================== *)
(** * Package [commands]: [Diff] *)

Module Commands.

(** [cli.CompareOptions]: the fields and methods package [commands]
    reads. *)
Record CompareOptions : Type := {
  Namespace : string;
  Selector : string;
  Exclude : string;
  TemplateDir : string;
  ParamDir : string;
  Resource : string;
  Force : bool;
  UpsertOnly : bool;
  AllowRecreate : bool;
  RevealSecrets : bool;
  PathsToPreserve : list string
}.

(** What [Diff] gets from packages [cli] and [openshift], from the
    file system and from the [oc] client. *)
Record Env : Type := {
  NewResourceFilter : string -> string -> string -> fallible ResourceFilter.t;
  ReadDir : string -> fallible (list string);
  ProcessTemplate : string -> string -> string -> CompareOptions -> fallible string;
  NewTemplateBasedResourceList : ResourceFilter.t -> list string -> fallible ResourceList.t;
  ConvertToKinds : ResourceFilter.t -> string;
  FilterString : ResourceFilter.t -> string;
  Export : string -> string -> fallible string;
    (** the method [Export] of the [oc] client *)
  NewPlatformBasedResourceList : ResourceFilter.t -> string -> fallible ResourceList.t;
  canon : Resource.Tree -> Resource.Tree;
  jsonPatch : Resource.Tree -> Resource.Tree -> list Patch.t;
  renderDiff : option Resource.t -> option Resource.t -> list Patch.t -> string;
  resolveKind : string -> string;
  ChangeDiff : Change.t -> bool -> string
    (** the method [Diff] of a change, given [revealSecrets] *)
}.

Definition matchedYaml (name : string) : bool :=
  HasSuffix name ".yml" || HasSuffix name ".yaml".

Section Run.

Variable env : Env.

Definition NewChangeset :=
  Engine.NewChangeset (canon env) (jsonPatch env) (renderDiff env) (resolveKind env).

(** The loop of [assembleTemplateBasedResourceList] over the files. *)
Fixpoint processTemplates (compareOptions : CompareOptions)
    (files : list string) (inputs : list string) : proc (fallible (list string)) :=
  match files with
  | [] => ret (Success inputs)
  | file :: rest =>
      if negb (matchedYaml file) then processTemplates compareOptions rest inputs
      else
        emit (Debug ("Reading template " ++ file)) ;;;
        match ProcessTemplate env (TemplateDir compareOptions) file
                (ParamDir compareOptions) compareOptions with
        | Failure err =>
            ret (Failure ("Could not process " ++ file ++ " template: " ++ err))
        | Success processedOut =>
            processTemplates compareOptions rest (inputs ++ [processedOut])%list
        end
  end.

Definition assembleTemplateBasedResourceList (filter : ResourceFilter.t)
    (compareOptions : CompareOptions) : proc (fallible ResourceList.t) :=
  match ReadDir env (TemplateDir compareOptions) with
  | Failure err => ret (Failure err)
  | Success files =>
      r <- processTemplates compareOptions files [] ;;
      match r with
      | Failure err => ret (Failure err)
      | Success inputs => ret (NewTemplateBasedResourceList env filter inputs)
      end
  end.

Definition assemblePlatformBasedResourceList (filter : ResourceFilter.t)
    (compareOptions : CompareOptions) : proc (fallible ResourceList.t) :=
  match Export env (ConvertToKinds env filter) (ResourceFilter.Label filter) with
  | Failure err =>
      ret (Failure ("Could not export " ++ FilterString env filter
                    ++ " resources: " ++ err))
  | Success exportedOut => ret (NewPlatformBasedResourceList env filter exportedOut)
  end.

(** [compare]: the changeset with the error of [NewChangeset]. *)
Definition compare (remoteResourceList localResourceList : ResourceList.t)
    (upsertOnly allowRecreate revealSecrets : bool) (preservePaths : list string)
    : proc (Changeset.t * option error) :=
  match NewChangeset remoteResourceList localResourceList upsertOnly
          allowRecreate preservePaths with
  | (changeset, Some err) => ret (changeset, Some err)
  | (changeset, None) =>
      forEach (Changeset.Noop changeset) (fun change =>
        Printf ("* " ++ Change.ItemName change ++ " is in sync" ++ nl)) ;;;
      forEach (Changeset.Delete changeset) (fun change =>
        PrintRedf ("- " ++ Change.ItemName change ++ " to delete" ++ nl) ;;;
        Printf (ChangeDiff env change revealSecrets)) ;;;
      forEach (Changeset.Create changeset) (fun change =>
        PrintGreenf ("+ " ++ Change.ItemName change ++ " to create" ++ nl) ;;;
        Printf (ChangeDiff env change revealSecrets)) ;;;
      forEach (Changeset.Update changeset) (fun change =>
        PrintYellowf ("~ " ++ Change.ItemName change ++ " to update" ++ nl) ;;;
        Printf (ChangeDiff env change revealSecrets)) ;;;
      Printf (nl ++ "Summary: " ++ itoa (List.length (Changeset.Noop changeset))
              ++ " in sync, ") ;;;
      PrintGreenf (itoa (List.length (Changeset.Create changeset)) ++ " to create") ;;;
      Printf ", " ;;;
      PrintYellowf (itoa (List.length (Changeset.Update changeset)) ++ " to update") ;;;
      Printf ", " ;;;
      PrintRedf (itoa (List.length (Changeset.Delete changeset))
                 ++ " to delete" ++ nl ++ nl) ;;;
      ret (changeset, None)
  end.

(** The message of the refusal to go on without [--force]. *)
Definition refuse (compareOptions : CompareOptions) (where_ : string) : proc unit :=
  Printf "No items where found in desired state. " ;;;
  (if (String.length (Resource compareOptions) =? 0)%nat
      && (String.length (Selector compareOptions) =? 0)%nat then
     Printf ("Are there any templates in " ++ where_ ++ "?" ++ nl)
   else
     Printf ("Possible reasons are:" ++ nl
             ++ "* No templates are located in " ++ where_ ++ nl) ;;;
     (if (0 <? String.length (Resource compareOptions))%nat then
        Printf ("* No templates contain resources of kinds: "
                ++ Resource compareOptions ++ nl)
      else ret tt) ;;;
     (if (0 <? String.length (Selector compareOptions))%nat then
        Printf ("* No templates contain resources matching selector: "
                ++ Selector compareOptions ++ nl)
      else ret tt)) ;;;
  Printf (nl ++ "Refusing to continue without --force" ++ nl).

(** [calculateChangeset]: the triple [(updateRequired, changeset, err)]. *)
Definition calculateChangeset (compareOptions : CompareOptions)
    : proc (bool * Changeset.t * option error) :=
  let updateRequired := false in
  let where_ := TemplateDir compareOptions in
  Printf ("Comparing templates in " ++ where_ ++ " with OCP namespace "
          ++ Namespace compareOptions ++ "." ++ nl) ;;;
  limiting (Resource compareOptions) (Selector compareOptions) ;;;
  let resource := Resource compareOptions in
  match NewResourceFilter env resource (Selector compareOptions)
          (Exclude compareOptions) with
  | Failure err => ret (updateRequired, Changeset.empty, Some err)
  | Success filter =>
  r <- assembleTemplateBasedResourceList filter compareOptions ;;
  match r with
  | Failure err => ret (updateRequired, Changeset.empty, Some err)
  | Success templateBasedList =>
  r <- assemblePlatformBasedResourceList filter compareOptions ;;
  match r with
  | Failure err => ret (updateRequired, Changeset.empty, Some err)
  | Success platformBasedList =>
  found (ResourceList.Length platformBasedList)
        (ResourceList.Length templateBasedList) ;;;
  if (ResourceList.Length templateBasedList =? 0)%nat
     && negb (Force compareOptions) then
    refuse compareOptions where_ ;;;
    ret (updateRequired, Changeset.empty, None)
  else
    r <- compare platformBasedList templateBasedList
           (UpsertOnly compareOptions) (AllowRecreate compareOptions)
           (RevealSecrets compareOptions) (PathsToPreserve compareOptions) ;;
    match r with
    | (changeset, Some err) => ret (false, changeset, Some err)
    | (changeset, None) =>
        let updateRequired := negb (Changeset.Blank changeset) in
        ret (updateRequired, changeset, None)
    end
  end end end.

(** [Diff] prints the drift between desired and current state. *)
Definition Diff (compareOptions : CompareOptions) : proc (bool * option error) :=
  r <- calculateChangeset compareOptions ;;
  let '(driftDetected, _, err) := r in
  ret (driftDetected, err).

End Run.
End Commands.

(* ================================================================== *)
(** * The case [diffCommand] of the later [main] *)

Module Cmd.

(** What [main] gets before it calls [commands.Diff]: the errors of
    [cli.NewGlobalOptions] and [cli.NewCompareOptions]. *)
Record Options : Type := {
  NewGlobalOptions : option error;
  NewCompareOptions : fallible Commands.CompareOptions
}.

(** The case [diffCommand] of [main], for one context directory (the
    [Diff] at hand compares one set of options). *)
Definition diff (env : Commands.Env) (o : Options) : proc unit :=
  match NewGlobalOptions o with
  | Some err => Fatal ("Options could not be processed: " ++ err)
  | None =>
      match NewCompareOptions o with
      | Failure err => Fatal ("Options could not be processed: " ++ err)
      | Success opt =>
          r <- Commands.Diff env opt ;;
          let '(driftDectected, err) := r in
          match err with
          | Some err => Fatal err
          | None => if driftDectected then osExit 3 else ret tt
          end
      end
  end.

End Cmd.

(* ================================================================== *)
(** * Reading a run *)

(** Every event of the run satisfies [P]. *)
Definition only (P : Event -> bool) {A} (p : proc A) : Prop :=
  forallb P (trace p) = true.

(** Every exit of the run has code 1. *)
Definition exits1 {A} (p : proc A) : Prop :=
  forall c, snd p = Exit c -> c = 1.

(** Events that leave the cluster as it is. *)
Definition harmless (e : Event) : bool := negb (mutatesCluster e).

(** Events that propose no deletion: [compare] prints those in red. *)
Definition notRed (e : Event) : bool :=
  match e with
  | Print Red _ => false
  | _ => true
  end.

(** The last line of the refusal to go on. *)
Definition refusing : Event :=
  Print Plain (nl ++ "Refusing to continue without --force" ++ nl).

(** The line of [compare] for a change that needs nothing. *)
Definition inSync (c : Change.t) : Event :=
  Print Plain ("* " ++ Change.ItemName c ++ " is in sync" ++ nl).

(** The last part of the summary line of [compare], for [n] deletions. *)
Definition toDelete (n : nat) : Event :=
  Print Red (itoa n ++ " to delete" ++ nl ++ nl).






(* ================================================================== *)
(** * Scenarios *)

Module Scenario.

Fixpoint sameTree (a b : Resource.Tree) : bool :=
  match a, b with
  | Resource.Scalar x, Resource.Scalar y => String.eqb x y
  | Resource.Mapping xs, Resource.Mapping ys =>
      (fix go (xs ys : list (string * Resource.Tree)) : bool :=
         match xs, ys with
         | [], [] => true
         | (k, v) :: xs', (k', v') :: ys' =>
             String.eqb k k' && sameTree v v' && go xs' ys'
         | _, _ => false
         end) xs ys
  | Resource.Sequence xs, Resource.Sequence ys =>
      (fix go (xs ys : list Resource.Tree) : bool :=
         match xs, ys with
         | [], [] => true
         | v :: xs', v' :: ys' => sameTree v v' && go xs' ys'
         | _, _ => false
         end) xs ys
  | _, _ => false
  end.

(** A diff that replaces the whole document when it differs. *)
Definition wholePatch (a b : Resource.Tree) : list Patch.t :=
  if sameTree a b then [] else [Patch.Build Patch.replace EmptyString (Some b)].

Definition port (n : string) : Resource.Tree :=
  Resource.Mapping
    [("spec", Resource.Mapping
                [("ports", Resource.Sequence
                             [Resource.Mapping [("port", Resource.Scalar n)]])])].

(** [Service pi], as the templates and as the cluster have it. *)
Definition servicePi (from : Resource.Provenance) (n : string) : Resource.t :=
  Resource.Build "Service" "pi" [] [] (port n) from.

(** [ConfigMap extra], which only the cluster has. *)
Definition configMapExtra : Resource.t :=
  Resource.Build "ConfigMap" "extra" [] []
    (Resource.Mapping [("data", Resource.Mapping [("k", Resource.Scalar "v")])])
    Resource.current.

(** A cluster with the resources [current] and templates that expand
    to [desired]. *)
Definition cluster (current desired : list Resource.t) : Commands.Env :=
  {| Commands.NewResourceFilter := fun _ selector _ =>
       Success (ResourceFilter.Build [] EmptyString selector []);
     Commands.ReadDir := fun _ => Success ["template.yml"; "README.md"];
     Commands.ProcessTemplate := fun _ _ _ _ => Success "processed";
     Commands.NewTemplateBasedResourceList := fun f _ =>
       Success (ResourceList.Build f desired);
     Commands.ConvertToKinds := fun _ => "svc,cm";
     Commands.FilterString := fun _ => "svc,cm";
     Commands.Export := fun _ _ => Success "exported";
     Commands.NewPlatformBasedResourceList := fun f _ =>
       Success (ResourceList.Build f current);
     Commands.canon := fun t => t;
     Commands.jsonPatch := wholePatch;
     Commands.renderDiff := fun _ _ _ => EmptyString;
     Commands.resolveKind := Main.at_key Main.kindMapping;
     Commands.ChangeDiff := fun _ _ => EmptyString |}.

Definition options (force upsertOnly : bool) : Commands.CompareOptions :=
  {| Commands.Namespace := "dev";
     Commands.Selector := EmptyString;
     Commands.Exclude := EmptyString;
     Commands.TemplateDir := ".";
     Commands.ParamDir := ".";
     Commands.Resource := EmptyString;
     Commands.Force := force;
     Commands.UpsertOnly := upsertOnly;
     Commands.AllowRecreate := false;
     Commands.RevealSecrets := false;
     Commands.PathsToPreserve := [] |}.

Definition parsed (o : Commands.CompareOptions) : Cmd.Options :=
  {| Cmd.NewGlobalOptions := None; Cmd.NewCompareOptions := Success o |}.

Definition anyFilter : ResourceFilter.t :=
  ResourceFilter.Build [] EmptyString EmptyString [].

(** A parameter file with one encrypted value. *)
Definition passwordFile : Params.ParamFile :=
  {| Params.Entries :=
       [Params.Verbatim "# database"; Params.Assign "USER" "tailor" false;
        Params.Assign "PASSWORD" "c2VjcmV0" true];
     Params.Fingerprints := ["94b1"] |}.

(** A user of release 0.7.0 in front of a cluster that has
    [Service pi] on port 80 while the templates want port [wanted];
    the user types [stdin] at the prompt and saves the editor buffer
    as it is. *)
Definition user (stdin wanted : string) : Main.Env :=
  {| Main.Config := list Resource.t;
     Main.GetFileFlags := None;
     Main.GlobalProcess := None;
     Main.CompareProcess := None;
     Main.Whoami := true;
     Main.Lower := latin;
     Main.Getwd := "/home/tailor";
     Main.ReadDir := fun _ => Success ["template.yml"];
     Main.ProcessTemplate := fun _ _ _ _ => Success "processed";
     Main.NewConfigFromList := fun out =>
       if String.eqb out "processed"
       then [servicePi Resource.desired wanted]
       else [servicePi Resource.current "80"];
     Main.AppendItems := fun l items =>
       ResourceList.Build (ResourceList.Filter l) (ResourceList.Items l ++ items)%list;
     Main.ExportResources := fun _ _ => Success "exported";
     Main.FilterString := fun _ => "all";
     Main.NewChangeset := fun remote local_ upsertOnly =>
       fst (Engine.NewChangeset (fun t => t) wholePatch (fun _ _ _ => EmptyString)
              (Main.at_key Main.kindMapping) remote local_ upsertOnly false []);
     Main.Stdin := stdin;
     Main.AskForConfirmation := fun _ answer => String.eqb answer "yes";
     Main.ParamFileAt := fun _ => Success passwordFile;
     Main.Decrypt := fun envelope =>
       if String.eqb envelope "c2VjcmV0" then Some "secret" else None;
     Main.Encrypt := fun plaintext => "bmV3" ++ plaintext;
     Main.PublicKeys := ["94b1"];
     Main.EditEnvFile := fun buffer => Success buffer;
     Main.WriteFile := fun _ _ => None |}.

Definition flags (nonInteractive : bool) : Main.CompareOptions :=
  {| Main.NonInteractive := nonInteractive;
     Main.Namespace := "dev";
     Main.Selector := EmptyString;
     Main.TemplateDirs := ["."];
     Main.ParamDirs := ["."];
     Main.UpsertOnly := false;
     Main.Resource := EmptyString |}.

End Scenario.

(* ================================================================== *)
(** * [main.go] (release 0.7.0): the other commands *)

Module MainRest.

(** [strings.Replace s old new (-1)] for an [old] of one byte, which is
    what the call sites pass (["/"], ["."]): every occurrence is
    replaced. *)
Fixpoint Replace (s : string) (old : ascii) (new : string) : string :=
  match s with
  | EmptyString => EmptyString
  | String c s' =>
      if Ascii.eqb c old then new ++ Replace s' old new
      else String c (Replace s' old new)
  end.

(** [os.PathSeparator], on the systems [oc] runs the tool on. *)
Definition PathSeparator : string := "/".

(** The pattern [".*\\.env$"] of [regexp.MatchString]. *)
Definition matchedEnv (name : string) : bool := HasSuffix name ".env".

(** [cli.ExportOptions]: the fields [main.go] reads. *)
Record ExportOptions : Type := {
  Resource : string;
  Selector : string
}.

(** What these commands get from packages [openshift] and [utils]
    beyond [Main.Env]. *)
Record Env : Type := {
  ExportAsTemplate : ResourceFilter.t -> string -> ExportOptions -> fallible string;
  Marshal : string -> string;
    (** [yaml.Marshal] of the [Processed] part of
        [openshift.NewConfigFromTemplate] *)
  CreateEntity : string -> string -> option error
    (** the error of [utils.CreateEntity] on a name and an email *)
}.

(** The name [export] gives the template, by what the filter has. *)
Definition templateName (lower : Lowering) (filter : ResourceFilter.t)
    : result string :=
  if (0 <? String.length (ResourceFilter.Name filter))%nat then
    Ok (Replace (ResourceFilter.Name filter) "/" "-")
  else if (0 <? String.length (ResourceFilter.Label filter))%nat then
    let labelParts := Split (ResourceFilter.Label filter) "=" in
    index labelParts 1
  else if (0 <? List.length (ResourceFilter.Kinds filter))%nat then
    Ok (ToLower lower (Join (ResourceFilter.Kinds filter) "-"))
  else Ok "all".

Section Run.

Variable env : Main.Env.
Variable more : Env.

Definition export (filter : ResourceFilter.t) (exportOptions : ExportOptions)
    : proc unit :=
  match templateName (Main.Lower env) filter with
  | Panic msg => Main.panic msg
  | Err err => Fatal err
  | Ok name =>
      match ExportAsTemplate more filter name exportOptions with
      | Failure _ =>
          Fatal ("Could not export " ++ Main.FilterString env filter
                 ++ " resources as template.")
      | Success out =>
          if (String.length out =? 0)%nat then ret tt
          else Printf (Marshal more out ++ nl)
      end
  end.

(** The case [exportCommand] of [main]. *)
Definition exportCase (exportOptions : ExportOptions) : proc unit :=
  Main.checkLoggedIn env ;;;
  match Main.getFilter (Main.Lower env) (Resource exportOptions)
          (Selector exportOptions) with
  | Err err => Fatal err
  | Panic msg => Main.panic msg
  | Ok filter => export filter exportOptions
  end.

(** [reEncrypt]: its error. *)
Definition reEncrypt (filename : string) : proc (option error) :=
  match Main.ParamFileAt env filename with
  | Failure err => ret (Some ("Could not read file: " ++ err ++ "."))
  | Success file =>
  match Params.NewParamsFromFile (Main.Decrypt env) file with
  | Failure err => ret (Some ("Could not read file: " ++ err ++ "."))
  | Success readParams =>
  let readContent := Params.Process readParams in
  match Params.NewParamsFromInput readContent with
  | Failure err => ret (Some err)
  | Success editedParams =>
  match Params.Render (Main.Encrypt env) (Main.PublicKeys env) editedParams [] with
  | Failure err => ret (Some err)
  | Success renderedContent =>
  emit (Written filename renderedContent) ;;;
  match Main.WriteFile env filename renderedContent with
  | Some err => ret (Some ("Could not write file: " ++ err ++ "."))
  | None => ret None
  end end end end end.

(** The loop of the case [reEncryptCommand] over the files of a
    parameter directory. *)
Fixpoint reEncryptFiles (paramDir : string) (files : list string) : proc unit :=
  match files with
  | [] => ret tt
  | file :: rest =>
      if negb (matchedEnv file) then reEncryptFiles paramDir rest
      else
        let filename := paramDir ++ PathSeparator ++ file in
        err <- reEncrypt filename ;;
        match err with
        | Some err => Fatal err
        | None => reEncryptFiles paramDir rest
        end
  end.

(** The loop over the parameter directories. *)
Fixpoint reEncryptDirs (paramDirs : list string) : proc unit :=
  match paramDirs with
  | [] => ret tt
  | paramDir :: rest =>
      match Main.ReadDir env paramDir with
      | Failure err => Fatal err
      | Success files => reEncryptFiles paramDir files ;;; reEncryptDirs rest
      end
  end.

(** The case [reEncryptCommand] of [main]. *)
Definition reEncryptCase (reEncryptFileArg : string) (paramDirs : list string)
    : proc unit :=
  if (0 <? String.length reEncryptFileArg)%nat then
    err <- reEncrypt reEncryptFileArg ;;
    match err with
    | Some err => Fatal err
    | None => ret tt
    end
  else reEncryptDirs paramDirs.

(** The case [generateKeyCommand] of [main]; what [utils.PrintPublicKey]
    and [utils.PrintPrivateKey] do is not part of the trace, and the
    [err] tested after each is still the one of [utils.CreateEntity]. *)
Definition generateKeyCase (generateKeyNameFlag generateKeyEmailArg privateKey : string)
    : proc unit :=
  let emailParts := Split generateKeyEmailArg "@" in
  match index emailParts 0 with
  | Err err => Fatal err
  | Panic msg => Main.panic msg
  | Ok part =>
      let name :=
        if (String.length generateKeyNameFlag =? 0)%nat then part
        else generateKeyNameFlag in
      let err := CreateEntity more name generateKeyEmailArg in
      match err with
      | Some e => Fatal ("Failed to generate keypair: " ++ e ++ ".")
      | None =>
          let publicKeyFilename := Replace part "." "-" ++ ".key" in
          match err with
          | Some e => Fatal e
          | None =>
              Printf ("Public Key written to " ++ publicKeyFilename
                      ++ ". This file can be committed." ++ nl) ;;;
              let privateKeyFilename := privateKey in
              match err with
              | Some e => Fatal e
              | None =>
                  Printf ("Private Key written to " ++ privateKeyFilename
                          ++ ". This file MUST NOT be committed." ++ nl)
              end
          end
      end
  end.

End Run.

(** An environment with another listing of the directories. *)
Definition relisted (readDir : string -> fallible (list string)) (env : Main.Env)
    : Main.Env :=
  {| Main.Config := Main.Config env;
     Main.GetFileFlags := Main.GetFileFlags env;
     Main.GlobalProcess := Main.GlobalProcess env;
     Main.CompareProcess := Main.CompareProcess env;
     Main.Whoami := Main.Whoami env;
     Main.Lower := Main.Lower env;
     Main.Getwd := Main.Getwd env;
     Main.ReadDir := readDir;
     Main.ProcessTemplate := Main.ProcessTemplate env;
     Main.NewConfigFromList := Main.NewConfigFromList env;
     Main.AppendItems := Main.AppendItems env;
     Main.ExportResources := Main.ExportResources env;
     Main.FilterString := Main.FilterString env;
     Main.NewChangeset := Main.NewChangeset env;
     Main.Stdin := Main.Stdin env;
     Main.AskForConfirmation := Main.AskForConfirmation env;
     Main.ParamFileAt := Main.ParamFileAt env;
     Main.Decrypt := Main.Decrypt env;
     Main.Encrypt := Main.Encrypt env;
     Main.PublicKeys := Main.PublicKeys env;
     Main.EditEnvFile := Main.EditEnvFile env;
     Main.WriteFile := Main.WriteFile env |}.

(** An environment in which the directories list only the files that
    [keep] holds for. *)
Definition listing (keep : string -> bool) (env : Main.Env) : Main.Env :=
  {| Main.Config := Main.Config env;
     Main.GetFileFlags := Main.GetFileFlags env;
     Main.GlobalProcess := Main.GlobalProcess env;
     Main.CompareProcess := Main.CompareProcess env;
     Main.Whoami := Main.Whoami env;
     Main.Lower := Main.Lower env;
     Main.Getwd := Main.Getwd env;
     Main.ReadDir := fun dir =>
       match Main.ReadDir env dir with
       | Success files => Success (filter keep files)
       | Failure err => Failure err
       end;
     Main.ProcessTemplate := Main.ProcessTemplate env;
     Main.NewConfigFromList := Main.NewConfigFromList env;
     Main.AppendItems := Main.AppendItems env;
     Main.ExportResources := Main.ExportResources env;
     Main.FilterString := Main.FilterString env;
     Main.NewChangeset := Main.NewChangeset env;
     Main.Stdin := Main.Stdin env;
     Main.AskForConfirmation := Main.AskForConfirmation env;
     Main.ParamFileAt := Main.ParamFileAt env;
     Main.Decrypt := Main.Decrypt env;
     Main.Encrypt := Main.Encrypt env;
     Main.PublicKeys := Main.PublicKeys env;
     Main.EditEnvFile := Main.EditEnvFile env;
     Main.WriteFile := Main.WriteFile env |}.

End MainRest.

(* ================================================================== *)
(** * Reading a run, continued *)

(** Strictly ascending in the order of [sort.Strings]. *)
Fixpoint ascending (l : list string) : bool :=
  match l with
  | [] => true
  | x :: rest =>
      match rest with
      | [] => true
      | y :: _ => String.ltb x y && ascending rest
      end
  end.

(** The kinds the tokens of a resource argument stand for. *)
Definition kindsOf (tokens : list string) : list string :=
  flat_map (fun token =>
              match Main.lookup Main.kindMapping token with
              | Some kind => [kind]
              | None => []
              end)
           tokens.

(** Events that only show something: output, log and debug lines and
    diffs. *)
Definition shows (e : Event) : bool :=
  match e with
  | Print _ _ | Log _ | Debug _ | Diffed _ => true
  | Asked _ _ | RemoteUpdated _ | Written _ _ => false
  end.

(** The files a run called [ioutil.WriteFile] on, in order. *)
Definition written (t : list Event) : list string :=
  flat_map (fun e => match e with Written filename _ => [filename] | _ => [] end) t.

(** The templates a run read ([cli.DebugMsg] names each), in order. *)
Definition reading (prefix : string) (files : list string) : list Event :=
  map (fun file => Debug (prefix ++ file)) files.

(** The [*.env] files of the parameter directories from [paramDirs],
    up to the first directory that cannot be read. *)
Fixpoint envFiles (env : Main.Env) (paramDirs : list string) : list string :=
  match paramDirs with
  | [] => []
  | paramDir :: rest =>
      match Main.ReadDir env paramDir with
      | Failure _ => []
      | Success files =>
          List.app
            (map (fun file => paramDir ++ MainRest.PathSeparator ++ file)
                 (filter MainRest.matchedEnv files))
            (envFiles env rest)
      end
  end.

(** Whether some template directory from index [i] on has a YAML file
    and no parameter directory of its index. *)
Fixpoint lacksParamDir (env : Main.Env) (paramDirs : nat) (i : nat)
    (templateDirs : list string) : bool :=
  match templateDirs with
  | [] => false
  | templateDir :: rest =>
      match Main.ReadDir env templateDir with
      | Failure _ => false
      | Success files =>
          (existsb Main.matchedYaml files && (paramDirs <=? i)%nat)
          || lacksParamDir env paramDirs (S i) rest
      end
  end.

(** An environment of package [commands] in which the template
    directory lists only the files that [keep] holds for. *)
Definition listingOf (keep : string -> bool) (env : Commands.Env) : Commands.Env :=
  {| Commands.NewResourceFilter := Commands.NewResourceFilter env;
     Commands.ReadDir := fun dir =>
       match Commands.ReadDir env dir with
       | Success files => Success (filter keep files)
       | Failure err => Failure err
       end;
     Commands.ProcessTemplate := Commands.ProcessTemplate env;
     Commands.NewTemplateBasedResourceList := Commands.NewTemplateBasedResourceList env;
     Commands.ConvertToKinds := Commands.ConvertToKinds env;
     Commands.FilterString := Commands.FilterString env;
     Commands.Export := Commands.Export env;
     Commands.NewPlatformBasedResourceList := Commands.NewPlatformBasedResourceList env;
     Commands.canon := Commands.canon env;
     Commands.jsonPatch := Commands.jsonPatch env;
     Commands.renderDiff := Commands.renderDiff env;
     Commands.resolveKind := Commands.resolveKind env;
     Commands.ChangeDiff := Commands.ChangeDiff env |}.

(** Whether a run of [main] gets as far as the comparison: the
    Tailorfile is read, the options are processed and [oc whoami]
    succeeds. *)
Definition ready (env : Main.Env) : bool :=
  match Main.GetFileFlags env, Main.GlobalProcess env,
        Main.Whoami env, Main.CompareProcess env with
  | None, None, true, None => true
  | _, _, _, _ => false
  end.

(** What the case [updateCommand] of [main] does once
    [calculateChangeset] has come back as [r]. *)
Definition afterComparison (env : Main.Env) (o : Main.CompareOptions)
    (r : outcome (bool * Changeset.t * option error)) : list Event :=
  match r with
  | Return (true, cs, None) =>
      if Main.NonInteractive o then [RemoteUpdated cs]
      else
        let c := Main.AskForConfirmation env "Apply changes?" (Main.Stdin env) in
        Asked "Apply changes?" c :: (if c then [RemoteUpdated cs] else [])
  | Return (_, _, Some err) => [Log err]
  | _ => []
  end.

(** Lines of [fmt.Printf]. *)
Definition isPrint (e : Event) : bool :=
  match e with
  | Print Plain _ => true
  | _ => false
  end.

(* ================================================================== *)
(** * More runs *)

Module Cases.

(** The UTF-8 bytes of the dotted capital I, [U+0130], and then [S];
    of [U+00C9], the capital E with acute accent, and of its lower
    case [U+00E9]. *)
Definition dottedIS : string :=
  String (ascii_of_nat 196) (String (ascii_of_nat 176) "S").
Definition capitalE : string :=
  String (ascii_of_nat 195) (String (ascii_of_nat 137) EmptyString).
Definition smallE : string :=
  String (ascii_of_nat 195) (String (ascii_of_nat 169) EmptyString).

(** Options of release 0.7.0 for a resource argument and for template
    and parameter directories. *)
Definition flagsFor (resource : string) (templateDirs paramDirs : list string)
    : Main.CompareOptions :=
  {| Main.NonInteractive := true;
     Main.Namespace := "dev";
     Main.Selector := EmptyString;
     Main.TemplateDirs := templateDirs;
     Main.ParamDirs := paramDirs;
     Main.UpsertOnly := false;
     Main.Resource := resource |}.

(** The user of [Scenario.user] with options that cannot be
    processed. *)
Definition misconfigured : Main.Env :=
  let u := Scenario.user "yes" "8080" in
  {| Main.Config := Main.Config u;
     Main.GetFileFlags := Main.GetFileFlags u;
     Main.GlobalProcess := Some "no namespace";
     Main.CompareProcess := Main.CompareProcess u;
     Main.Whoami := Main.Whoami u;
     Main.Lower := Main.Lower u;
     Main.Getwd := Main.Getwd u;
     Main.ReadDir := Main.ReadDir u;
     Main.ProcessTemplate := Main.ProcessTemplate u;
     Main.NewConfigFromList := Main.NewConfigFromList u;
     Main.AppendItems := Main.AppendItems u;
     Main.ExportResources := Main.ExportResources u;
     Main.FilterString := Main.FilterString u;
     Main.NewChangeset := Main.NewChangeset u;
     Main.Stdin := Main.Stdin u;
     Main.AskForConfirmation := Main.AskForConfirmation u;
     Main.ParamFileAt := Main.ParamFileAt u;
     Main.Decrypt := Main.Decrypt u;
     Main.Encrypt := Main.Encrypt u;
     Main.PublicKeys := Main.PublicKeys u;
     Main.EditEnvFile := Main.EditEnvFile u;
     Main.WriteFile := Main.WriteFile u |}.

(** A template directory with four files, of which the template [bad]
    cannot be processed. *)
Definition failing (bad : string) : Commands.Env :=
  let c := Scenario.cluster [] [] in
  {| Commands.NewResourceFilter := Commands.NewResourceFilter c;
     Commands.ReadDir := fun _ => Success ["a.yml"; "notes.txt"; bad; "z.yml"];
     Commands.ProcessTemplate := fun _ file _ _ =>
       if String.eqb file bad then Failure "parameter missing"
       else Success "processed";
     Commands.NewTemplateBasedResourceList := Commands.NewTemplateBasedResourceList c;
     Commands.ConvertToKinds := Commands.ConvertToKinds c;
     Commands.FilterString := Commands.FilterString c;
     Commands.Export := Commands.Export c;
     Commands.NewPlatformBasedResourceList := Commands.NewPlatformBasedResourceList c;
     Commands.canon := Commands.canon c;
     Commands.jsonPatch := Commands.jsonPatch c;
     Commands.renderDiff := Commands.renderDiff c;
     Commands.resolveKind := Commands.resolveKind c;
     Commands.ChangeDiff := Commands.ChangeDiff c |}.



(** An export that yields the template name, and key pairs that are
    always generated. *)
Definition exporter : MainRest.Env :=
  {| MainRest.ExportAsTemplate := fun _ name _ => Success name;
     MainRest.Marshal := fun out => out;
     MainRest.CreateEntity := fun _ _ => None |}.

End Cases.

(* ================================================================== *)
(** * Properties *)

(** ** Strings *)

Section StringFacts.

Lemma lowerASCII_app (a b : string) :
  lowerASCII (a ++ b) = lowerASCII a ++ lowerASCII b.
Proof. induction a as [|c a IH]; cbn [lowerASCII String.append]; congruence. Qed.

(** Lowering a byte neither makes nor unmakes a separator. *)
Lemma lower_byte_slash (c : ascii) :
  Ascii.eqb (lower_byte c) "/" = Ascii.eqb c "/".
Proof. destruct c as [[] [] [] [] [] [] [] []]; vm_compute; reflexivity. Qed.

Lemma Contains_byte (s : string) (b : ascii) :
  Contains s (String b EmptyString)
  = match s with
    | EmptyString => false
    | String c s' => Ascii.eqb c b || Contains s' (String b EmptyString)
    end.
Proof.
  destruct s as [|c s']; simpl; [reflexivity|].
  assert (E : HasPrefix s' EmptyString = true) by (destruct s'; reflexivity).
  now rewrite E, andb_true_r.
Qed.

Lemma Contains_lowerASCII (s : string) (b : ascii) :
  (forall c, Ascii.eqb (lower_byte c) b = Ascii.eqb c b) ->
  Contains (lowerASCII s) (String b EmptyString) = Contains s (String b EmptyString).
Proof.
  intros Hb. induction s as [|c s IH].
  - reflexivity.
  - change (lowerASCII (String c s)) with (String (lower_byte c) (lowerASCII s)).
    rewrite (Contains_byte (String _ _)), (Contains_byte (String c s)).
    now rewrite Hb, IH.
Qed.

Lemma Split_not_nil (s : string) (sep : ascii) : Split s sep <> [].
Proof.
  destruct s as [|c s]; simpl; [discriminate|].
  destruct (Ascii.eqb c sep); [discriminate|].
  destruct (Split s sep); discriminate.
Qed.

(** A string with a separator splits into two pieces at least. *)
Lemma Split_two (s : string) (sep : ascii) :
  Contains s (String sep EmptyString) = true ->
  2 <= List.length (Split s sep).
Proof.
  induction s as [|c s IH]; rewrite Contains_byte.
  - discriminate.
  - intros H. simpl.
    destruct (Ascii.eqb c sep) eqn:E.
    + simpl. pose proof (Split_not_nil s sep).
      destruct (Split s sep); [congruence | simpl; lia].
    + simpl in H. specialize (IH H).
      destruct (Split s sep); simpl in *; lia.
Qed.

(** The facts that come with a lowering. *)
Lemma ToLower_nil (lower : Lowering) : ToLower lower EmptyString = EmptyString.
Proof. now rewrite ToLower_ascii. Qed.

Lemma ToLower_length_0 (lower : Lowering) (s : string) :
  (String.length (ToLower lower s) =? 0)%nat = (String.length s =? 0)%nat.
Proof.
  destruct s as [|c s]; [now rewrite ToLower_nil|].
  destruct (ToLower lower (String c s)) eqn:E; [|reflexivity].
  now apply ToLower_empty in E.
Qed.

End StringFacts.

(** ** [getFilter] *)

Section GetFilter.
Import Main.
Variable lower : Lowering.

Lemma scanKinds_unknown (kinds t u : list string) :
  snd (scanKinds kinds t u) = (u ++ filter (fun k => negb (known k)) kinds)%list.
Proof.
  revert t u. induction kinds as [|k ks IH]; intros t u; cbn [scanKinds filter].
  - now rewrite app_nil_r.
  - unfold known at 1. destruct (lookup kindMapping k) eqn:E; cbn [negb].
    + apply IH.
    + rewrite IH, <- app_assoc. reflexivity.
Qed.

(** What [getFilter] does with a list of kinds. *)
Lemma getFilter_list (kindArg sel : string) :
  kindArg <> EmptyString ->
  Contains kindArg "/" = false ->
  getFilter lower kindArg sel =
    match filter (fun k => negb (known k)) (Split (ToLower lower kindArg) ",") with
    | [] => Ok (ResourceFilter.Build
                 (SortStrings
                    (fst (scanKinds (Split (ToLower lower kindArg) ",") [] [])))
                 EmptyString sel [])
    | unknownKinds => Err (errUnknownKinds unknownKinds)
    end.
Proof.
  intros Hne Hs. unfold getFilter.
  destruct kindArg as [|c s]; [congruence|].
  cbn [String.length Nat.eqb].
  rewrite ToLower_slash, Hs.
  pose proof (scanKinds_unknown (Split (ToLower lower (String c s)) ",") [] []) as Hu.
  destruct (scanKinds (Split (ToLower lower (String c s)) ",") [] []) as [t u].
  simpl in Hu. subst u.
  cbn [ResourceFilter.Kinds ResourceFilter.Name ResourceFilter.Label
       ResourceFilter.Exclude app fst].
  destruct (filter _ _); reflexivity.
Qed.

(** What [getFilter] does with a kind and a name. *)
Lemma getFilter_named (kindArg sel : string) :
  Contains kindArg "/" = true ->
  Contains kindArg "," = false ->
  exists kind name rest,
    Split (ToLower lower kindArg) "/" = kind :: name :: rest
    /\ getFilter lower kindArg sel
       = Ok (ResourceFilter.Build [] (at_key kindMapping kind ++ "/" ++ name) sel []).
Proof.
  intros Hs Hc. unfold getFilter.
  destruct kindArg as [|c s]; [discriminate|].
  cbn [String.length Nat.eqb].
  rewrite ToLower_slash, ToLower_comma, Hs, Hc.
  assert (H2 : 2 <= List.length (Split (ToLower lower (String c s)) "/"))
    by (apply Split_two; now rewrite ToLower_slash).
  destruct (Split (ToLower lower (String c s)) "/") as [|a [|b l]]; simpl in H2; try lia.
  exists a, b, l. split; reflexivity.
Qed.

(** No slice access of [getFilter] is out of range. *)
Lemma getFilter_no_panic (kindArg sel msg : string) :
  getFilter lower kindArg sel <> Panic msg.
Proof.
  unfold getFilter.
  destruct (String.length kindArg =? 0)%nat; [discriminate|].
  destruct (Contains (ToLower lower kindArg) "/") eqn:Hs.
  - destruct (Contains (ToLower lower kindArg) ","); [discriminate|].
    pose proof (Split_two _ _ Hs) as H2.
    destruct (Split (ToLower lower kindArg) "/") as [|a [|b l]]; simpl in H2; try lia.
    discriminate.
  - destruct (scanKinds _ _ _) as [t u].
    destruct (0 <? List.length u)%nat; discriminate.
Qed.

(** Arguments with the same lower case get the same result. *)
Lemma getFilter_same_lower (a b sel : string) :
  ToLower lower a = ToLower lower b ->
  getFilter lower a sel = getFilter lower b sel.
Proof.
  intros H. unfold getFilter.
  rewrite <- (ToLower_length_0 lower a), <- (ToLower_length_0 lower b), H.
  reflexivity.
Qed.

(** The keys of [ServiceAccount] and [RoleBinding]. *)
Lemma kindMapping_long_names (key : string) :
  (lookup kindMapping key = Some "ServiceAccount" -> key = "serviceaccount")
  /\ (lookup kindMapping key = Some "RoleBinding" -> key = "rolebinding").
Proof.
  unfold kindMapping. cbn [lookup].
  repeat match goal with
         | |- context [if String.eqb key ?k then _ else _] =>
             let E := fresh "E" in
             destruct (String.eqb key k) eqn:E;
             [split; intros H; try discriminate H; now apply String.eqb_eq in E|]
         end.
  split; discriminate.
Qed.

End GetFilter.

(** C4, as the code has it: [getFilter] returns an error in two cases
    only.  A resource argument with a [/] is an error iff it has a [,]
    too; the kind before the [/] is not looked up for validity.  A
    resource argument without [/] is an error iff it is not empty and
    one of its comma-separated tokens, in lower case, is no key of
    [kindMapping]; the error then is "Unknown resource kinds: " and
    the unknown tokens.  The table maps the short aliases [dc], [bc],
    [svc], [is], [pvc] and [cm] to their kinds; [ServiceAccount] and
    [RoleBinding] have no short alias: [serviceaccount] and
    [rolebinding] are their only keys. *)
Theorem getFilter_unknown_kinds (lower : Lowering) (kindArg sel : string) :
  (is_err (Main.getFilter lower kindArg sel) = true <->
     (Contains kindArg "/" = true /\ Contains kindArg "," = true)
     \/ (Contains kindArg "/" = false /\ kindArg <> EmptyString /\
         exists token, In token (Split (ToLower lower kindArg) ",") /\
                       Main.lookup Main.kindMapping token = None))
  /\ (forall e, Contains kindArg "/" = false ->
        Main.getFilter lower kindArg sel = Err e ->
        e = Main.errUnknownKinds
              (filter (fun k => negb (Main.known k))
                      (Split (ToLower lower kindArg) ",")))
  /\ (forall alias kind, In (alias, kind) Main.shortAliases ->
        Main.lookup Main.kindMapping alias = Some kind)
  /\ (forall key, Main.lookup Main.kindMapping key = Some "ServiceAccount" <->
                  key = "serviceaccount")
  /\ (forall key, Main.lookup Main.kindMapping key = Some "RoleBinding" <->
                  key = "rolebinding").
Proof.
  split; [|split; [|split; [|split]]].
  - destruct (Contains kindArg "/") eqn:Hs.
    + destruct (Contains kindArg ",") eqn:Hc.
      * unfold Main.getFilter.
        destruct kindArg as [|c s]; [discriminate|].
        cbn [String.length Nat.eqb].
        rewrite ToLower_slash, ToLower_comma, Hs, Hc. cbn [is_err].
        split; [now left | reflexivity].
      * destruct (@getFilter_named lower kindArg sel Hs Hc) as (kind & name & rest & _ & ->).
        cbn [is_err]. split; [discriminate|].
        intros [[_ [=]]|[[=] _]].
    + destruct kindArg as [|c s].
      { cbn. split; [discriminate|]. intros [[[=] _]|(_ & H & _)]. now elim H. }
      rewrite getFilter_list by (assumption || discriminate).
      destruct (filter _ _) as [|k ks] eqn:E; cbn [is_err].
      * split; [discriminate|]. intros [[[=] _]|(_ & _ & token & Hin & Hl)].
        assert (Hk : In token (filter (fun k => negb (Main.known k))
                                 (Split (ToLower lower (String c s)) ","))).
        { apply filter_In. split; [assumption|]. unfold Main.known. now rewrite Hl. }
        rewrite E in Hk. destruct Hk.
      * split; [|reflexivity]. intros _. right.
        split; [reflexivity|]. split; [discriminate|].
        assert (Hk : In k (filter (fun k => negb (Main.known k))
                             (Split (ToLower lower (String c s)) ",")))
          by (rewrite E; now left).
        apply filter_In in Hk as [Hin Hk]. exists k. split; [assumption|].
        unfold Main.known in Hk. now destruct (Main.lookup Main.kindMapping k).
  - intros e Hs. destruct kindArg as [|c s]; [discriminate|].
    rewrite getFilter_list by (assumption || discriminate).
    destruct (filter _ _); [discriminate | now intros [= <-]].
  - intros alias kind Hin. cbn in Hin.
    repeat (destruct Hin as [[= <- <-]|Hin]; [reflexivity|]). destruct Hin.
  - intros key. split; [apply kindMapping_long_names | now intros ->].
  - intros key. split; [apply kindMapping_long_names | now intros ->].
Qed.

Lemma getFilter_unknown_kinds_witness :
  is_err (Main.getFilter latin "dc,xx" "app=pi") = true
  /\ Main.getFilter latin "DC,Pvc" "app=pi"
     = Ok (ResourceFilter.Build ["DeploymentConfig"; "PersistentVolumeClaim"]
             EmptyString "app=pi" []).
Proof.
  split.
  - apply (proj1 (@getFilter_unknown_kinds latin "dc,xx" "app=pi")).
    right. split; [reflexivity|]. split; [discriminate|].
    exists "xx". split; [right; left|]; reflexivity.
  - reflexivity.
Defined.

(** C4 as stated fails: [sa] and [rb] are no keys of the table, so
    [getFilter] rejects them as unknown kinds, and a kind/name target
    is accepted although its kind token is no key of the table. *)
Lemma getFilter_alias_counterexample :
  Main.lookup Main.kindMapping "sa" <> Some "ServiceAccount"
  /\ Main.lookup Main.kindMapping "rb" <> Some "RoleBinding"
  /\ Main.getFilter latin "sa" EmptyString = Err "Unknown resource kinds: sa"
  /\ Main.getFilter latin "rb" EmptyString = Err "Unknown resource kinds: rb"
  /\ Main.lookup Main.kindMapping "foo" = None
  /\ Main.getFilter latin "foo/bar" EmptyString
     = Ok (ResourceFilter.Build [] "/bar" EmptyString []).
Proof. repeat split; (discriminate || reflexivity). Qed.

(** C9: [getFilter] lowers its resource argument before it matches
    anything.  So an argument and its lower case get the same result,
    and so do any two arguments with the same lower case, whatever
    their letters; [DC,Pvc] is read as [dc,pvc] and [Svc/Pi] as
    [svc/pi]. *)
Theorem getFilter_lowercase :
  (forall (lower : Lowering) (s sel : string),
     Main.getFilter lower s sel = Main.getFilter lower (ToLower lower s) sel)
  /\ (forall (lower : Lowering) (a b sel : string),
        ToLower lower a = ToLower lower b ->
        Main.getFilter lower a sel = Main.getFilter lower b sel)
  /\ (forall (lower : Lowering) (sel : string),
        Main.getFilter lower "DC,Pvc" sel = Main.getFilter lower "dc,pvc" sel
        /\ Main.getFilter lower "DC,Pvc" sel
           = Ok (ResourceFilter.Build ["DeploymentConfig"; "PersistentVolumeClaim"]
                   EmptyString sel [])
        /\ Main.getFilter lower "Svc/Pi" sel = Main.getFilter lower "svc/pi" sel
        /\ Main.getFilter lower "Svc/Pi" sel
           = Ok (ResourceFilter.Build [] "Service/pi" sel [])).
Proof.
  split; [|split].
  - intros lower s sel. apply getFilter_same_lower. now rewrite ToLower_idem.
  - intros lower a b sel. apply getFilter_same_lower.
  - intros lower sel.
    assert (H1 : Main.getFilter lower "DC,Pvc" sel = Main.getFilter lower "dc,pvc" sel).
    { apply getFilter_same_lower. now rewrite !ToLower_ascii. }
    assert (H2 : Main.getFilter lower "Svc/Pi" sel = Main.getFilter lower "svc/pi" sel).
    { apply getFilter_same_lower. now rewrite !ToLower_ascii. }
    split; [exact H1|]. split; [|split; [exact H2|]].
    + unfold Main.getFilter. now rewrite ToLower_ascii.
    + unfold Main.getFilter. now rewrite ToLower_ascii.
Qed.

Lemma getFilter_lowercase_witness :
  Main.getFilter latin ("dc/" ++ Cases.capitalE) EmptyString
  = Main.getFilter latin ("dc/" ++ Cases.smallE) EmptyString
  /\ Main.getFilter latin Cases.dottedIS EmptyString
     = Main.getFilter latin "is" EmptyString.
Proof.
  split; apply (proj1 (proj2 getFilter_lowercase)); reflexivity.
Defined.

(** C10: a resource argument with both a [/] and a [,] gets the error
    "You cannot target more than one resource name", and no filter. *)
Theorem getFilter_name_and_list (lower : Lowering) (kindArg sel : string) :
  Contains kindArg "/" = true -> Contains kindArg "," = true ->
  Main.getFilter lower kindArg sel
  = Err "You cannot target more than one resource name".
Proof.
  intros Hs Hc. unfold Main.getFilter.
  destruct kindArg as [|c s]; [discriminate|].
  cbn [String.length Nat.eqb].
  now rewrite ToLower_slash, ToLower_comma, Hs, Hc.
Qed.

Lemma getFilter_name_and_list_witness :
  Main.getFilter latin "dc/foo,bc/bar" "app=pi"
  = Err "You cannot target more than one resource name".
Proof. apply getFilter_name_and_list; reflexivity. Defined.

(** ** Processes *)

Section ProcFacts.
Context {A B : Type}.

Lemma bind_Return (t : list Event) (a : A) (k : A -> proc B) :
  bind (t, Return a) k = ((t ++ fst (k a))%list, snd (k a)).
Proof. unfold bind. destruct (k a); reflexivity. Qed.

Lemma bind_ret (a : A) (k : A -> proc B) : bind (ret a) k = k a.
Proof. unfold bind, ret. now destruct (k a). Qed.

Lemma snd_bind (m : proc A) (k : A -> proc B) :
  snd (bind m k) =
  match snd m with
  | Return a => snd (k a)
  | Exit c => Exit c
  end.
Proof.
  destruct m as [t [a|c]]; [rewrite bind_Return|]; reflexivity.
Qed.

Lemma trace_bind (m : proc A) (k : A -> proc B) :
  trace (bind m k) =
  match snd m with
  | Return a => (trace m ++ trace (k a))%list
  | Exit _ => trace m
  end.
Proof.
  destruct m as [t [a|c]]; [rewrite bind_Return|]; reflexivity.
Qed.

Lemma In_trace_bind_l (m : proc A) (k : A -> proc B) (e : Event) :
  In e (trace m) -> In e (trace (bind m k)).
Proof.
  rewrite trace_bind. destruct (snd m); [|auto].
  intros H. apply in_or_app. now left.
Qed.

Lemma In_trace_bind_r (m : proc A) (k : A -> proc B) (a : A) (e : Event) :
  snd m = Return a -> In e (trace (k a)) -> In e (trace (bind m k)).
Proof.
  intros Hm H. rewrite trace_bind, Hm. apply in_or_app. now right.
Qed.

End ProcFacts.

(** A loop of prints returns, with the lines of its rounds. *)
Lemma forEach_returns {A} (l : list A) (body : A -> proc unit) :
  (forall x, snd (body x) = Return tt) -> snd (forEach l body) = Return tt.
Proof.
  intros H. induction l as [|x l IH]; cbn [forEach]; [reflexivity|].
  now rewrite snd_bind, H.
Qed.

Lemma forEach_trace {A} (l : list A) (body : A -> proc unit) :
  (forall x, snd (body x) = Return tt) ->
  trace (forEach l body) = flat_map (fun x => trace (body x)) l.
Proof.
  intros H. induction l as [|x l IH]; cbn [forEach flat_map]; [reflexivity|].
  now rewrite trace_bind, H, IH.
Qed.

Lemma limiting_returns (r s : string) : snd (limiting r s) = Return tt.
Proof.
  unfold limiting.
  destruct (_ && _); [reflexivity|].
  destruct (0 <? String.length s)%nat; [reflexivity|].
  destruct (0 <? String.length r)%nat; reflexivity.
Qed.

Section Only.
Variable P : Event -> bool.

Lemma only_ret {A} (a : A) : only P (ret a).
Proof. reflexivity. Qed.

Lemma only_osExit {A} (c : nat) : only P (@osExit A c).
Proof. reflexivity. Qed.

Lemma only_emit (e : Event) : P e = true -> only P (emit e).
Proof. unfold only; simpl. now intros ->. Qed.

Lemma only_Fatal {A} (msg : string) : P (Log msg) = true -> only P (@Fatal A msg).
Proof. unfold only; simpl. now intros ->. Qed.

Lemma only_bind {A B} (m : proc A) (k : A -> proc B) :
  only P m -> (forall a, snd m = Return a -> only P (k a)) -> only P (bind m k).
Proof.
  unfold only. rewrite trace_bind. intros Hm Hk.
  destruct (snd m) as [a|c]; [|assumption].
  rewrite forallb_app, Hm. now apply Hk.
Qed.

Lemma only_forEach {A} (l : list A) (body : A -> proc unit) :
  (forall x, In x l -> only P (body x)) -> only P (forEach l body).
Proof.
  induction l as [|x l IH]; intros H; cbn [forEach].
  - apply only_ret.
  - apply only_bind; [apply H; now left|].
    intros _ _. apply IH. intros y Hy. apply H. now right.
Qed.

Lemma only_In {A} (p : proc A) (e : Event) :
  only P p -> In e (trace p) -> P e = true.
Proof. unfold only. rewrite forallb_forall. auto. Qed.

Lemma only_limiting (r s : string) :
  (forall t, P (Print Plain t) = true) -> only P (limiting r s).
Proof.
  intros H. unfold limiting.
  repeat match goal with |- only _ (if ?b then _ else _) => destruct b end;
    try apply only_emit; try apply only_ret; apply H.
Qed.

End Only.

Ltac only_step :=
  match goal with
  | |- only _ (bind _ _) => apply only_bind; [|intros ? ?]
  | |- only _ (ret _) => apply only_ret
  | |- only _ (emit _) => apply only_emit; reflexivity
  | |- only _ (Printf _) => apply only_emit; reflexivity
  | |- only _ (PrintRedf _) => apply only_emit; reflexivity
  | |- only _ (PrintGreenf _) => apply only_emit; reflexivity
  | |- only _ (PrintYellowf _) => apply only_emit; reflexivity
  | |- only _ (forEach _ _) => apply only_forEach; intros ? ?
  end.

Section Exits.

Lemma exits1_Return {A} (p : proc A) (a : A) : snd p = Return a -> exits1 p.
Proof. intros H c. rewrite H. discriminate. Qed.

Lemma exits1_ret {A} (a : A) : exits1 (ret a).
Proof. intros c. discriminate. Qed.

Lemma exits1_emit (e : Event) : exits1 (emit e).
Proof. intros c. discriminate. Qed.

Lemma exits1_Fatal {A} (msg : string) : exits1 (@Fatal A msg).
Proof. intros c [= <-]. reflexivity. Qed.

Lemma exits1_bind {A B} (m : proc A) (k : A -> proc B) :
  exits1 m -> (forall a, exits1 (k a)) -> exits1 (bind m k).
Proof.
  intros Hm Hk c. rewrite snd_bind.
  destruct (snd m) as [a|c'] eqn:E; [apply Hk|].
  intros [= <-]. now apply Hm.
Qed.

End Exits.

(** ** Package [commands] *)

Section CommandsFacts.
Variable env : Commands.Env.

Lemma refuse_returns (o : Commands.CompareOptions) (w : string) :
  snd (Commands.refuse o w) = Return tt.
Proof.
  unfold Commands.refuse.
  rewrite !snd_bind. cbn [snd Printf emit].
  destruct (_ && _); cbn [snd Printf emit]; [reflexivity|].
  rewrite !snd_bind. cbn [snd Printf emit].
  destruct (0 <? String.length (Commands.Resource o))%nat; cbn [snd Printf emit ret];
    destruct (0 <? String.length (Commands.Selector o))%nat; reflexivity.
Qed.

Lemma refuse_refusing (o : Commands.CompareOptions) (w : string) :
  In refusing (trace (Commands.refuse o w)).
Proof.
  unfold Commands.refuse.
  eapply In_trace_bind_r; [reflexivity|].
  eapply In_trace_bind_r; [|now left].
  destruct (_ && _); [reflexivity|].
  rewrite !snd_bind. cbn [snd Printf emit].
  destruct (0 <? String.length (Commands.Resource o))%nat; cbn [snd Printf emit ret];
    destruct (0 <? String.length (Commands.Selector o))%nat; reflexivity.
Qed.

Lemma compare_returns rl ll u a r p :
  snd (Commands.compare env rl ll u a r p)
  = Return (Commands.NewChangeset env rl ll u a p).
Proof.
  unfold Commands.compare.
  destruct (Commands.NewChangeset env rl ll u a p) as [cs [e|]]; [reflexivity|].
  rewrite !snd_bind.
  rewrite !forEach_returns; reflexivity.
Qed.

Lemma processTemplates_returns o fs ins :
  exists v, snd (Commands.processTemplates env o fs ins) = Return v.
Proof.
  revert ins. induction fs as [|x fs IH]; intros ins; cbn [Commands.processTemplates];
    [eexists; reflexivity|].
  destruct (negb _); [apply IH|].
  rewrite snd_bind. cbn [snd emit].
  destruct (Commands.ProcessTemplate _ _ _ _ _); [apply IH | eexists; reflexivity].
Qed.

Lemma assembleTemplateBasedResourceList_returns f o :
  exists v, snd (Commands.assembleTemplateBasedResourceList env f o) = Return v.
Proof.
  unfold Commands.assembleTemplateBasedResourceList.
  destruct (Commands.ReadDir _ _) as [fs|e]; [|eexists; reflexivity].
  rewrite snd_bind.
  destruct (processTemplates_returns o fs []) as [v ->].
  destruct v; eexists; reflexivity.
Qed.

Lemma assemblePlatformBasedResourceList_returns f o :
  exists v, snd (Commands.assemblePlatformBasedResourceList env f o) = Return v.
Proof.
  unfold Commands.assemblePlatformBasedResourceList.
  destruct (Commands.Export _ _ _); eexists; reflexivity.
Qed.

(** The steps of [calculateChangeset], one equation per way out. *)
Lemma calculateChangeset_steps (o : Commands.CompareOptions) :
  snd (Commands.calculateChangeset env o) =
  match Commands.NewResourceFilter env (Commands.Resource o) (Commands.Selector o)
          (Commands.Exclude o) with
  | Failure err => Return (false, Changeset.empty, Some err)
  | Success f =>
      match snd (Commands.assembleTemplateBasedResourceList env f o) with
      | Exit c => Exit c
      | Return (Failure err) => Return (false, Changeset.empty, Some err)
      | Return (Success tl) =>
          match snd (Commands.assemblePlatformBasedResourceList env f o) with
          | Exit c => Exit c
          | Return (Failure err) => Return (false, Changeset.empty, Some err)
          | Return (Success pl) =>
              if (ResourceList.Length tl =? 0)%nat && negb (Commands.Force o)
              then Return (false, Changeset.empty, None)
              else
                match Commands.NewChangeset env pl tl (Commands.UpsertOnly o)
                        (Commands.AllowRecreate o) (Commands.PathsToPreserve o) with
                | (cs, Some err) => Return (false, cs, Some err)
                | (cs, None) => Return (negb (Changeset.Blank cs), cs, None)
                end
          end
      end
  end.
Proof.
  unfold Commands.calculateChangeset.
  rewrite !snd_bind. cbn [snd Printf emit]. rewrite limiting_returns.
  destruct (Commands.NewResourceFilter _ _ _ _) as [f|e]; [|reflexivity].
  rewrite snd_bind.
  destruct (snd (Commands.assembleTemplateBasedResourceList env f o)) as [[tl|e]|c];
    try reflexivity.
  rewrite snd_bind.
  destruct (snd (Commands.assemblePlatformBasedResourceList env f o)) as [[pl|e]|c];
    try reflexivity.
  rewrite snd_bind. cbn [snd found Printf emit].
  destruct (_ && _).
  - now rewrite snd_bind, refuse_returns.
  - rewrite snd_bind, compare_returns.
    now destruct (Commands.NewChangeset _ _ _ _ _ _) as [cs [e|]].
Qed.

(** [calculateChangeset] always returns to its caller. *)
Lemma calculateChangeset_returns (o : Commands.CompareOptions) :
  exists v, snd (Commands.calculateChangeset env o) = Return v.
Proof.
  rewrite calculateChangeset_steps.
  destruct (Commands.NewResourceFilter _ _ _ _) as [f|e]; [|eexists; reflexivity].
  destruct (assembleTemplateBasedResourceList_returns f o) as [[tl|e] ->];
    [|eexists; reflexivity].
  destruct (assemblePlatformBasedResourceList_returns f o) as [[pl|e] ->];
    [|eexists; reflexivity].
  destruct (_ && _); [eexists; reflexivity|].
  destruct (Commands.NewChangeset _ _ _ _ _ _) as [cs [e|]]; eexists; reflexivity.
Qed.


End CommandsFacts.

Section CommandsTrace.
Variable env : Commands.Env.
Variable P : Event -> bool.
Hypothesis P_plain : forall t, P (Print Plain t) = true.
Hypothesis P_debug : forall t, P (Debug t) = true.

Lemma only_processTemplates o fs ins :
  only P (Commands.processTemplates env o fs ins).
Proof.
  revert ins. induction fs as [|x fs IH]; intros ins; cbn [Commands.processTemplates].
  - apply only_ret.
  - destruct (negb _); [apply IH|].
    apply only_bind; [apply only_emit, P_debug|]. intros _ _.
    destruct (Commands.ProcessTemplate _ _ _ _ _); [apply IH | apply only_ret].
Qed.

Lemma only_assembleTemplate f o :
  only P (Commands.assembleTemplateBasedResourceList env f o).
Proof.
  unfold Commands.assembleTemplateBasedResourceList.
  destruct (Commands.ReadDir _ _); [|apply only_ret].
  apply only_bind; [apply only_processTemplates|].
  intros [?|?] _; apply only_ret.
Qed.

Lemma only_assemblePlatform f o :
  only P (Commands.assemblePlatformBasedResourceList env f o).
Proof.
  unfold Commands.assemblePlatformBasedResourceList.
  destruct (Commands.Export _ _ _); apply only_ret.
Qed.

Lemma only_refuse o w : only P (Commands.refuse o w).
Proof.
  unfold Commands.refuse, Printf.
  repeat first
    [ apply only_ret | apply only_emit, P_plain
    | apply only_bind; [|intros ? ?]
    | match goal with |- only _ (if ?b then _ else _) => destruct b end ].
Qed.

(** Up to and with the refusal, a run prints plain lines and debug
    messages only. *)
Lemma only_calculateChangeset_refused o f tl :
  Commands.NewResourceFilter env (Commands.Resource o) (Commands.Selector o)
    (Commands.Exclude o) = Success f ->
  snd (Commands.assembleTemplateBasedResourceList env f o) = Return (Success tl) ->
  ResourceList.Length tl = 0 ->
  Commands.Force o = false ->
  only P (Commands.calculateChangeset env o).
Proof.
  intros Hf Ht Hl Hforce. unfold Commands.calculateChangeset.
  apply only_bind; [apply only_emit, P_plain|]; intros _ _.
  apply only_bind; [apply only_limiting, P_plain|]; intros _ _.
  rewrite Hf.
  apply only_bind; [apply only_assembleTemplate|]. intros r Hr.
  rewrite Ht in Hr. injection Hr as <-.
  apply only_bind; [apply only_assemblePlatform|]. intros [pl|e] _; [|apply only_ret].
  apply only_bind; [apply only_emit, P_plain|]; intros _ _.
  rewrite Hl, Hforce. cbn [Nat.eqb negb andb].
  apply only_bind; [apply only_refuse | intros; apply only_ret].
Qed.

End CommandsTrace.

(** C1: when the templates yield no desired resource and [--force] is
    not set, [calculateChangeset] returns the empty changeset, whatever
    the cluster holds: no bucket, [Delete] least of all, is populated,
    and no deletion is proposed on the output. *)
Theorem refusal_proposes_no_deletion (env : Commands.Env)
    (o : Commands.CompareOptions) (f : ResourceFilter.t) (tl : ResourceList.t) :
  Commands.NewResourceFilter env (Commands.Resource o) (Commands.Selector o)
    (Commands.Exclude o) = Success f ->
  snd (Commands.assembleTemplateBasedResourceList env f o) = Return (Success tl) ->
  ResourceList.Length tl = 0 ->
  Commands.Force o = false ->
  (exists changeset err,
     snd (Commands.calculateChangeset env o) = Return (false, changeset, err)
     /\ changeset = Changeset.empty
     /\ Changeset.Delete changeset = []
     /\ Changeset.changes changeset = [])
  /\ (forall pl,
        snd (Commands.assemblePlatformBasedResourceList env f o) = Return (Success pl) ->
        snd (Commands.calculateChangeset env o) = Return (false, Changeset.empty, None))
  /\ only notRed (Commands.calculateChangeset env o).
Proof.
  intros Hf Ht Hl Hforce.
  assert (Hsteps := calculateChangeset_steps env o).
  rewrite Hf, Ht, Hl, Hforce in Hsteps. cbn [Nat.eqb negb andb] in Hsteps.
  split; [|split].
  - exists Changeset.empty.
    destruct (assemblePlatformBasedResourceList_returns env f o) as [[pl|e] Hp];
      rewrite Hp in Hsteps; eexists; (split; [exact Hsteps | repeat split]).
  - intros pl Hp. now rewrite Hp in Hsteps.
  - now apply only_calculateChangeset_refused with (f := f) (tl := tl).
Qed.

Lemma refusal_proposes_no_deletion_witness :
  snd (Commands.calculateChangeset
         (Scenario.cluster [Scenario.servicePi Resource.current "80";
                            Scenario.configMapExtra] [])
         (Scenario.options false false))
  = Return (false, Changeset.empty, None).
Proof.
  refine (proj1 (proj2
    (@refusal_proposes_no_deletion
       (Scenario.cluster [Scenario.servicePi Resource.current "80";
                          Scenario.configMapExtra] [])
       (Scenario.options false false) Scenario.anyFilter
       (ResourceList.Build Scenario.anyFilter [])
       eq_refl eq_refl eq_refl eq_refl)) _ eq_refl).
Defined.

(** C8: when the templates yield no desired resource and [--force] is
    not set, [calculateChangeset] returns [false] with a [nil] error,
    however many resources the cluster has; the run of [diff] prints
    its refusal and exits with code 0. *)
Theorem refusal_exits_zero (env : Commands.Env) (opts : Cmd.Options)
    (o : Commands.CompareOptions) (f : ResourceFilter.t) (tl pl : ResourceList.t) :
  Cmd.NewGlobalOptions opts = None ->
  Cmd.NewCompareOptions opts = Success o ->
  Commands.NewResourceFilter env (Commands.Resource o) (Commands.Selector o)
    (Commands.Exclude o) = Success f ->
  snd (Commands.assembleTemplateBasedResourceList env f o) = Return (Success tl) ->
  snd (Commands.assemblePlatformBasedResourceList env f o) = Return (Success pl) ->
  ResourceList.Length tl = 0 ->
  Commands.Force o = false ->
  snd (Commands.calculateChangeset env o) = Return (false, Changeset.empty, None)
  /\ snd (Commands.Diff env o) = Return (false, None)
  /\ exitCode (Cmd.diff env opts) = 0
  /\ In refusing (trace (Cmd.diff env opts)).
Proof.
  intros Hg Hc Hf Ht Hp Hl Hforce.
  assert (Hsteps := calculateChangeset_steps env o).
  rewrite Hf, Ht, Hp, Hl, Hforce in Hsteps. cbn [Nat.eqb negb andb] in Hsteps.
  assert (Hd : snd (Commands.Diff env o) = Return (false, None)).
  { unfold Commands.Diff. now rewrite snd_bind, Hsteps. }
  split; [assumption|]. split; [assumption|]. split.
  - unfold exitCode, Cmd.diff. rewrite Hg, Hc, snd_bind, Hd. reflexivity.
  - unfold Cmd.diff. rewrite Hg, Hc.
    apply In_trace_bind_l. unfold Commands.Diff. apply In_trace_bind_l.
    unfold Commands.calculateChangeset.
    eapply In_trace_bind_r; [reflexivity|].
    eapply In_trace_bind_r; [apply limiting_returns|].
    rewrite Hf.
    eapply In_trace_bind_r; [exact Ht|].
    eapply In_trace_bind_r; [exact Hp|].
    eapply In_trace_bind_r; [reflexivity|].
    rewrite Hl, Hforce. cbn [Nat.eqb negb andb].
    apply In_trace_bind_l, refuse_refusing.
Qed.

Lemma refusal_exits_zero_witness :
  exitCode (Cmd.diff
              (Scenario.cluster [Scenario.servicePi Resource.current "80";
                                 Scenario.configMapExtra] [])
              (Scenario.parsed (Scenario.options false false))) = 0.
Proof.
  refine (proj1 (proj2 (proj2
    (@refusal_exits_zero
       (Scenario.cluster [Scenario.servicePi Resource.current "80";
                          Scenario.configMapExtra] [])
       (Scenario.parsed (Scenario.options false false))
       (Scenario.options false false) Scenario.anyFilter
       (ResourceList.Build Scenario.anyFilter [])
       (ResourceList.Build Scenario.anyFilter
          [Scenario.servicePi Resource.current "80"; Scenario.configMapExtra])
       eq_refl eq_refl eq_refl eq_refl eq_refl eq_refl eq_refl)))).
Defined.

(** ** The changeset engine *)

Section EngineFacts.
Variable canon : Resource.Tree -> Resource.Tree.
Variable jsonPatch : Resource.Tree -> Resource.Tree -> list Patch.t.
Variable renderDiff : option Resource.t -> option Resource.t -> list Patch.t -> string.
Variable resolveKind : string -> string.

Let classify := Engine.classify canon jsonPatch renderDiff resolveKind.
Let classifyAll := Engine.classifyAll canon jsonPatch renderDiff resolveKind.
Let NewChangeset := Engine.NewChangeset canon jsonPatch renderDiff resolveKind.

Lemma In_insertChange (c x : Change.t) (l : list Change.t) :
  In x (Engine.insertChange c l) <-> x = c \/ In x l.
Proof.
  induction l as [|d l IH]; simpl.
  - intuition congruence.
  - destruct (Engine.change_leb c d); simpl; rewrite ?IH; intuition congruence.
Qed.

(** Sorting a bucket keeps its changes. *)
Lemma In_sortBucket (x : Change.t) (l : list Change.t) :
  In x (Engine.sortBucket l) <-> In x l.
Proof.
  induction l as [|c l IH]; simpl; [tauto|].
  rewrite In_insertChange, IH. intuition congruence.
Qed.

(** A classified pair is a change with both sides. *)
Lemma classify_sides a p cur des c :
  classify a p cur des = inl c ->
  Change.Current c = Some cur /\ Change.Desired c = Some des.
Proof.
  unfold classify, Engine.classify.
  destruct (filter _ _); [intros [= <-]; auto|].
  destruct (existsb _ _); [destruct a|]; intros [= <-]; auto.
Qed.

Lemma classifyAll_In a p pairs cs c :
  classifyAll a p pairs = inl cs -> In c cs ->
  exists cur des, In (cur, des) pairs /\ classify a p cur des = inl c.
Proof.
  unfold classifyAll, classify.
  revert cs. induction pairs as [|[cur des] rest IH]; intros cs; cbn [Engine.classifyAll].
  - intros [= <-] [].
  - destruct (Engine.classify _ _ _ _ a p cur des) as [c0|e] eqn:E; [|discriminate].
    destruct (Engine.classifyAll _ _ _ _ a p rest) as [cs0|e]; [|discriminate].
    intros [= <-] [<-|Hin].
    + exists cur, des. split; [now left | assumption].
    + destruct (IH _ eq_refl Hin) as (cur' & des' & H1 & H2).
      exists cur', des'. split; [now right | assumption].
Qed.

Lemma common_In C D cur des :
  In (cur, des) (Engine.common C D) ->
  In cur C /\ In des D /\ Resource.same_key cur des = true.
Proof.
  unfold Engine.common. rewrite in_flat_map. intros (c & Hc & Hin).
  destruct (find (Resource.same_key c) D) as [d|] eqn:E; [|contradiction].
  destruct Hin as [[= <- <-]|[]].
  apply find_some in E. tauto.
Qed.

Lemma hasKey_In D x d :
  In d D -> Resource.same_key x d = true -> Engine.hasKey D x = true.
Proof.
  intros Hd Hk. unfold Engine.hasKey. rewrite existsb_exists. eauto.
Qed.

(** Upsert-only: the bucket [Delete] is empty. *)
Lemma NewChangeset_upsertOnly_Delete current desired a p :
  Changeset.Delete (fst (NewChangeset current desired true a p)) = [].
Proof.
  unfold NewChangeset, Engine.NewChangeset.
  destruct (Engine.classifyAll _ _ _ _ _ _ _); reflexivity.
Qed.

(** Upsert-only: every change is about a desired resource. *)
Lemma NewChangeset_upsertOnly_subject current desired a p c :
  In c (Changeset.changes (fst (NewChangeset current desired true a p))) ->
  exists d, In d (ResourceList.Items desired) /\ Change.subject c = Some d.
Proof.
  unfold NewChangeset, Engine.NewChangeset.
  fold classifyAll.
  destruct (classifyAll a p _) as [cs|e] eqn:E; cbn [fst]; [|intros []].
  unfold Changeset.changes; cbn [Changeset.Noop Changeset.Create Changeset.Update
    Changeset.Delete Changeset.Recreate Engine.sortBucket fold_right].
  rewrite !in_app_iff, !In_sortBucket.
  assert (Hcl : forall act, In c (Engine.withAction act cs) ->
            exists d, In d (ResourceList.Items desired) /\ Change.subject c = Some d).
  { intros act Hin. unfold Engine.withAction in Hin. apply filter_In in Hin as [Hin _].
    destruct (@classifyAll_In a p _ cs c E Hin) as (cur & des & Hp & Hc).
    apply common_In in Hp as (_ & Hd & _).
    apply classify_sides in Hc as [_ Hdes].
    exists des. split; [assumption|]. unfold Change.subject. now rewrite Hdes. }
  intros [H|[H|[H|[[]|H]]]]; eauto.
  apply in_map_iff in H as (r & <- & Hr). apply filter_In in Hr as [Hr _].
  exists r. split; [assumption | reflexivity].
Qed.

(** Upsert-only: a resource that only the cluster has is in no bucket. *)
Lemma NewChangeset_upsertOnly_remote_only current desired a p x c :
  Engine.hasKey (ResourceList.Items desired) x = false ->
  In c (Changeset.changes (fst (NewChangeset current desired true a p))) ->
  Change.concerns x c = false.
Proof.
  intros Hx Hc.
  destruct (@NewChangeset_upsertOnly_subject current desired a p c Hc) as (d & Hd & Hs).
  unfold Change.concerns. rewrite Hs.
  destruct (Resource.same_key x d) eqn:E; [|reflexivity].
  now rewrite (@hasKey_In _ x d Hd E) in Hx.
Qed.

(** One resource on each side, the same key and no operation between
    them: the changeset is the one [Noop]. *)
Lemma NewChangeset_identical current desired u a p cur des :
  ResourceList.Items current = [cur] ->
  ResourceList.Items desired = [des] ->
  Resource.same_key cur des = true ->
  jsonPatch (canon (Resource.Payload cur)) (canon (Resource.Payload des)) = [] ->
  NewChangeset current desired u a p
  = (Changeset.Build
       [Engine.mkChange renderDiff Action.Noop (Some cur) (Some des) []] [] [] [] [],
     None).
Proof.
  intros Hc Hd Hk Hp. unfold NewChangeset, Engine.NewChangeset.
  rewrite Hc, Hd.
  assert (Hk' : Resource.same_key des cur = true).
  { unfold Resource.same_key in *. apply andb_prop in Hk as [H1 H2].
    apply String.eqb_eq in H1, H2. rewrite H1, H2, !String.eqb_refl. reflexivity. }
  cbn [Engine.common flat_map find filter Engine.hasKey existsb app].
  rewrite Hk, Hk'. cbn [orb negb map app Engine.classifyAll].
  unfold Engine.classify. rewrite Hp. cbn [filter].
  destruct u; reflexivity.
Qed.

End EngineFacts.

(** ** The lines of [compare] *)

Lemma In_forEach_inSync (l : list Change.t) (c : Change.t) :
  In c l ->
  In (inSync c)
     (trace (forEach l (fun change =>
        Printf ("* " ++ Change.ItemName change ++ " is in sync" ++ nl)))).
Proof.
  intros H. rewrite forEach_trace by reflexivity.
  apply in_flat_map. exists c. split; [assumption | now left].
Qed.

Section Lines.
Variable env : Commands.Env.

Lemma compare_inSync rl ll u a r p cs c :
  Commands.NewChangeset env rl ll u a p = (cs, None) ->
  In c (Changeset.Noop cs) ->
  In (inSync c) (trace (Commands.compare env rl ll u a r p)).
Proof.
  intros E Hc. unfold Commands.compare. rewrite E.
  apply In_trace_bind_l. now apply In_forEach_inSync.
Qed.

(** The summary is the end of what [compare] prints. *)
Lemma compare_summary rl ll u a r p cs :
  Commands.NewChangeset env rl ll u a p = (cs, None) ->
  exists before,
    trace (Commands.compare env rl ll u a r p)
    = (before ++ [toDelete (List.length (Changeset.Delete cs))])%list.
Proof.
  intros E. unfold Commands.compare. rewrite E.
  repeat (rewrite trace_bind;
          first [ rewrite forEach_returns by reflexivity
                | cbn [snd Printf PrintGreenf PrintYellowf PrintRedf emit] ]).
  cbn [trace fst Printf PrintGreenf PrintYellowf PrintRedf emit ret].
  rewrite app_nil_r.
  eexists. rewrite !app_assoc. reflexivity.
Qed.

Lemma calculateChangeset_inSync o u cs c :
  snd (Commands.calculateChangeset env o) = Return (u, cs, None) ->
  In c (Changeset.Noop cs) ->
  In (inSync c) (trace (Commands.calculateChangeset env o)).
Proof.
  rewrite calculateChangeset_steps. unfold Commands.calculateChangeset.
  intros H Hc.
  eapply In_trace_bind_r; [reflexivity|].
  eapply In_trace_bind_r; [apply limiting_returns|].
  destruct (Commands.NewResourceFilter _ _ _ _) as [f|e]; [|discriminate].
  destruct (snd (Commands.assembleTemplateBasedResourceList env f o)) as [[tl|e]|] eqn:Et;
    try discriminate.
  eapply In_trace_bind_r; [exact Et|].
  destruct (snd (Commands.assemblePlatformBasedResourceList env f o)) as [[pl|e]|] eqn:Ep;
    try discriminate.
  eapply In_trace_bind_r; [exact Ep|].
  eapply In_trace_bind_r; [reflexivity|].
  destruct (_ && _).
  - injection H as _ <-. destruct Hc.
  - destruct (Commands.NewChangeset _ _ _ _ _ _) as [cs' [e|]] eqn:En; [discriminate|].
    injection H as _ <-.
    apply In_trace_bind_l. eapply compare_inSync; eassumption.
Qed.

Lemma diff_trace (opts : Cmd.Options) o :
  Cmd.NewGlobalOptions opts = None ->
  Cmd.NewCompareOptions opts = Success o ->
  forall e, In e (trace (Commands.calculateChangeset env o)) ->
            In e (trace (Cmd.diff env opts)).
Proof.
  intros Hg Hc e He. unfold Cmd.diff. rewrite Hg, Hc.
  apply In_trace_bind_l. unfold Commands.Diff. now apply In_trace_bind_l.
Qed.

(** The exit code of [diff] from what [calculateChangeset] returns. *)
Lemma diff_exitCode (opts : Cmd.Options) o u cs err :
  Cmd.NewGlobalOptions opts = None ->
  Cmd.NewCompareOptions opts = Success o ->
  snd (Commands.calculateChangeset env o) = Return (u, cs, err) ->
  exitCode (Cmd.diff env opts)
  = match err with
    | Some _ => 1
    | None => if u then 3 else 0
    end.
Proof.
  intros Hg Hc H. unfold exitCode, Cmd.diff, Commands.Diff.
  rewrite Hg, Hc, !snd_bind, H. cbn [snd ret].
  destruct err; [reflexivity|]. now destruct u.
Qed.

End Lines.

(** C3: with [UpsertOnly] set, the bucket [Delete] of the changeset of
    [compare] is empty, a resource that only the cluster has is in no
    bucket at all, and the summary that ends the output of a
    comparison reads "0 to delete". *)
Theorem upsert_only_never_deletes (env : Commands.Env)
    (remote local_ : ResourceList.t) (upsertOnly allowRecreate revealSecrets : bool)
    (preservePaths : list string) :
  upsertOnly = true ->
  exists changeset err,
    snd (Commands.compare env remote local_ upsertOnly allowRecreate
           revealSecrets preservePaths) = Return (changeset, err)
    /\ Changeset.Delete changeset = []
    /\ (forall x c,
          In x (ResourceList.Items remote) ->
          Engine.hasKey (ResourceList.Items local_) x = false ->
          In c (Changeset.changes changeset) ->
          Change.concerns x c = false)
    /\ (err = None ->
        exists before,
          trace (Commands.compare env remote local_ upsertOnly allowRecreate
                   revealSecrets preservePaths)
          = (before ++ [toDelete 0])%list).
Proof.
  intros ->.
  destruct (Commands.NewChangeset env remote local_ true allowRecreate preservePaths)
    as [cs err] eqn:E.
  exists cs, err.
  assert (Hd : Changeset.Delete cs = []).
  { change cs with (fst (cs, err)). rewrite <- E.
    apply NewChangeset_upsertOnly_Delete. }
  split; [now rewrite compare_returns, E|]. split; [assumption|]. split.
  - intros x c _ Hx Hc.
    refine (@NewChangeset_upsertOnly_remote_only (Commands.canon env)
              (Commands.jsonPatch env) (Commands.renderDiff env)
              (Commands.resolveKind env) remote local_ allowRecreate preservePaths
              x c Hx _).
    fold (Commands.NewChangeset env). now rewrite E.
  - intros ->.
    destruct (@compare_summary env remote local_ true allowRecreate revealSecrets
                preservePaths cs E) as [before Hb].
    exists before. now rewrite Hb, Hd.
Qed.

Lemma upsert_only_never_deletes_witness :
  last (trace (Commands.compare
                 (Scenario.cluster [] [])
                 (ResourceList.Build Scenario.anyFilter
                    [Scenario.servicePi Resource.current "80"; Scenario.configMapExtra])
                 (ResourceList.Build Scenario.anyFilter
                    [Scenario.servicePi Resource.desired "80"])
                 true false false []))
       refusing
  = toDelete 0.
Proof.
  destruct (@upsert_only_never_deletes (Scenario.cluster [] [])
              (ResourceList.Build Scenario.anyFilter
                 [Scenario.servicePi Resource.current "80"; Scenario.configMapExtra])
              (ResourceList.Build Scenario.anyFilter
                 [Scenario.servicePi Resource.desired "80"])
              true false false [] eq_refl)
    as (changeset & err & Hrun & _ & _ & Hsummary).
  rewrite compare_returns in Hrun. vm_compute in Hrun.
  injection Hrun as _ <-.
  destruct (Hsummary eq_refl) as [before ->].
  apply last_last.
Defined.

(** ** [main.go] *)

Section MainFacts.
Variable env : Main.Env.

Lemma compare_returns_old rl ll u :
  snd (Main.compare env rl ll u) = Return (Main.NewChangeset env rl ll u).
Proof.
  unfold Main.compare. rewrite !snd_bind.
  rewrite !forEach_returns; reflexivity.
Qed.

Lemma exits1_readTemplates o d i fs l : exits1 (Main.readTemplates env o d i fs l).
Proof.
  revert l. induction fs as [|x fs IH]; intros l; cbn [Main.readTemplates].
  - apply exits1_ret.
  - destruct (negb _); [apply IH|].
    apply exits1_bind; [apply exits1_emit|]. intros _.
    destruct (index _ _); try apply exits1_Fatal.
    destruct (Main.ProcessTemplate _ _ _ _ _); [apply IH | apply exits1_Fatal].
Qed.

Lemma exits1_readTemplateDirs o i ds l : exits1 (Main.readTemplateDirs env o i ds l).
Proof.
  revert i l. induction ds as [|d ds IH]; intros i l; cbn [Main.readTemplateDirs].
  - apply exits1_ret.
  - destruct (Main.ReadDir _ _); [|apply exits1_Fatal].
    apply exits1_bind; [apply exits1_readTemplates | intros; apply IH].
Qed.

Lemma exits1_assembleRemote f o : exits1 (Main.assembleRemoteResourceList env f o).
Proof.
  unfold Main.assembleRemoteResourceList.
  destruct (Main.ExportResources _ _ _); [apply exits1_ret | apply exits1_Fatal].
Qed.

(** [calculateChangeset] ends the process by [log.Fatal] only. *)
Lemma exits1_calculateChangeset o : exits1 (Main.calculateChangeset env o).
Proof.
  unfold Main.calculateChangeset.
  apply exits1_bind; [apply exits1_emit|]; intros _.
  apply exits1_bind; [eapply exits1_Return, limiting_returns|]; intros _.
  destruct (Main.getFilter _ _); [|apply exits1_ret|apply exits1_Fatal].
  apply exits1_bind; [apply exits1_readTemplateDirs|]; intros ll.
  apply exits1_bind; [apply exits1_assembleRemote|]; intros rl.
  apply exits1_bind; [apply exits1_emit|]; intros _.
  apply exits1_bind; [eapply exits1_Return, compare_returns_old|]; intros cs.
  apply exits1_ret.
Qed.


(** Nothing that [calculateChangeset] does changes the cluster. *)
Lemma harmless_readTemplates o d i fs l :
  only harmless (Main.readTemplates env o d i fs l).
Proof.
  revert l. induction fs as [|x fs IH]; intros l; cbn [Main.readTemplates].
  - apply only_ret.
  - destruct (negb _); [apply IH|].
    apply only_bind; [now apply only_emit|]. intros _ _.
    destruct (index _ _); try now apply only_Fatal.
    destruct (Main.ProcessTemplate _ _ _ _ _); [apply IH | now apply only_Fatal].
Qed.

Lemma harmless_readTemplateDirs o i ds l :
  only harmless (Main.readTemplateDirs env o i ds l).
Proof.
  revert i l. induction ds as [|d ds IH]; intros i l; cbn [Main.readTemplateDirs].
  - apply only_ret.
  - destruct (Main.ReadDir _ _); [|now apply only_Fatal].
    apply only_bind; [apply harmless_readTemplates | intros; apply IH].
Qed.

Lemma harmless_compare rl ll u : only harmless (Main.compare env rl ll u).
Proof. unfold Main.compare. repeat only_step. Qed.

Lemma harmless_calculateChangeset o : only harmless (Main.calculateChangeset env o).
Proof.
  unfold Main.calculateChangeset.
  apply only_bind; [now apply only_emit|]; intros _ _.
  apply only_bind; [now apply only_limiting|]; intros _ _.
  destruct (Main.getFilter _ _); [|apply only_ret|now apply only_Fatal].
  apply only_bind; [apply harmless_readTemplateDirs|]; intros ll _.
  apply only_bind.
  { unfold Main.assembleRemoteResourceList.
    destruct (Main.ExportResources _ _ _); [apply only_ret | now apply only_Fatal]. }
  intros rl _.
  apply only_bind; [now apply only_emit|]; intros _ _.
  apply only_bind; [apply harmless_compare | intros; apply only_ret].
Qed.

Lemma calculateChangeset_inSync_old o u cs c :
  snd (Main.calculateChangeset env o) = Return (u, cs, None) ->
  In c (Changeset.Noop cs) ->
  In (inSync c) (trace (Main.calculateChangeset env o)).
Proof.
  unfold Main.calculateChangeset.
  rewrite !snd_bind. cbn [snd Printf emit]. rewrite limiting_returns.
  intros H Hc.
  eapply In_trace_bind_r; [reflexivity|].
  eapply In_trace_bind_r; [apply limiting_returns|].
  destruct (Main.getFilter _ _) as [f|e|m]; try discriminate.
  rewrite snd_bind in H.
  destruct (snd (Main.assembleLocalResourceList env f o)) as [ll|] eqn:El; try discriminate.
  eapply In_trace_bind_r; [exact El|].
  rewrite snd_bind in H.
  destruct (snd (Main.assembleRemoteResourceList env f o)) as [rl|] eqn:Er; try discriminate.
  eapply In_trace_bind_r; [exact Er|].
  rewrite !snd_bind in H. cbn [snd found Printf emit] in H.
  rewrite compare_returns_old in H. injection H as _ <-.
  eapply In_trace_bind_r; [reflexivity|].
  apply In_trace_bind_l. unfold Main.compare.
  apply In_trace_bind_l. now apply In_forEach_inSync.
Qed.

Lemma status_trace o :
  Main.GetFileFlags env = None -> Main.GlobalProcess env = None ->
  Main.Whoami env = true -> Main.CompareProcess env = None ->
  forall e, In e (trace (Main.calculateChangeset env o)) ->
            In e (trace (Main.main env Main.statusCommand o)).
Proof.
  intros H1 H2 H3 H4 e He. unfold Main.main, Main.status, Main.checkLoggedIn.
  rewrite H1, H2, H3, H4.
  eapply In_trace_bind_r; [reflexivity|]. now apply In_trace_bind_l.
Qed.


End MainFacts.

(** ** Exit codes *)




(** ** The lines "is in sync" *)

(** C7: for every change in the bucket [Noop] of the changeset a run
    computed, the diff command ([diff], and [status] of release 0.7.0)
    prints the line "* <Kind/Name> is in sync"; and when the templates
    expand to a [Service pi] that the cluster has with no operation
    between the two, [diff] prints "* Service/pi is in sync" and exits
    with code 0. *)
Theorem noop_prints_in_sync :
  (forall (env : Commands.Env) (opts : Cmd.Options) (o : Commands.CompareOptions)
          (u : bool) (cs : Changeset.t) (c : Change.t),
     Cmd.NewGlobalOptions opts = None ->
     Cmd.NewCompareOptions opts = Success o ->
     snd (Commands.calculateChangeset env o) = Return (u, cs, None) ->
     In c (Changeset.Noop cs) ->
     In (Print Plain ("* " ++ Change.ItemName c ++ " is in sync" ++ nl))
        (trace (Cmd.diff env opts)))
  /\ (forall (env : Main.Env) (o : Main.CompareOptions)
             (u : bool) (cs : Changeset.t) (c : Change.t),
        Main.GetFileFlags env = None -> Main.GlobalProcess env = None ->
        Main.Whoami env = true -> Main.CompareProcess env = None ->
        snd (Main.calculateChangeset env o) = Return (u, cs, None) ->
        In c (Changeset.Noop cs) ->
        In (Print Plain ("* " ++ Change.ItemName c ++ " is in sync" ++ nl))
           (trace (Main.main env Main.statusCommand o)))
  /\ (forall (env : Commands.Env) (opts : Cmd.Options) (o : Commands.CompareOptions)
             (f : ResourceFilter.t) (tl pl : ResourceList.t) (cur des : Resource.t),
        Cmd.NewGlobalOptions opts = None ->
        Cmd.NewCompareOptions opts = Success o ->
        Commands.NewResourceFilter env (Commands.Resource o) (Commands.Selector o)
          (Commands.Exclude o) = Success f ->
        snd (Commands.assembleTemplateBasedResourceList env f o) = Return (Success tl) ->
        snd (Commands.assemblePlatformBasedResourceList env f o) = Return (Success pl) ->
        ResourceList.Items tl = [des] ->
        ResourceList.Items pl = [cur] ->
        Resource.Kind des = "Service" -> Resource.Name des = "pi" ->
        Resource.Kind cur = "Service" -> Resource.Name cur = "pi" ->
        Commands.jsonPatch env (Commands.canon env (Resource.Payload cur))
          (Commands.canon env (Resource.Payload des)) = [] ->
        In (Print Plain ("* Service/pi is in sync" ++ nl)) (trace (Cmd.diff env opts))
        /\ exitCode (Cmd.diff env opts) = 0).
Proof.
  split; [|split].
  - intros env opts o u cs c Hg Hc Hv Hin.
    eapply diff_trace; [eassumption..|].
    eapply calculateChangeset_inSync; eassumption.
  - intros env o u cs c H1 H2 H3 H4 Hv Hin.
    apply status_trace; [assumption..|].
    eapply calculateChangeset_inSync_old; eassumption.
  - intros env opts o f tl pl cur des Hg Hc Hf Ht Hp Htl Hpl Hkd Hnd Hkc Hnc Hpatch.
    assert (Hkey : Resource.same_key cur des = true).
    { unfold Resource.same_key. now rewrite Hkd, Hnd, Hkc, Hnc. }
    pose proof (@NewChangeset_identical (Commands.canon env) (Commands.jsonPatch env)
                  (Commands.renderDiff env) (Commands.resolveKind env)
                  pl tl (Commands.UpsertOnly o) (Commands.AllowRecreate o)
                  (Commands.PathsToPreserve o) cur des Hpl Htl Hkey Hpatch) as Hcs.
    fold (Commands.NewChangeset env) in Hcs.
    assert (Hv := calculateChangeset_steps env o).
    rewrite Hf, Ht, Hp, Hcs in Hv.
    unfold ResourceList.Length in Hv. rewrite Htl in Hv.
    cbn [List.length Nat.eqb andb Changeset.Blank Changeset.Create Changeset.Update
         Changeset.Delete Changeset.Recreate Changeset.is_nil negb] in Hv.
    split.
    + eapply diff_trace; [eassumption..|].
      pose proof (@calculateChangeset_inSync env o _ _
                    (Engine.mkChange (Commands.renderDiff env) Action.Noop
                       (Some cur) (Some des) []) Hv (or_introl eq_refl)) as Hin.
      unfold inSync, Change.ItemName, Resource.address in Hin.
      cbn [Change.subject Engine.mkChange Change.Desired] in Hin.
      now rewrite Hkd, Hnd in Hin.
    + now rewrite (@diff_exitCode env opts o _ _ _ Hg Hc Hv).
Qed.

Lemma noop_prints_in_sync_witness :
  (In (Print Plain ("* Service/pi is in sync" ++ nl))
      (trace (Cmd.diff
                (Scenario.cluster [Scenario.servicePi Resource.current "80"]
                                  [Scenario.servicePi Resource.desired "80"])
                (Scenario.parsed (Scenario.options false false))))
   /\ exitCode (Cmd.diff
                  (Scenario.cluster [Scenario.servicePi Resource.current "80"]
                                    [Scenario.servicePi Resource.desired "80"])
                  (Scenario.parsed (Scenario.options false false))) = 0)
  /\ In (Print Plain ("* Service/pi is in sync" ++ nl))
        (trace (Main.main (Scenario.user EmptyString "80") Main.statusCommand
                  (Scenario.flags true))).
Proof.
  split.
  - refine (proj2 (proj2 noop_prints_in_sync)
              (Scenario.cluster [Scenario.servicePi Resource.current "80"]
                                [Scenario.servicePi Resource.desired "80"])
              (Scenario.parsed (Scenario.options false false))
              (Scenario.options false false) Scenario.anyFilter
              (ResourceList.Build Scenario.anyFilter
                 [Scenario.servicePi Resource.desired "80"])
              (ResourceList.Build Scenario.anyFilter
                 [Scenario.servicePi Resource.current "80"])
              (Scenario.servicePi Resource.current "80")
              (Scenario.servicePi Resource.desired "80")
              eq_refl eq_refl eq_refl eq_refl eq_refl eq_refl eq_refl
              eq_refl eq_refl eq_refl eq_refl eq_refl).
  - refine (proj1 (proj2 noop_prints_in_sync)
              (Scenario.user EmptyString "80") (Scenario.flags true) false
              (Changeset.Build
                 [Change.Build Action.Noop
                    (Some (Scenario.servicePi Resource.current "80"))
                    (Some (Scenario.servicePi Resource.desired "80")) [] EmptyString]
                 [] [] [] [])
              (Change.Build Action.Noop
                 (Some (Scenario.servicePi Resource.current "80"))
                 (Some (Scenario.servicePi Resource.desired "80")) [] EmptyString)
              eq_refl eq_refl eq_refl eq_refl eq_refl (or_introl eq_refl)).
Defined.

(** ** The confirmation of [update] *)

Section Update.
Variable env : Main.Env.

(** The trace of an interactive [update]: harmless events, then
    possibly the affirmative answer and the update. *)
Lemma update_shape o :
  Main.NonInteractive o = false ->
  exists pre, forallb harmless pre = true /\
    (trace (Main.update env o) = pre \/
     exists cs, trace (Main.update env o)
                = (pre ++ [Asked "Apply changes?" true; RemoteUpdated cs])%list
                /\ Main.AskForConfirmation env "Apply changes?" (Main.Stdin env) = true).
Proof.
  intros Hi. unfold Main.update, Main.checkLoggedIn.
  destruct (Main.Whoami env).
  2: { eexists; split; [|left; reflexivity]. reflexivity. }
  rewrite bind_ret.
  destruct (Main.CompareProcess env).
  { eexists; split; [|left; reflexivity]. reflexivity. }
  pose proof (harmless_calculateChangeset env o) as Hh. unfold only in Hh.
  rewrite trace_bind.
  destruct (snd (Main.calculateChangeset env o)) as [[[u cs] [err|]]|c].
  - exists (trace (Main.calculateChangeset env o) ++ [Log err])%list.
    split; [|left; reflexivity]. now rewrite forallb_app, Hh.
  - destruct u.
    + rewrite Hi. unfold Main.askForConfirmation, Main.UpdateRemote.
      destruct (Main.AskForConfirmation env "Apply changes?" (Main.Stdin env)) eqn:Ea.
      * exists (trace (Main.calculateChangeset env o)). split; [assumption|].
        right. exists cs. split; reflexivity.
      * exists (trace (Main.calculateChangeset env o)
                ++ [Asked "Apply changes?" false])%list.
        split; [|left; reflexivity]. now rewrite forallb_app, Hh.
    + exists (trace (Main.calculateChangeset env o)). split; [assumption|].
      left. cbn. now rewrite app_nil_r.
  - exists (trace (Main.calculateChangeset env o)). split; [assumption | now left].
Qed.

Lemma main_update_shape o :
  Main.NonInteractive o = false ->
  exists pre, forallb harmless pre = true /\
    (trace (Main.main env Main.updateCommand o) = pre \/
     exists cs, trace (Main.main env Main.updateCommand o)
                = (pre ++ [Asked "Apply changes?" true; RemoteUpdated cs])%list
                /\ Main.AskForConfirmation env "Apply changes?" (Main.Stdin env) = true).
Proof.
  intros Hi. unfold Main.main.
  destruct (Main.GetFileFlags env).
  { eexists; split; [|left; reflexivity]. reflexivity. }
  destruct (Main.GlobalProcess env).
  { eexists; split; [|left; reflexivity]. reflexivity. }
  now apply update_shape.
Qed.

(** An interactive [update] returns or exits with code 1. *)
Lemma main_update_ends o :
  Main.NonInteractive o = false ->
  snd (Main.main env Main.updateCommand o) = Return tt
  \/ snd (Main.main env Main.updateCommand o) = Exit 1.
Proof.
  intros Hi.
  destruct (snd (Main.main env Main.updateCommand o)) as [[]|c] eqn:E; [now left | right].
  f_equal. revert E. unfold Main.main.
  destruct (Main.GetFileFlags env); [now intros [= <-]|].
  destruct (Main.GlobalProcess env); [now intros [= <-]|].
  unfold Main.update, Main.checkLoggedIn.
  destruct (Main.Whoami env); [|now intros [= <-]].
  rewrite bind_ret.
  destruct (Main.CompareProcess env); [now intros [= <-]|].
  rewrite snd_bind.
  destruct (snd (Main.calculateChangeset env o)) as [[[u cs] [err|]]|c'] eqn:Ec.
  - now intros [= <-].
  - destruct u; [|discriminate]. rewrite Hi.
    unfold Main.askForConfirmation, Main.UpdateRemote.
    destruct (Main.AskForConfirmation _ _ _); discriminate.
  - intros [= <-]. now apply (@exits1_calculateChangeset env o).
Qed.

End Update.

(** C5: in interactive mode the [update] command calls [UpdateRemote]
    only when [AskForConfirmation] answered the prompt "Apply changes?"
    affirmatively, and then as the very next thing; on any other input
    the run ends without one event that changes the cluster. *)
Theorem update_waits_for_yes (env : Main.Env) (o : Main.CompareOptions) :
  Main.NonInteractive o = false ->
  (forall cs, In (RemoteUpdated cs) (trace (Main.main env Main.updateCommand o)) ->
     Main.AskForConfirmation env "Apply changes?" (Main.Stdin env) = true /\
     exists before,
       trace (Main.main env Main.updateCommand o)
       = (before ++ [Asked "Apply changes?" true; RemoteUpdated cs])%list)
  /\ (Main.AskForConfirmation env "Apply changes?" (Main.Stdin env) = false ->
      (forall e, In e (trace (Main.main env Main.updateCommand o)) ->
                 mutatesCluster e = false)
      /\ (snd (Main.main env Main.updateCommand o) = Return tt
          \/ snd (Main.main env Main.updateCommand o) = Exit 1)).
Proof.
  intros Hi.
  destruct (main_update_shape env o Hi) as (pre & Hpre & Hshape).
  rewrite forallb_forall in Hpre.
  assert (Hh : forall e, In e pre -> mutatesCluster e = false).
  { intros e He. apply Hpre in He. unfold harmless in He.
    now destruct (mutatesCluster e). }
  split.
  - intros cs Hin.
    destruct Hshape as [E|(cs' & E & Ha)]; rewrite E in Hin.
    + now apply Hh in Hin.
    + split; [assumption|]. apply in_app_or in Hin as [Hin|Hin].
      * now apply Hh in Hin.
      * destruct Hin as [[=]|[[= ->]|[]]]. now exists pre.
  - intros Ha. split; [|now apply main_update_ends].
    destruct Hshape as [->|(cs' & _ & Ha')]; [assumption | congruence].
Qed.

Lemma update_waits_for_yes_witness :
  forallb harmless
    (trace (Main.main (Scenario.user "no" "8080") Main.updateCommand
              (Scenario.flags false)))
  = true.
Proof.
  apply forallb_forall. intros e He. unfold harmless.
  now rewrite (proj1 (proj2 (@update_waits_for_yes (Scenario.user "no" "8080")
                               (Scenario.flags false) eq_refl) eq_refl) e He).
Defined.

(** ** The parameter store *)

Section StoreFacts.
Variable decrypt : string -> option string.
Variable encrypt : string -> string.








End StoreFacts.




(* ================================================================== *)
(** * More properties of the code *)

(** ** The order of [sort.Strings] *)

Section StringOrder.

Lemma compare_refl (s : string) : String.compare s s = Eq.
Proof.
  induction s as [|c s IH]; [reflexivity|]. cbn [String.compare].
  unfold Ascii.compare. now rewrite N.compare_refl.
Qed.

Lemma ascii_compare_lt_trans (a b c : ascii) :
  Ascii.compare a b = Lt -> Ascii.compare b c = Lt -> Ascii.compare a c = Lt.
Proof.
  unfold Ascii.compare. rewrite !N.compare_lt_iff. apply N.lt_trans.
Qed.

Lemma compare_lt_trans (s1 s2 s3 : string) :
  String.compare s1 s2 = Lt -> String.compare s2 s3 = Lt ->
  String.compare s1 s3 = Lt.
Proof.
  revert s2 s3. induction s1 as [|a s1 IH]; intros [|b s2] [|c s3];
    cbn [String.compare]; try discriminate; try reflexivity.
  destruct (Ascii.compare a b) eqn:Eab; try discriminate;
    destruct (Ascii.compare b c) eqn:Ebc; try discriminate; intros H1 H2.
  - apply Ascii.compare_eq_iff in Eab, Ebc. subst.
    unfold Ascii.compare. rewrite N.compare_refl. now apply IH with s2.
  - apply Ascii.compare_eq_iff in Eab. subst. now rewrite Ebc.
  - apply Ascii.compare_eq_iff in Ebc. subst. now rewrite Eab.
  - now rewrite (ascii_compare_lt_trans _ _ _ Eab Ebc).
Qed.

Lemma ltb_trans (s1 s2 s3 : string) :
  String.ltb s1 s2 = true -> String.ltb s2 s3 = true -> String.ltb s1 s3 = true.
Proof.
  unfold String.ltb. intros H1 H2.
  destruct (String.compare s1 s2) eqn:E1; try discriminate.
  destruct (String.compare s2 s3) eqn:E2; try discriminate.
  now rewrite (compare_lt_trans _ _ _ E1 E2).
Qed.

Lemma ltb_irrefl (s : string) : String.ltb s s = false.
Proof. unfold String.ltb. now rewrite compare_refl. Qed.

Lemma leb_neq_ltb (x y : string) :
  String.leb x y = true -> x <> y -> String.ltb x y = true.
Proof.
  unfold String.leb, String.ltb. intros H Hne.
  destruct (String.compare x y) eqn:E; try discriminate; [|reflexivity].
  now apply String.compare_eq_iff in E.
Qed.

Lemma not_leb_ltb (x y : string) :
  String.leb x y = false -> String.ltb y x = true.
Proof.
  unfold String.leb, String.ltb. rewrite (String.compare_antisym y x).
  now destruct (String.compare x y).
Qed.

End StringOrder.

Section Sorting.

Lemma In_insert_string (x y : string) (l : list string) :
  In y (insert_string x l) <-> y = x \/ In y l.
Proof.
  induction l as [|z l IH]; cbn [insert_string].
  - cbn. intuition congruence.
  - destruct (String.leb x z); cbn [In]; rewrite ?IH; intuition congruence.
Qed.

Lemma In_SortStrings (y : string) (l : list string) :
  In y (SortStrings l) <-> In y l.
Proof.
  induction l as [|x l IH]; cbn [SortStrings fold_right]; [tauto|].
  fold (SortStrings l). rewrite In_insert_string, IH. cbn. intuition congruence.
Qed.

Lemma ascending_cons (x y : string) (l : list string) :
  ascending (x :: y :: l) = String.ltb x y && ascending (y :: l).
Proof. reflexivity. Qed.

Lemma ascending_insert (x : string) (l : list string) :
  ascending l = true -> ~ In x l -> ascending (insert_string x l) = true.
Proof.
  induction l as [|y l IH]; [reflexivity|].
  intros Hl Hx. cbn [insert_string].
  destruct (String.leb x y) eqn:E.
  - rewrite ascending_cons, Hl, andb_true_r.
    apply leb_neq_ltb; [assumption|]. intros ->. apply Hx. now left.
  - assert (Hyx := not_leb_ltb _ _ E).
    assert (Hl' : ascending l = true).
    { destruct l as [|z l]; [reflexivity|].
      rewrite ascending_cons in Hl. now apply andb_prop in Hl. }
    assert (Hi := IH Hl' (fun H => Hx (or_intror H))).
    destruct l as [|z l].
    + cbn [insert_string]. now rewrite ascending_cons, Hyx.
    + cbn [insert_string] in *. rewrite ascending_cons in Hl.
      apply andb_prop in Hl as [Hyz _].
      destruct (String.leb x z); rewrite ascending_cons.
      * now rewrite Hyx, Hi.
      * now rewrite Hyz, Hi.
Qed.

(** [sort.Strings] on distinct strings: strictly ascending. *)
Lemma ascending_SortStrings (l : list string) :
  NoDup l -> ascending (SortStrings l) = true.
Proof.
  induction 1 as [|x l Hx Hl IH]; [reflexivity|].
  cbn [SortStrings fold_right]. fold (SortStrings l).
  apply ascending_insert; [assumption|]. now rewrite In_SortStrings.
Qed.

Lemma ascending_head (x : string) (l : list string) :
  ascending (x :: l) = true -> forall y, In y l -> String.ltb x y = true.
Proof.
  revert x. induction l as [|z l IH]; intros x H y []; rewrite ascending_cons in H;
    apply andb_prop in H as [Hxz Hl].
  - now subst.
  - apply ltb_trans with z; [assumption | now apply IH].
Qed.

Lemma ascending_tail (x : string) (l : list string) :
  ascending (x :: l) = true -> ascending l = true.
Proof.
  destruct l as [|y l]; [reflexivity|]. rewrite ascending_cons.
  intros H. now apply andb_prop in H.
Qed.

(** Two strictly ascending lists with the same elements are equal. *)
Lemma ascending_unique (l1 l2 : list string) :
  ascending l1 = true -> ascending l2 = true ->
  (forall x, In x l1 <-> In x l2) -> l1 = l2.
Proof.
  revert l2. induction l1 as [|x l1 IH]; intros [|y l2] H1 H2 Hin.
  - reflexivity.
  - destruct (proj2 (Hin y)); now left.
  - destruct (proj1 (Hin x)); now left.
  - assert (Hxy : x = y).
    { destruct (proj1 (Hin x) (or_introl eq_refl)) as [E|Hx]; [now subst|].
      destruct (proj2 (Hin y) (or_introl eq_refl)) as [E|Hy]; [assumption|].
      pose proof (ascending_head _ _ H1 _ Hy) as A.
      pose proof (ascending_head _ _ H2 _ Hx) as B.
      pose proof (ltb_trans _ _ _ A B) as C. now rewrite ltb_irrefl in C. }
    subst y. f_equal. apply IH.
    + now apply ascending_tail in H1.
    + now apply ascending_tail in H2.
    + intros z. split; intros Hz.
      * destruct (proj1 (Hin z) (or_intror Hz)) as [E|]; [|assumption].
        subst z. pose proof (ascending_head _ _ H1 _ Hz) as A.
        now rewrite ltb_irrefl in A.
      * destruct (proj2 (Hin z) (or_intror Hz)) as [E|]; [|assumption].
        subst z. pose proof (ascending_head _ _ H2 _ Hz) as A.
        now rewrite ltb_irrefl in A.
Qed.

End Sorting.

(** ** The filter of [getFilter] *)

Section MoreStrings.

Lemma Contains_byte_app (a b : string) (c : ascii) :
  Contains (a ++ b) (String c EmptyString)
  = Contains a (String c EmptyString) || Contains b (String c EmptyString).
Proof.
  induction a as [|x a IH]; cbn [String.append].
  - now rewrite (Contains_byte EmptyString).
  - rewrite (Contains_byte (String x (a ++ b))), (Contains_byte (String x a)), IH.
    now rewrite orb_assoc.
Qed.

Lemma Split_none (s : string) (sep : ascii) :
  Contains s (String sep EmptyString) = false -> Split s sep = [s].
Proof.
  induction s as [|c s IH]; [reflexivity|].
  rewrite Contains_byte. intros H. apply orb_false_elim in H as [Hc Hs].
  cbn [Split]. now rewrite Hc, (IH Hs).
Qed.

Lemma Split_app (a b : string) (sep : ascii) :
  Contains a (String sep EmptyString) = false ->
  Split (a ++ String sep b) sep = a :: Split b sep.
Proof.
  induction a as [|c a IH]; cbn [String.append Split].
  - intros _. now rewrite Ascii.eqb_refl.
  - rewrite Contains_byte. intros H. apply orb_false_elim in H as [Hc Ha].
    now rewrite Hc, (IH Ha).
Qed.

End MoreStrings.

Section Kinds.
Import Main.

Lemma In_setTrue (keys : list string) (x k : string) :
  In k (setTrue keys x) <-> In k keys \/ k = x.
Proof.
  unfold setTrue. destruct (existsb (String.eqb x) keys) eqn:E.
  - split; [now left|]. intros [H|H]; [assumption|]. subst k.
    apply existsb_exists in E as (y & Hy & Hxy).
    apply String.eqb_eq in Hxy. now subst.
  - rewrite in_app_iff. cbn. intuition congruence.
Qed.

Lemma NoDup_setTrue (keys : list string) (x : string) :
  NoDup keys -> NoDup (setTrue keys x).
Proof.
  intros H. unfold setTrue. destruct (existsb (String.eqb x) keys) eqn:E; [assumption|].
  apply NoDup_app; [assumption | repeat constructor; intros [] |].
  intros y Hy [E'|[]]. subst y.
  assert (existsb (String.eqb x) keys = true); [|congruence].
  apply existsb_exists. exists x. split; [assumption | apply String.eqb_refl].
Qed.

Lemma scanKinds_targeted (kinds t u : list string) (k : string) :
  In k (fst (scanKinds kinds t u)) <-> In k t \/ In k (kindsOf kinds).
Proof.
  revert t u. induction kinds as [|x xs IH]; intros t u;
    cbn [scanKinds kindsOf flat_map].
  - cbn. tauto.
  - fold (kindsOf xs). unfold at_key.
    destruct (lookup kindMapping x) as [v|] eqn:E.
    + rewrite IH, In_setTrue. cbn [app In]. intuition congruence.
    + rewrite IH. cbn [app]. tauto.
Qed.

Lemma NoDup_scanKinds (kinds t u : list string) :
  NoDup t -> NoDup (fst (scanKinds kinds t u)).
Proof.
  revert t u. induction kinds as [|x xs IH]; intros t u Ht; cbn [scanKinds].
  - assumption.
  - destruct (lookup kindMapping x); apply IH; [now apply NoDup_setTrue | assumption].
Qed.

End Kinds.

Lemma getFilter_Kinds (lower : Lowering) (kindArg sel : string)
    (f : ResourceFilter.t) :
  Contains kindArg "/" = false ->
  Main.getFilter lower kindArg sel = Ok f ->
  ResourceFilter.Kinds f
  = SortStrings (fst (Main.scanKinds (Split (ToLower lower kindArg) ",") [] []))
  /\ ResourceFilter.Name f = EmptyString
  /\ ResourceFilter.Label f = sel
  /\ ResourceFilter.Exclude f = [].
Proof.
  intros Hs. destruct kindArg as [|c s].
  - rewrite ToLower_nil. cbn. intros [= <-]. now cbn.
  - rewrite getFilter_list by (assumption || discriminate).
    destruct (filter _ _); [|discriminate]. intros [= <-]. now cbn.
Qed.

Lemma Kinds_In (lower : Lowering) (kindArg sel : string) (f : ResourceFilter.t)
    (kind : string) :
  Contains kindArg "/" = false ->
  Main.getFilter lower kindArg sel = Ok f ->
  In kind (ResourceFilter.Kinds f)
  <-> In kind (kindsOf (Split (ToLower lower kindArg) ",")).
Proof.
  intros Hs Hf. destruct (getFilter_Kinds _ _ _ Hs Hf) as (-> & _).
  rewrite In_SortStrings, scanKinds_targeted. cbn. tauto.
Qed.

Lemma Kinds_NoDup (tokens : list string) :
  NoDup (fst (Main.scanKinds tokens [] [])).
Proof. apply NoDup_scanKinds. constructor. Qed.

(** X2: for a resource argument without [/], the kinds of the filter
    [getFilter] returns are in strictly ascending order, so sorted
    with no kind twice, and they are exactly the kinds that the
    comma-separated tokens of the argument, lowered by
    [strings.ToLower], stand for in [kindMapping]. *)
Theorem getFilter_kinds_ascending (lower : Lowering) (kindArg sel : string)
    (f : ResourceFilter.t) :
  Contains kindArg "/" = false ->
  Main.getFilter lower kindArg sel = Ok f ->
  ascending (ResourceFilter.Kinds f) = true
  /\ (forall kind, In kind (ResourceFilter.Kinds f) <->
                   In kind (kindsOf (Split (ToLower lower kindArg) ","))).
Proof.
  intros Hs Hf. split.
  - destruct (getFilter_Kinds _ _ _ Hs Hf) as (-> & _).
    apply ascending_SortStrings, Kinds_NoDup.
  - intros kind. exact (@Kinds_In _ _ _ _ kind Hs Hf).
Qed.

Lemma getFilter_kinds_ascending_witness :
  (ascending ["DeploymentConfig"; "Service"] = true
   /\ forall kind, In kind ["DeploymentConfig"; "Service"] <->
                   In kind (kindsOf (Split (ToLower latin "svc,DC,service") ",")))
  /\ (ascending ["ImageStream"] = true
      /\ forall kind, In kind ["ImageStream"] <->
                      In kind (kindsOf (Split (ToLower latin Cases.dottedIS) ","))).
Proof.
  split.
  - exact (@getFilter_kinds_ascending latin "svc,DC,service" "app=pi"
             (ResourceFilter.Build ["DeploymentConfig"; "Service"]
                EmptyString "app=pi" [])
             eq_refl eq_refl).
  - exact (@getFilter_kinds_ascending latin Cases.dottedIS EmptyString
             (ResourceFilter.Build ["ImageStream"] EmptyString EmptyString [])
             eq_refl eq_refl).
Defined.

(** X3: two resource arguments without [/] whose tokens, lowered by
    [strings.ToLower], stand for the same kinds give the same filter
    under the same selector: the order of the tokens, their case, a
    kind named twice and an alias in place of the full name make no
    difference. *)
Theorem getFilter_same_kinds (lower : Lowering) (a b sel : string)
    (fa fb : ResourceFilter.t) :
  Contains a "/" = false -> Contains b "/" = false ->
  Main.getFilter lower a sel = Ok fa -> Main.getFilter lower b sel = Ok fb ->
  (forall kind, In kind (kindsOf (Split (ToLower lower a) ",")) <->
                In kind (kindsOf (Split (ToLower lower b) ","))) ->
  fa = fb.
Proof.
  intros Ha Hb Hfa Hfb Hsame.
  assert (Aa : ascending (ResourceFilter.Kinds fa) = true).
  { destruct (getFilter_Kinds _ _ _ Ha Hfa) as (-> & _).
    apply ascending_SortStrings, Kinds_NoDup. }
  assert (Ab : ascending (ResourceFilter.Kinds fb) = true).
  { destruct (getFilter_Kinds _ _ _ Hb Hfb) as (-> & _).
    apply ascending_SortStrings, Kinds_NoDup. }
  pose proof (fun kind => @Kinds_In _ _ _ _ kind Ha Hfa) as Ia.
  pose proof (fun kind => @Kinds_In _ _ _ _ kind Hb Hfb) as Ib.
  destruct (getFilter_Kinds _ _ _ Ha Hfa) as (_ & Na & La & Ea).
  destruct (getFilter_Kinds _ _ _ Hb Hfb) as (_ & Nb & Lb & Eb).
  assert (K : ResourceFilter.Kinds fa = ResourceFilter.Kinds fb).
  { apply ascending_unique; try assumption.
    intros x. now rewrite Ia, Ib. }
  destruct fa, fb; cbn in *; congruence.
Qed.

Lemma getFilter_same_kinds_witness :
  Main.getFilter latin "svc,dc,is" "app=pi"
  = Main.getFilter latin ("DeploymentConfig,SERVICE,svc," ++ Cases.dottedIS) "app=pi".
Proof.
  change (Ok (ResourceFilter.Build ["DeploymentConfig"; "ImageStream"; "Service"]
                EmptyString "app=pi" [])
          = Ok (ResourceFilter.Build ["DeploymentConfig"; "ImageStream"; "Service"]
                  EmptyString "app=pi" [])).
  apply (f_equal (@Ok ResourceFilter.t)).
  apply (@getFilter_same_kinds latin "svc,dc,is"
           ("DeploymentConfig,SERVICE,svc," ++ Cases.dottedIS) "app=pi");
    try reflexivity.
  intros kind. vm_compute. tauto.
Defined.

(** X4: for an argument [kind/rest] without comma, [getFilter] returns
    a filter with no kinds; its name is made of the first two pieces
    that the slashes leave of the lowered argument: the entry of
    [kindMapping] for the first, a slash, and the second.  For an
    argument of ASCII bytes that is the entry for the kind in lower
    case, a slash, and [rest] in lower case up to its first slash.
    The kind is not checked against the table (an unknown kind gives
    the empty entry of a Go map), and what follows a second slash is
    dropped. *)
Theorem getFilter_kind_name (lower : Lowering) (kind rest sel : string) :
  Contains kind "/" = false ->
  Contains (kind ++ "/" ++ rest) "," = false ->
  (exists first second more,
      Split (ToLower lower (kind ++ "/" ++ rest)) "/" = first :: second :: more
      /\ Main.getFilter lower (kind ++ "/" ++ rest) sel
         = Ok (ResourceFilter.Build []
                 (Main.at_key Main.kindMapping first ++ "/" ++ second) sel []))
  /\ (isASCII (kind ++ "/" ++ rest) = true ->
      Main.getFilter lower (kind ++ "/" ++ rest) sel
      = Ok (ResourceFilter.Build []
              (Main.at_key Main.kindMapping (lowerASCII kind) ++ "/"
               ++ hd EmptyString (Split (lowerASCII rest) "/"))
              sel [])).
Proof.
  intros Hk Hc.
  assert (Hs : Contains (kind ++ "/" ++ rest) "/" = true).
  { rewrite Contains_byte_app. change ("/" ++ rest) with (String "/" rest).
    now rewrite (Contains_byte (String "/" rest)), Ascii.eqb_refl, orb_true_r. }
  destruct (@getFilter_named lower _ sel Hs Hc) as (first & second & more & Hp & Hf).
  split; [exists first, second, more; now split|].
  intros Ha. rewrite Hf. rewrite ToLower_ascii in Hp by exact Ha.
  rewrite lowerASCII_app in Hp.
  change (lowerASCII ("/" ++ rest)) with (String "/" (lowerASCII rest)) in Hp.
  rewrite Split_app in Hp
    by (rewrite Contains_lowerASCII by exact lower_byte_slash; assumption).
  injection Hp as <- Hp. rewrite Hp. reflexivity.
Qed.

Lemma getFilter_kind_name_witness :
  Main.getFilter latin "DC/Foo/bar" "app=pi"
  = Ok (ResourceFilter.Build [] "DeploymentConfig/foo" "app=pi" [])
  /\ Main.getFilter latin "pod/foo" EmptyString
     = Ok (ResourceFilter.Build [] "/foo" EmptyString [])
  /\ exists first second more,
       Split (ToLower latin ("dc" ++ "/" ++ Cases.capitalE)) "/"
       = first :: second :: more
       /\ Main.getFilter latin ("dc" ++ "/" ++ Cases.capitalE) EmptyString
          = Ok (ResourceFilter.Build []
                  (Main.at_key Main.kindMapping first ++ "/" ++ second)
                  EmptyString []).
Proof.
  split; [|split].
  - exact (proj2 (@getFilter_kind_name latin "DC" "Foo/bar" "app=pi" eq_refl eq_refl)
             eq_refl).
  - exact (proj2 (@getFilter_kind_name latin "pod" "foo" EmptyString eq_refl eq_refl)
             eq_refl).
  - exact (proj1 (@getFilter_kind_name latin "dc" Cases.capitalE EmptyString
                    eq_refl eq_refl)).
Defined.

(** ** What [status] and [update] of release 0.7.0 do *)

Section MainShows.
Variable env : Main.Env.

Lemma shows_readTemplates o d i fs l :
  only shows (Main.readTemplates env o d i fs l).
Proof.
  revert l. induction fs as [|x fs IH]; intros l; cbn [Main.readTemplates].
  - apply only_ret.
  - destruct (negb _); [apply IH|].
    apply only_bind; [now apply only_emit|]. intros _ _.
    destruct (index _ _); try now apply only_Fatal.
    destruct (Main.ProcessTemplate _ _ _ _ _); [apply IH | now apply only_Fatal].
Qed.

Lemma shows_readTemplateDirs o i ds l :
  only shows (Main.readTemplateDirs env o i ds l).
Proof.
  revert i l. induction ds as [|d ds IH]; intros i l; cbn [Main.readTemplateDirs].
  - apply only_ret.
  - destruct (Main.ReadDir _ _); [|now apply only_Fatal].
    apply only_bind; [apply shows_readTemplates | intros; apply IH].
Qed.

Lemma shows_compare rl ll u : only shows (Main.compare env rl ll u).
Proof. unfold Main.compare. repeat only_step. Qed.

Lemma shows_calculateChangeset o : only shows (Main.calculateChangeset env o).
Proof.
  unfold Main.calculateChangeset.
  apply only_bind; [now apply only_emit|]; intros _ _.
  apply only_bind; [now apply only_limiting|]; intros _ _.
  destruct (Main.getFilter _ _); [|apply only_ret|now apply only_Fatal].
  apply only_bind; [apply shows_readTemplateDirs|]; intros ll _.
  apply only_bind.
  { unfold Main.assembleRemoteResourceList.
    destruct (Main.ExportResources _ _ _); [apply only_ret | now apply only_Fatal]. }
  intros rl _.
  apply only_bind; [now apply only_emit|]; intros _ _.
  apply only_bind; [apply shows_compare | intros; apply only_ret].
Qed.


Lemma update_trace o :
  Main.GetFileFlags env = None -> Main.GlobalProcess env = None ->
  Main.Whoami env = true -> Main.CompareProcess env = None ->
  trace (Main.main env Main.updateCommand o)
  = (trace (Main.calculateChangeset env o)
     ++ afterComparison env o (snd (Main.calculateChangeset env o)))%list.
Proof.
  intros H1 H2 H3 H4. unfold Main.main, Main.update, Main.checkLoggedIn.
  rewrite H1, H2, H3, H4, bind_ret, trace_bind.
  destruct (snd (Main.calculateChangeset env o)) as [[[u cs] [err|]]|c]; cbn [afterComparison].
  - destruct u; reflexivity.
  - destruct u; [|reflexivity].
    destruct (Main.NonInteractive o); [reflexivity|].
    unfold Main.askForConfirmation, Main.UpdateRemote.
    now destruct (Main.AskForConfirmation _ _ _).
  - now rewrite app_nil_r.
Qed.

Lemma update_trace_failed o :
  ~ (Main.GetFileFlags env = None /\ Main.GlobalProcess env = None /\
     Main.Whoami env = true /\ Main.CompareProcess env = None) ->
  exists msg, Main.main env Main.updateCommand o = ([Log msg], Exit 1).
Proof.
  intros H. unfold Main.main, Main.update, Main.checkLoggedIn.
  destruct (Main.GetFileFlags env); [eexists; reflexivity|].
  destruct (Main.GlobalProcess env); [eexists; reflexivity|].
  destruct (Main.Whoami env); [|eexists; reflexivity].
  destruct (Main.CompareProcess env); [eexists; reflexivity|].
  elim H. tauto.
Qed.

End MainShows.


Lemma ready_iff (env : Main.Env) :
  ready env = true <->
  Main.GetFileFlags env = None /\ Main.GlobalProcess env = None /\
  Main.Whoami env = true /\ Main.CompareProcess env = None.
Proof.
  unfold ready.
  destruct (Main.GetFileFlags env), (Main.GlobalProcess env),
    (Main.Whoami env), (Main.CompareProcess env); intuition discriminate.
Qed.


(** X6: a run of [status] (release 0.7.0) only prints, logs and writes
    debug messages: it never asks the user, never updates the cluster
    and never writes a file, however the run ends. *)
Theorem status_only_shows (env : Main.Env) (o : Main.CompareOptions) :
  only shows (Main.main env Main.statusCommand o).
Proof.
  unfold Main.main, Main.status, Main.checkLoggedIn.
  destruct (Main.GetFileFlags env); [now apply only_Fatal|].
  destruct (Main.GlobalProcess env); [now apply only_Fatal|].
  apply only_bind.
  { destruct (Main.Whoami env); [apply only_ret | now apply only_Fatal]. }
  intros _ _.
  destruct (Main.CompareProcess env); [now apply only_Fatal|].
  apply only_bind; [apply shows_calculateChangeset|].
  intros [[u cs] [err|]] _; [now apply only_Fatal|].
  destruct u; [apply only_osExit | apply only_ret].
Qed.

Section UpdateFacts.
Variable env : Main.Env.
Variable o : Main.CompareOptions.

Let run := Main.main env Main.updateCommand o.
Let answer := Main.AskForConfirmation env "Apply changes?" (Main.Stdin env).

Lemma update_cases :
  (ready env = false /\ exists msg, run = ([Log msg], Exit 1))
  \/ (ready env = true /\
      trace run = (trace (Main.calculateChangeset env o)
                   ++ afterComparison env o (snd (Main.calculateChangeset env o)))%list).
Proof.
  destruct (ready env) eqn:E.
  - right. split; [reflexivity|]. apply ready_iff in E as (H1 & H2 & H3 & H4).
    now apply update_trace.
  - left. split; [reflexivity|]. apply update_trace_failed.
    intros H. apply ready_iff in H. congruence.
Qed.

Lemma calc_shows e :
  In e (trace (Main.calculateChangeset env o)) -> shows e = true.
Proof. apply only_In, shows_calculateChangeset. Qed.

End UpdateFacts.


(** X8: a run of [update] calls [openshift.UpdateRemote] with a
    changeset iff the run got as far as the comparison,
    [calculateChangeset] returned that changeset with
    [updateRequired] set and no error, and either the options are
    non-interactive or the user confirmed the prompt. *)
Theorem update_applies_iff (env : Main.Env) (o : Main.CompareOptions)
    (cs : Changeset.t) :
  In (RemoteUpdated cs) (trace (Main.main env Main.updateCommand o)) <->
  ready env = true
  /\ snd (Main.calculateChangeset env o) = Return (true, cs, None)
  /\ (Main.NonInteractive o = true
      \/ Main.AskForConfirmation env "Apply changes?" (Main.Stdin env) = true).
Proof.
  destruct (update_cases env o) as [[Hr (msg & E)]|[Hr E]].
  - rewrite E, Hr. cbn. intuition discriminate.
  - rewrite E, in_app_iff, Hr. split.
    + intros [H|H]; [now apply calc_shows in H|].
      split; [reflexivity|]. revert H. unfold afterComparison.
      destruct (snd (Main.calculateChangeset env o)) as [[[[|] cs'] [err|]]|c];
        destruct (Main.NonInteractive o);
        destruct (Main.AskForConfirmation env "Apply changes?" (Main.Stdin env));
        simpl; intuition (try discriminate); congruence.
    + intros (_ & -> & H). right. cbn [afterComparison].
      destruct (Main.NonInteractive o); [now left|].
      destruct H as [[=]|Ha]. rewrite Ha. right. now left.
Qed.


(** X9: a run of [update] asks the user iff the run got as far as the
    comparison, the options are interactive and [calculateChangeset]
    returned [updateRequired] with no error; the one question is
    "Apply changes?", asked once the comparison is shown, and a run in
    non-interactive mode never asks. *)
Theorem update_asks_iff (env : Main.Env) (o : Main.CompareOptions)
    (prompt : string) (a : bool) :
  In (Asked prompt a) (trace (Main.main env Main.updateCommand o)) <->
  ready env = true
  /\ Main.NonInteractive o = false
  /\ prompt = "Apply changes?"
  /\ a = Main.AskForConfirmation env "Apply changes?" (Main.Stdin env)
  /\ exists cs, snd (Main.calculateChangeset env o) = Return (true, cs, None).
Proof.
  destruct (update_cases env o) as [[Hr (msg & E)]|[Hr E]].
  - rewrite E, Hr. cbn. intuition discriminate.
  - rewrite E, in_app_iff, Hr. split.
    + intros [H|H]; [now apply calc_shows in H|].
      split; [reflexivity|]. revert H. unfold afterComparison.
      destruct (snd (Main.calculateChangeset env o)) as [[[[|] cs'] [err|]]|c];
        destruct (Main.NonInteractive o);
        destruct (Main.AskForConfirmation env "Apply changes?" (Main.Stdin env));
        simpl; intuition (try discriminate);
        try (match goal with H : Asked _ _ = Asked _ _ |- _ => injection H as <- <- end);
        try reflexivity; eauto.
    + intros (_ & Hi & -> & -> & cs & ->). right. cbn [afterComparison].
      rewrite Hi. now left.
Qed.


(** X10: [main] ends a run of [update] with code 0 or 1, never with
    the 3 of [status]; with 0 iff the run got as far as the comparison
    and [calculateChangeset] returned without error, whether or not
    the changes were applied or the user declined. *)
Theorem update_exit_code (env : Main.Env) (o : Main.CompareOptions) :
  (exitCode (Main.main env Main.updateCommand o) = 0
   \/ exitCode (Main.main env Main.updateCommand o) = 1)
  /\ (exitCode (Main.main env Main.updateCommand o) = 0 <->
      ready env = true /\
      exists u cs, snd (Main.calculateChangeset env o) = Return (u, cs, None)).
Proof.
  unfold exitCode, ready, Main.main, Main.update, Main.checkLoggedIn.
  destruct (Main.GetFileFlags env);
    [split; [now right|split; [discriminate | intros [[=] _]]]|].
  destruct (Main.GlobalProcess env);
    [split; [now right|split; [discriminate | intros [[=] _]]]|].
  destruct (Main.Whoami env);
    [|split; [now right|split; [discriminate | intros [[=] _]]]].
  rewrite bind_ret.
  destruct (Main.CompareProcess env);
    [split; [now right|split; [discriminate | intros [[=] _]]]|].
  rewrite snd_bind.
  destruct (snd (Main.calculateChangeset env o)) as [[[u cs] [err|]]|c] eqn:E.
  - split; [now right|]. split; [discriminate|]. now intros (_ & u' & cs' & [=]).
  - unfold Main.askForConfirmation, Main.UpdateRemote.
    destruct u; [destruct (Main.NonInteractive o);
                 [|destruct (Main.AskForConfirmation _ _ _)]|];
      cbn; (split; [now left|]; split; [|reflexivity];
            intros _; split; [reflexivity | eauto]).
  - apply exits1_calculateChangeset in E. subst c.
    split; [now right|]. split; [discriminate|]. now intros (_ & u' & cs' & [=]).
Qed.


Section UnknownKinds.
Variable env : Main.Env.
Variable o : Main.CompareOptions.
Variable e : error.
Hypothesis Hready : ready env = true.
Hypothesis Hfilter : Main.getFilter (Main.Lower env) (Main.Resource o) (Main.Selector o) = Err e.

Lemma calculateChangeset_no_filter :
  snd (Main.calculateChangeset env o) = Return (false, Changeset.empty, Some e)
  /\ only isPrint (Main.calculateChangeset env o).
Proof.
  unfold Main.calculateChangeset. rewrite Hfilter. split.
  - now rewrite !snd_bind, limiting_returns.
  - apply only_bind; [now apply only_emit|]; intros _ _.
    apply only_bind; [now apply only_limiting | intros; apply only_ret].
Qed.

Lemma unknown_kinds_stop_status :
  exitCode (Main.main env Main.statusCommand o) = 1
  /\ trace (Main.main env Main.statusCommand o)
     = (trace (Main.calculateChangeset env o) ++ [Log e])%list.
Proof.
  apply ready_iff in Hready as (H1 & H2 & H3 & H4).
  destruct calculateChangeset_no_filter as [Hs _].
  unfold exitCode, Main.main, Main.status, Main.checkLoggedIn.
  rewrite H1, H2, H3, H4, bind_ret, snd_bind, trace_bind, Hs. now split.
Qed.

Lemma unknown_kinds_stop_update :
  exitCode (Main.main env Main.updateCommand o) = 1
  /\ trace (Main.main env Main.updateCommand o)
     = (trace (Main.calculateChangeset env o) ++ [Log e])%list.
Proof.
  apply ready_iff in Hready as (H1 & H2 & H3 & H4).
  destruct calculateChangeset_no_filter as [Hs _].
  unfold exitCode, Main.main, Main.update, Main.checkLoggedIn.
  rewrite H1, H2, H3, H4, bind_ret, snd_bind, trace_bind, Hs. now split.
Qed.

End UnknownKinds.


(** X11: when [getFilter] rejects the resource argument, [status] and
    [update] end the same way: after the lines that announce the
    comparison, they log the error of [getFilter] and exit with code
    1; no template is read, nothing is exported from the cluster and
    nothing is asked or applied. *)
Theorem unknown_kinds_stop (env : Main.Env) (o : Main.CompareOptions) (e : error) :
  ready env = true ->
  Main.getFilter (Main.Lower env) (Main.Resource o) (Main.Selector o) = Err e ->
  exists header,
    forallb isPrint header = true
    /\ Main.main env Main.statusCommand o = ((header ++ [Log e])%list, Exit 1)
    /\ Main.main env Main.updateCommand o = ((header ++ [Log e])%list, Exit 1).
Proof.
  intros Hr Hf. exists (trace (Main.calculateChangeset env o)).
  destruct (calculateChangeset_no_filter env o Hf) as [_ Hp].
  destruct (unknown_kinds_stop_status env o Hr Hf) as [S1 S2].
  destruct (unknown_kinds_stop_update env o Hr Hf) as [U1 U2].
  split; [exact Hp|]. unfold exitCode, trace in *.
  destruct (Main.main env Main.statusCommand o) as [t1 [[]|c1]]; cbn in *; try discriminate.
  destruct (Main.main env Main.updateCommand o) as [t2 [[]|c2]]; cbn in *; try discriminate.
  subst. now split.
Qed.

Lemma unknown_kinds_stop_witness :
  exists header,
    forallb isPrint header = true
    /\ Main.main (Scenario.user "yes" "8080") Main.statusCommand
         (Cases.flagsFor "dc,xx" ["."] ["."])
       = ((header ++ [Log (Main.errUnknownKinds ["xx"])])%list, Exit 1)
    /\ Main.main (Scenario.user "yes" "8080") Main.updateCommand
         (Cases.flagsFor "dc,xx" ["."] ["."])
       = ((header ++ [Log (Main.errUnknownKinds ["xx"])])%list, Exit 1).
Proof.
  exact (@unknown_kinds_stop (Scenario.user "yes" "8080")
           (Cases.flagsFor "dc,xx" ["."] ["."]) (Main.errUnknownKinds ["xx"])
           eq_refl eq_refl).
Defined.

Section ParamDirs.
Variable env : Main.Env.
Variable o : Main.CompareOptions.
Hypothesis processed :
  forall templateDir file paramDir,
    exists out, Main.ProcessTemplate env templateDir file paramDir o = Success out.

Lemma readTemplates_returns_iff d i fs l :
  (exists l', snd (Main.readTemplates env o d i fs l) = Return l') <->
  existsb Main.matchedYaml fs && (List.length (Main.ParamDirs o) <=? i)%nat = false.
Proof.
  revert l. induction fs as [|f fs IH]; intros l; cbn [Main.readTemplates existsb].
  - split; [reflexivity | eexists; reflexivity].
  - destruct (Main.matchedYaml f) eqn:Em; cbn [negb orb andb]; [|apply IH].
    rewrite snd_bind. cbn [snd emit]. unfold index.
    destruct (nth_error (Main.ParamDirs o) i) as [p|] eqn:En.
    + assert (Hi : (List.length (Main.ParamDirs o) <=? i)%nat = false).
      { apply Nat.leb_gt, nth_error_Some. congruence. }
      destruct (processed d f p) as [out ->].
      rewrite IH, Hi, andb_false_r. tauto.
    + assert (Hi : (List.length (Main.ParamDirs o) <=? i)%nat = true).
      { apply Nat.leb_le, nth_error_None. assumption. }
      rewrite Hi. split; [intros [l' [=]] | discriminate].
Qed.

Lemma readTemplateDirs_returns_iff i ds l :
  (forall d, In d ds -> exists fs, Main.ReadDir env d = Success fs) ->
  (exists l', snd (Main.readTemplateDirs env o i ds l) = Return l') <->
  lacksParamDir env (List.length (Main.ParamDirs o)) i ds = false.
Proof.
  revert i l. induction ds as [|d ds IH]; intros i l Hd;
    cbn [Main.readTemplateDirs lacksParamDir].
  - split; [reflexivity | eexists; reflexivity].
  - destruct (Hd d (or_introl eq_refl)) as [fs ->].
    rewrite snd_bind, orb_false_iff, <- (readTemplates_returns_iff d i fs l).
    destruct (snd (Main.readTemplates env o d i fs l)) as [l1|c] eqn:E.
    + rewrite (IH (S i) l1 (fun d' H => Hd d' (or_intror H))).
      split; [intros H; split; [now exists l1 | assumption] | tauto].
    + split; [intros [l' [=]] | intros [[l' [=]] _]].
Qed.

End ParamDirs.


(** X12: [assembleLocalResourceList] reads the parameter directory of
    the same index as the template directory, [ParamDirs[i]].  When
    every directory can be read and every template processed, it
    returns iff no template directory that holds a YAML file has an
    index beyond the parameter directories; otherwise the slice access
    panics and the run ends with code 1.  A template directory without
    YAML files needs no parameter directory. *)
Theorem assembleLocal_param_dirs (env : Main.Env) (o : Main.CompareOptions)
    (filter : ResourceFilter.t) :
  (forall templateDir file paramDir,
     exists out, Main.ProcessTemplate env templateDir file paramDir o = Success out) ->
  (forall d, In d (Main.TemplateDirs o) -> exists fs, Main.ReadDir env d = Success fs) ->
  (lacksParamDir env (List.length (Main.ParamDirs o)) 0 (Main.TemplateDirs o) = false ->
   exists l, snd (Main.assembleLocalResourceList env filter o) = Return l)
  /\ (lacksParamDir env (List.length (Main.ParamDirs o)) 0 (Main.TemplateDirs o) = true ->
      snd (Main.assembleLocalResourceList env filter o) = Exit 1).
Proof.
  intros Hp Hd. unfold Main.assembleLocalResourceList.
  pose proof (readTemplateDirs_returns_iff env o Hp 0 (Main.TemplateDirs o)
                (ResourceList.Build filter []) Hd) as Hiff.
  split; intros Hl.
  - now apply Hiff.
  - destruct (snd (Main.readTemplateDirs env o 0 (Main.TemplateDirs o)
                     (ResourceList.Build filter []))) as [l|c] eqn:E.
    + assert (lacksParamDir env (List.length (Main.ParamDirs o)) 0
                (Main.TemplateDirs o) = false) by (apply Hiff; now exists l).
      congruence.
    + f_equal. now apply (@exits1_readTemplateDirs env o 0 (Main.TemplateDirs o)
                            (ResourceList.Build filter [])).
Qed.

Lemma assembleLocal_param_dirs_witness :
  snd (Main.assembleLocalResourceList (Scenario.user "yes" "8080") Scenario.anyFilter
         (Cases.flagsFor EmptyString ["a"; "b"] ["a"]))
  = Exit 1
  /\ exists l,
       snd (Main.assembleLocalResourceList (Scenario.user "yes" "8080")
              Scenario.anyFilter (Cases.flagsFor EmptyString ["a"; "b"] ["a"; "b"]))
       = Return l.
Proof.
  split.
  - refine (proj2 (@assembleLocal_param_dirs (Scenario.user "yes" "8080")
                     (Cases.flagsFor EmptyString ["a"; "b"] ["a"]) Scenario.anyFilter
                     _ _) eq_refl).
    + intros templateDir file paramDir. exists "processed". reflexivity.
    + intros d _. exists ["template.yml"]. reflexivity.
  - refine (proj1 (@assembleLocal_param_dirs (Scenario.user "yes" "8080")
                     (Cases.flagsFor EmptyString ["a"; "b"] ["a"; "b"])
                     Scenario.anyFilter _ _) eq_refl).
    + intros templateDir file paramDir. exists "processed". reflexivity.
    + intros d _. exists ["template.yml"]. reflexivity.
Defined.

Lemma bind_emit_ext {B} (e : Event) (k1 k2 : unit -> proc B) :
  k1 tt = k2 tt -> bind (emit e) k1 = bind (emit e) k2.
Proof. unfold bind, emit. now intros ->. Qed.

Section Listing.
Variable env : Main.Env.

Lemma readTemplates_listing o d i fs l :
  Main.readTemplates (MainRest.listing Main.matchedYaml env) o d i fs l
  = Main.readTemplates env o d i fs l.
Proof. reflexivity. Qed.

Lemma readTemplates_filter o d i fs l :
  Main.readTemplates env o d i (filter Main.matchedYaml fs) l
  = Main.readTemplates env o d i fs l.
Proof.
  revert l. induction fs as [|f fs IH]; intros l; cbn [filter Main.readTemplates];
    [reflexivity|].
  destruct (Main.matchedYaml f) eqn:E; cbn [negb]; [|apply IH].
  cbn [Main.readTemplates]. rewrite E. cbn [negb].
  apply bind_emit_ext. destruct (index _ _); try reflexivity.
  destruct (Main.ProcessTemplate env d f a o); [apply IH | reflexivity].
Qed.

Lemma readTemplateDirs_listing o i ds l :
  Main.readTemplateDirs (MainRest.listing Main.matchedYaml env) o i ds l
  = Main.readTemplateDirs env o i ds l.
Proof.
  revert i l. induction ds as [|d ds IH]; intros i l; cbn [Main.readTemplateDirs];
    [reflexivity|].
  cbn [MainRest.listing Main.ReadDir].
  destruct (Main.ReadDir env d) as [fs|err]; [|reflexivity].
  rewrite readTemplates_listing, readTemplates_filter.
  destruct (Main.readTemplates env o d i fs l) as [t [l1|c]]; [|reflexivity].
  unfold bind. now rewrite IH.
Qed.

End Listing.


(** X13: the files of a template directory whose names do not end in
    [.yml] or [.yaml] have no effect on any command of release 0.7.0:
    a run over directories that list only the YAML files is the same
    run, event for event and with the same end. *)
Theorem other_files_ignored (env : Main.Env) (command : Main.Command)
    (o : Main.CompareOptions) :
  Main.main (MainRest.listing Main.matchedYaml env) command o = Main.main env command o.
Proof.
  assert (Hc : Main.calculateChangeset (MainRest.listing Main.matchedYaml env) o
               = Main.calculateChangeset env o).
  { unfold Main.calculateChangeset, Main.assembleLocalResourceList.
    f_equal. f_equal.
    destruct (Main.getFilter _ _); try reflexivity.
    rewrite readTemplateDirs_listing. reflexivity. }
  unfold Main.main, Main.status, Main.update.
  cbn [MainRest.listing Main.GetFileFlags Main.GlobalProcess Main.CompareProcess].
  rewrite Hc. reflexivity.
Qed.

(** ** The templates of package [commands] *)


Section Templates.
Variable env : Commands.Env.
Variable o : Commands.CompareOptions.

Lemma processTemplates_first_failure pre bad post err ins :
  (forall f, In f pre -> Commands.matchedYaml f = true ->
     exists out, Commands.ProcessTemplate env (Commands.TemplateDir o) f
                   (Commands.ParamDir o) o = Success out) ->
  Commands.matchedYaml bad = true ->
  Commands.ProcessTemplate env (Commands.TemplateDir o) bad (Commands.ParamDir o) o
  = Failure err ->
  Commands.processTemplates env o (pre ++ bad :: post) ins
  = (reading "Reading template " (filter Commands.matchedYaml pre ++ [bad]),
     Return (Failure ("Could not process " ++ bad ++ " template: " ++ err))).
Proof.
  intros Hpre Hbad Herr. revert ins.
  induction pre as [|f pre IH]; intros ins; cbn [app Commands.processTemplates filter].
  - rewrite Hbad. cbn [negb]. rewrite Herr. reflexivity.
  - destruct (Commands.matchedYaml f) eqn:Ef; cbn [negb].
    + destruct (Hpre f (or_introl eq_refl) Ef) as [out ->].
      rewrite IH by (intros g Hg; apply Hpre; now right).
      reflexivity.
    + apply IH. intros g Hg. apply Hpre. now right.
Qed.

Lemma processTemplates_filter fs ins :
  Commands.processTemplates env o (filter Commands.matchedYaml fs) ins
  = Commands.processTemplates env o fs ins.
Proof.
  revert ins. induction fs as [|f fs IH]; intros ins;
    cbn [filter Commands.processTemplates]; [reflexivity|].
  destruct (Commands.matchedYaml f) eqn:E; cbn [negb]; [|apply IH].
  cbn [Commands.processTemplates]. rewrite E. cbn [negb].
  apply bind_emit_ext. destruct (Commands.ProcessTemplate _ _ _ _ _); [apply IH | reflexivity].
Qed.

End Templates.


(** X22: [assembleTemplateBasedResourceList] stops at the first
    template that cannot be processed: the debug messages name the
    YAML files up to and with that one, in the order of the directory,
    no later file is read, and the error returned names the file and
    carries the error of [ProcessTemplate]. *)
Theorem first_failing_template (env : Commands.Env) (o : Commands.CompareOptions)
    (filter_ : ResourceFilter.t) (pre post : list string) (bad : string) (err : error) :
  Commands.ReadDir env (Commands.TemplateDir o) = Success (pre ++ bad :: post)%list ->
  (forall f, In f pre -> Commands.matchedYaml f = true ->
     exists out, Commands.ProcessTemplate env (Commands.TemplateDir o) f
                   (Commands.ParamDir o) o = Success out) ->
  Commands.matchedYaml bad = true ->
  Commands.ProcessTemplate env (Commands.TemplateDir o) bad (Commands.ParamDir o) o
  = Failure err ->
  Commands.assembleTemplateBasedResourceList env filter_ o
  = (reading "Reading template " (filter Commands.matchedYaml pre ++ [bad]),
     Return (Failure ("Could not process " ++ bad ++ " template: " ++ err))).
Proof.
  intros Hdir Hpre Hbad Herr. unfold Commands.assembleTemplateBasedResourceList.
  rewrite Hdir, (@processTemplates_first_failure env o pre bad post err [] Hpre Hbad Herr).
  cbn. now rewrite app_nil_r.
Qed.

Lemma first_failing_template_witness :
  Commands.assembleTemplateBasedResourceList (Cases.failing "b.yaml")
    Scenario.anyFilter (Scenario.options false false)
  = ([Debug "Reading template a.yml"; Debug "Reading template b.yaml"],
     Return (Failure "Could not process b.yaml template: parameter missing")).
Proof.
  refine (@first_failing_template (Cases.failing "b.yaml") (Scenario.options false false)
            Scenario.anyFilter ["a.yml"; "notes.txt"] ["z.yml"] "b.yaml"
            "parameter missing" eq_refl _ eq_refl eq_refl).
  intros f [<-|[<-|[]]] _; exists "processed"; reflexivity.
Defined.


(** X23: the files of the template directory whose names do not end in
    [.yml] or [.yaml] have no effect on [diff]: a run over a directory
    that lists only the YAML files is the same run. *)
Theorem other_files_ignored_by_diff (env : Commands.Env) (opts : Cmd.Options) :
  Cmd.diff (listingOf Commands.matchedYaml env) opts = Cmd.diff env opts.
Proof.
  assert (Ha : forall f o,
            Commands.assembleTemplateBasedResourceList
              (listingOf Commands.matchedYaml env) f o
            = Commands.assembleTemplateBasedResourceList env f o).
  { intros f o. unfold Commands.assembleTemplateBasedResourceList.
    cbn [listingOf Commands.ReadDir].
    destruct (Commands.ReadDir env (Commands.TemplateDir o)); [|reflexivity].
    change (Commands.processTemplates (listingOf Commands.matchedYaml env))
      with (Commands.processTemplates env).
    now rewrite processTemplates_filter. }
  assert (Hc : forall o, Commands.calculateChangeset (listingOf Commands.matchedYaml env) o
                         = Commands.calculateChangeset env o).
  { intros o. unfold Commands.calculateChangeset.
    f_equal. f_equal.
    cbn [listingOf Commands.NewResourceFilter].
    destruct (Commands.NewResourceFilter env _ _ _); [|reflexivity].
    rewrite Ha. reflexivity. }
  unfold Cmd.diff, Commands.Diff.
  destruct (Cmd.NewGlobalOptions opts); [reflexivity|].
  destruct (Cmd.NewCompareOptions opts); [|reflexivity].
  now rewrite Hc.
Qed.

(** ** The commands [export], [re-encrypt] and [generate-key] *)

Section ReplaceFacts.

Variables old new : ascii.

Lemma Replace_length (s : string) :
  String.length (MainRest.Replace s old (String new EmptyString)) = String.length s.
Proof.
  induction s as [|c s IH]; [reflexivity|]. cbn [MainRest.Replace].
  destruct (Ascii.eqb c old); cbn; now rewrite IH.
Qed.

Lemma Replace_removes (s : string) :
  Ascii.eqb new old = false ->
  Contains (MainRest.Replace s old (String new EmptyString)) (String old EmptyString)
  = false.
Proof.
  intros Hn. induction s as [|c s IH]; [reflexivity|]. cbn [MainRest.Replace].
  destruct (Ascii.eqb c old) eqn:E.
  - change (String new EmptyString ++ ?x) with (String new x).
    now rewrite Contains_byte, Hn, IH.
  - now rewrite Contains_byte, E, IH.
Qed.

Lemma Replace_keeps (s : string) (d : ascii) :
  Ascii.eqb new d = false -> Ascii.eqb old d = false ->
  Contains (MainRest.Replace s old (String new EmptyString)) (String d EmptyString)
  = Contains s (String d EmptyString).
Proof.
  intros Hn Ho. induction s as [|c s IH]; [reflexivity|]. cbn [MainRest.Replace].
  rewrite (Contains_byte (String c s)).
  destruct (Ascii.eqb c old) eqn:E.
  - change (String new EmptyString ++ ?x) with (String new x).
    rewrite Contains_byte, Hn, IH. apply Ascii.eqb_eq in E. subst c. now rewrite Ho.
  - now rewrite Contains_byte, IH.
Qed.

End ReplaceFacts.

Lemma Split_head_clean (s : string) (sep : ascii) :
  Contains (hd EmptyString (Split s sep)) (String sep EmptyString) = false.
Proof.
  induction s as [|c s IH]; [reflexivity|]. cbn [Split].
  destruct (Ascii.eqb c sep) eqn:E; [reflexivity|].
  pose proof (Split_not_nil s sep) as Hne.
  destruct (Split s sep) as [|p ps]; [congruence|].
  cbn [hd] in *. now rewrite Contains_byte, E, IH.
Qed.

Lemma Replace_get (s : string) (old new : ascii) (i : nat) (c : ascii) :
  String.get i s = Some c ->
  String.get i (MainRest.Replace s old (String new EmptyString))
  = Some (if Ascii.eqb c old then new else c).
Proof.
  revert i. induction s as [|x s IH]; intros i; [discriminate|].
  cbn [MainRest.Replace]. destruct i as [|i]; cbn [String.get].
  - intros [= <-]. now destruct (Ascii.eqb x old).
  - intros H. destruct (Ascii.eqb x old); cbn [String.append String.get]; now apply IH.
Qed.

(** The first piece of a split is the string up to its first
    separator. *)
Lemma Split_head_decomp (s : string) (sep : ascii) :
  exists rest,
    s = hd EmptyString (Split s sep) ++ rest
    /\ (rest = EmptyString \/ exists r, rest = String sep r).
Proof.
  induction s as [|c s (rest & IH & Hrest)]; [exists EmptyString; now split; [|left]|].
  cbn [Split]. destruct (Ascii.eqb c sep) eqn:E.
  - apply Ascii.eqb_eq in E. subst c. exists (String sep s). split; [reflexivity|].
    right. now exists s.
  - pose proof (Split_not_nil s sep) as Hne.
    destruct (Split s sep) as [|p ps]; [congruence|].
    cbn [hd] in *. exists rest. split; [|exact Hrest].
    cbn [String.append]. now rewrite <- IH.
Qed.

Lemma templateName_panic (lower : Lowering) (filter_ : ResourceFilter.t) :
  ResourceFilter.Name filter_ = EmptyString ->
  ResourceFilter.Label filter_ <> EmptyString ->
  Contains (ResourceFilter.Label filter_) "=" = false ->
  MainRest.templateName lower filter_ = Panic "index out of range".
Proof.
  intros Hn Hl Hc. unfold MainRest.templateName. rewrite Hn.
  cbn [String.length Nat.ltb Nat.leb].
  destruct (ResourceFilter.Label filter_) as [|c l]; [now elim Hl|].
  cbn [String.length Nat.ltb Nat.leb]. now rewrite (Split_none _ _ Hc).
Qed.

(** X15: the template name of [export] is never an error; computing it
    panics iff the filter has no name and a label without [=], where
    [labelParts[1]] is out of range. *)
Theorem templateName_panics_iff (lower : Lowering) (filter_ : ResourceFilter.t) :
  (forall err, MainRest.templateName lower filter_ <> Err err)
  /\ ((exists msg, MainRest.templateName lower filter_ = Panic msg)
      <-> ResourceFilter.Name filter_ = EmptyString
          /\ ResourceFilter.Label filter_ <> EmptyString
          /\ Contains (ResourceFilter.Label filter_) "=" = false).
Proof.
  unfold MainRest.templateName.
  destruct (ResourceFilter.Name filter_) as [|c n]; cbn [String.length Nat.ltb Nat.leb].
  2:{ split; [discriminate|]. split; [intros [msg [=]] | intros [[=] _]]. }
  destruct (ResourceFilter.Label filter_) as [|c l] eqn:El;
    cbn [String.length Nat.ltb Nat.leb].
  { destruct (ResourceFilter.Kinds filter_); cbn; (split; [discriminate|]);
      (split; [intros [msg [=]] | intros (_ & H & _); now elim H]). }
  destruct (Contains (String c l) "=") eqn:Hc.
  - pose proof (Split_two _ _ Hc) as H2.
    destruct (Split (String c l) "=") as [|a [|b r]]; simpl in H2; try lia.
    cbn. split; [discriminate|]. split; [intros [msg [=]] | intros (_ & _ & [=])].
  - rewrite (Split_none _ _ Hc). cbn. split; [discriminate|].
    split; [intros _; repeat split; discriminate | intros _; eexists; reflexivity].
Qed.

(** X16: for a filter with a name, the template name of [export] is
    that name with every slash replaced by a dash and every other byte
    kept in its place: it has the length of the name, at each position
    a dash where the name has a slash and the byte of the name
    elsewhere, and so no slash. *)
Theorem templateName_of_name (lower : Lowering) (filter_ : ResourceFilter.t) :
  ResourceFilter.Name filter_ <> EmptyString ->
  exists name,
    MainRest.templateName lower filter_ = Ok name
    /\ String.length name = String.length (ResourceFilter.Name filter_)
    /\ (forall i c,
          String.get i (ResourceFilter.Name filter_) = Some c ->
          String.get i name = Some (if Ascii.eqb c "/" then "-"%char else c))
    /\ Contains name "/" = false.
Proof.
  intros Hn. unfold MainRest.templateName.
  destruct (ResourceFilter.Name filter_) as [|c n] eqn:E; [now elim Hn|].
  cbn [String.length Nat.ltb Nat.leb].
  eexists. split; [reflexivity|]. split; [apply Replace_length|]. split.
  - intros i x. apply Replace_get.
  - now apply Replace_removes.
Qed.

Lemma templateName_of_name_witness :
  exists name,
    MainRest.templateName latin
      (ResourceFilter.Build [] "DeploymentConfig/foo" EmptyString [])
    = Ok name
    /\ String.length name = 20%nat
    /\ (forall i c,
          String.get i "DeploymentConfig/foo" = Some c ->
          String.get i name = Some (if Ascii.eqb c "/" then "-"%char else c))
    /\ Contains name "/" = false.
Proof.
  apply (@templateName_of_name latin
           (ResourceFilter.Build [] "DeploymentConfig/foo" EmptyString [])).
  discriminate.
Defined.

(** X17: [export] with a resource argument without [/] and a selector
    that is not empty and has no [=] ends with code 1 after one log
    line, before anything is exported: the template name cannot be
    taken from the label. *)
Theorem export_selector_without_equals (env : Main.Env) (more : MainRest.Env)
    (exportOptions : MainRest.ExportOptions) (f : ResourceFilter.t) :
  Main.Whoami env = true ->
  Contains (MainRest.Resource exportOptions) "/" = false ->
  Main.getFilter (Main.Lower env) (MainRest.Resource exportOptions)
    (MainRest.Selector exportOptions) = Ok f ->
  MainRest.Selector exportOptions <> EmptyString ->
  Contains (MainRest.Selector exportOptions) "=" = false ->
  exists text, MainRest.exportCase env more exportOptions = ([Log text], Exit 1).
Proof.
  intros Hw Hs Hf Hne Hc. unfold MainRest.exportCase, Main.checkLoggedIn.
  rewrite Hw, Hf. destruct (getFilter_Kinds _ _ _ Hs Hf) as (_ & Hn & Hl & _).
  unfold MainRest.export.
  rewrite templateName_panic by (rewrite ?Hl; assumption).
  eexists. reflexivity.
Qed.

Lemma export_selector_without_equals_witness :
  exists text,
    MainRest.exportCase (Scenario.user "yes" "8080") Cases.exporter
      {| MainRest.Resource := "svc"; MainRest.Selector := "pi" |}
    = ([Log text], Exit 1).
Proof.
  refine (@export_selector_without_equals (Scenario.user "yes" "8080") Cases.exporter
            {| MainRest.Resource := "svc"; MainRest.Selector := "pi" |}
            (ResourceFilter.Build ["Service"] EmptyString "pi" [])
            eq_refl eq_refl eq_refl _ eq_refl).
  discriminate.
Defined.

Section ReEncrypt.

Variable env : Main.Env.

(** [reEncrypt] calls [ioutil.WriteFile] once, on its file and as its
    last step, or not at all. *)
Lemma reEncrypt_cases (filename : string) :
  (exists content, MainRest.reEncrypt env filename
                   = ([Written filename content], Return None))
  \/ (exists content err, MainRest.reEncrypt env filename
                          = ([Written filename content], Return (Some err)))
  \/ (exists err, MainRest.reEncrypt env filename = ([], Return (Some err))).
Proof.
  unfold MainRest.reEncrypt.
  destruct (Main.ParamFileAt env filename); [|right; right; eexists; reflexivity].
  destruct (Params.NewParamsFromFile _ _); [|right; right; eexists; reflexivity].
  destruct (Params.NewParamsFromInput _); [|right; right; eexists; reflexivity].
  destruct (Params.Render _ _ _ _); [|right; right; eexists; reflexivity].
  destruct (Main.WriteFile env filename a2);
    [right; left; eexists; eexists | left; eexists]; reflexivity.
Qed.

Lemma reEncryptFiles_prefix (paramDir : string) (files : list string) :
  exists rest,
    map (fun file => paramDir ++ MainRest.PathSeparator ++ file)
        (filter MainRest.matchedEnv files)
    = (written (trace (MainRest.reEncryptFiles env paramDir files)) ++ rest)%list
    /\ ((snd (MainRest.reEncryptFiles env paramDir files) = Return tt /\ rest = [])
        \/ snd (MainRest.reEncryptFiles env paramDir files) = Exit 1).
Proof.
  induction files as [|file files (rest & IH & Hend)];
    cbn [filter map MainRest.reEncryptFiles].
  - exists []. split; [reflexivity|]. left. now split.
  - destruct (MainRest.matchedEnv file); cbn [negb map].
    + destruct (reEncrypt_cases (paramDir ++ MainRest.PathSeparator ++ file))
        as [[content ->]|[(content & err & ->)|[err ->]]].
      * destruct (MainRest.reEncryptFiles env paramDir files) as [t o].
        cbn [trace fst snd] in *. exists rest. rewrite IH.
        split; [reflexivity|]. destruct o as [[]|c]; exact Hend.
      * eexists. cbn. split; [reflexivity|]. now right.
      * eexists. cbn. split; [reflexivity|]. now right.
    + exists rest. now split.
Qed.

Lemma written_app (a b : list Event) : written (a ++ b) = (written a ++ written b)%list.
Proof. apply flat_map_app. Qed.

Lemma reEncryptDirs_prefix (paramDirs : list string) :
  exists rest,
    envFiles env paramDirs
    = (written (trace (MainRest.reEncryptDirs env paramDirs)) ++ rest)%list
    /\ ((snd (MainRest.reEncryptDirs env paramDirs) = Return tt /\ rest = [])
        \/ snd (MainRest.reEncryptDirs env paramDirs) = Exit 1).
Proof.
  induction paramDirs as [|paramDir dirs (rest & IH & Hend)];
    cbn [envFiles MainRest.reEncryptDirs].
  - exists []. split; [reflexivity|]. left. now split.
  - destruct (Main.ReadDir env paramDir) as [files|err].
    + destruct (reEncryptFiles_prefix paramDir files) as (rest' & Hf & Hend').
      rewrite Hf, IH.
      destruct (MainRest.reEncryptFiles env paramDir files) as [t [[]|c]];
        cbn [trace fst snd bind] in *.
      * destruct Hend' as [[_ ->]|[=]].
        destruct (MainRest.reEncryptDirs env dirs) as [t' o'].
        exists rest. cbn [trace fst snd] in *.
        rewrite written_app, app_nil_r, <- app_assoc. now split.
      * destruct Hend' as [[[=] _]|[= ->]].
        eexists. split; [rewrite <- app_assoc; reflexivity|]. now right.
    + exists []. cbn. split; [reflexivity|]. now right.
Qed.

End ReEncrypt.

(** X18: [re-encrypt] without a file argument writes the [.env] files
    of the parameter directories, in the order of the directories and
    of their listings, and no other file: what a run wrote is a
    beginning of that list, all of it when the run ends with code 0,
    and a run that stops early ends with code 1. *)
Theorem reEncrypt_all_writes_in_order (env : Main.Env) (paramDirs : list string) :
  exists rest,
    envFiles env paramDirs
    = (written (trace (MainRest.reEncryptCase env EmptyString paramDirs)) ++ rest)%list
    /\ ((exitCode (MainRest.reEncryptCase env EmptyString paramDirs) = 0%nat /\ rest = [])
        \/ exitCode (MainRest.reEncryptCase env EmptyString paramDirs) = 1%nat).
Proof.
  change (MainRest.reEncryptCase env EmptyString paramDirs)
    with (MainRest.reEncryptDirs env paramDirs).
  destruct (reEncryptDirs_prefix env paramDirs) as (rest & H & Hend).
  exists rest. split; [exact H|]. unfold exitCode.
  destruct Hend as [[-> ->] | ->]; [left|right]; now repeat split.
Qed.

(** X19: [re-encrypt] with a file argument deals with that file only.
    The run does not depend on the parameter directories nor on what
    listing them would give.  It calls [ioutil.WriteFile] at most
    once, on that file and as its last step: it ends with code 0
    after a call that succeeded, with code 1 and a log line after a
    call that failed, or with code 1 and a log line before any
    call. *)
Theorem reEncrypt_one_file (env : Main.Env) (reEncryptFileArg : string)
    (paramDirs : list string) :
  reEncryptFileArg <> EmptyString ->
  (forall readDir otherDirs,
     MainRest.reEncryptCase (MainRest.relisted readDir env) reEncryptFileArg otherDirs
     = MainRest.reEncryptCase env reEncryptFileArg paramDirs)
  /\ ((exists content,
         MainRest.reEncryptCase env reEncryptFileArg paramDirs
         = ([Written reEncryptFileArg content], Return tt)
         /\ Main.WriteFile env reEncryptFileArg content = None)
      \/ (exists content msg,
            MainRest.reEncryptCase env reEncryptFileArg paramDirs
            = ([Written reEncryptFileArg content; Log msg], Exit 1)
            /\ Main.WriteFile env reEncryptFileArg content <> None)
      \/ (exists msg,
            MainRest.reEncryptCase env reEncryptFileArg paramDirs
            = ([Log msg], Exit 1))).
Proof.
  intros Hne. split.
  - intros readDir otherDirs. unfold MainRest.reEncryptCase.
    destruct reEncryptFileArg as [|c s]; [now elim Hne|]. reflexivity.
  - unfold MainRest.reEncryptCase.
    destruct reEncryptFileArg as [|c s]; [now elim Hne|].
    cbn [String.length Nat.ltb Nat.leb]. unfold MainRest.reEncrypt.
    destruct (Main.ParamFileAt env (String c s));
      [|right; right; eexists; reflexivity].
    destruct (Params.NewParamsFromFile _ _); [|right; right; eexists; reflexivity].
    destruct (Params.NewParamsFromInput _); [|right; right; eexists; reflexivity].
    destruct (Params.Render _ _ _ _) as [content|];
      [|right; right; eexists; reflexivity].
    destruct (Main.WriteFile env (String c s) content) eqn:Hw.
    + right. left. exists content. eexists. rewrite Hw. split; [reflexivity|discriminate].
    + left. exists content. rewrite Hw. split; reflexivity.
Qed.

Lemma reEncrypt_one_file_witness :
  (forall readDir otherDirs,
     MainRest.reEncryptCase (MainRest.relisted readDir (Scenario.user "yes" "8080"))
       "secrets.env" otherDirs
     = MainRest.reEncryptCase (Scenario.user "yes" "8080") "secrets.env" ["."])
  /\ ((exists content,
         MainRest.reEncryptCase (Scenario.user "yes" "8080") "secrets.env" ["."]
         = ([Written "secrets.env" content], Return tt)
         /\ Main.WriteFile (Scenario.user "yes" "8080") "secrets.env" content = None)
      \/ (exists content msg,
            MainRest.reEncryptCase (Scenario.user "yes" "8080") "secrets.env" ["."]
            = ([Written "secrets.env" content; Log msg], Exit 1)
            /\ Main.WriteFile (Scenario.user "yes" "8080") "secrets.env" content
               <> None)
      \/ (exists msg,
            MainRest.reEncryptCase (Scenario.user "yes" "8080") "secrets.env" ["."]
            = ([Log msg], Exit 1))).
Proof.
  apply (@reEncrypt_one_file (Scenario.user "yes" "8080") "secrets.env" ["."]).
  discriminate.
Defined.

(** X20: [generate-key] never panics on [emailParts[0]]: either the
    key pair cannot be generated and the run logs "Failed to generate
    keypair: ..." and ends with code 1, or it announces the public key
    file [stem.key] and the private key file of the options.  The stem
    is made from the email address up to its first [@], whatever name
    was given with the flag: it has the length of that part, at each
    position a dash where the part has a dot and the byte of the part
    elsewhere, and so neither a dot nor an [@]. *)
Theorem generateKey_public_key_file (more : MainRest.Env)
    (generateKeyNameFlag generateKeyEmailArg privateKey : string) :
  (exists text,
      MainRest.generateKeyCase more generateKeyNameFlag generateKeyEmailArg privateKey
      = ([Log text], Exit 1)
      /\ HasPrefix text "Failed to generate keypair: " = true)
  \/ (exists part rest stem,
         generateKeyEmailArg = part ++ rest
         /\ Contains part "@" = false
         /\ (rest = EmptyString \/ exists r, rest = String "@" r)
         /\ String.length stem = String.length part
         /\ (forall i c,
               String.get i part = Some c ->
               String.get i stem = Some (if Ascii.eqb c "." then "-"%char else c))
         /\ Contains stem "." = false
         /\ Contains stem "@" = false
         /\ MainRest.generateKeyCase more generateKeyNameFlag generateKeyEmailArg
              privateKey
            = ([Print Plain ("Public Key written to " ++ (stem ++ ".key")
                             ++ ". This file can be committed." ++ nl);
                Print Plain ("Private Key written to " ++ privateKey
                             ++ ". This file MUST NOT be committed." ++ nl)],
               Return tt)).
Proof.
  unfold MainRest.generateKeyCase.
  pose proof (Split_not_nil generateKeyEmailArg "@") as Hne.
  pose proof (Split_head_clean generateKeyEmailArg "@") as Hat.
  destruct (Split_head_decomp generateKeyEmailArg "@") as (rest & Hd & Hrest).
  destruct (Split generateKeyEmailArg "@") as [|part parts]; [congruence|].
  cbn [index nth_error hd] in *.
  destruct (MainRest.CreateEntity more _ generateKeyEmailArg) as [e|].
  - left. eexists. split; [reflexivity | cbn; now destruct (e ++ ".")].
  - right. exists part, rest, (MainRest.Replace part "." "-").
    split; [exact Hd|]. split; [exact Hat|]. split; [exact Hrest|].
    split; [apply Replace_length|]. split; [intros i c; apply Replace_get|].
    split; [now apply Replace_removes|].
    split; [rewrite Replace_keeps by reflexivity; exact Hat | reflexivity].
Qed.

(** ** More on the filter and on [Diff] *)


(** X1: no slice access of [getFilter] is out of range, whatever the
    arguments; the filter it returns has the selector flag as its
    label and excludes nothing; for an argument with a slash it has no
    kinds and a name with a slash, and for an argument without slash
    it has no name. *)
Theorem getFilter_shape (lower : Lowering) (kindArg selectorFlag : string) :
  (forall msg, Main.getFilter lower kindArg selectorFlag <> Panic msg)
  /\ forall f, Main.getFilter lower kindArg selectorFlag = Ok f ->
       ResourceFilter.Label f = selectorFlag
       /\ ResourceFilter.Exclude f = []
       /\ (Contains kindArg "/" = true ->
           ResourceFilter.Kinds f = [] /\ Contains (ResourceFilter.Name f) "/" = true)
       /\ (Contains kindArg "/" = false -> ResourceFilter.Name f = EmptyString).
Proof.
  split; [intros msg; apply getFilter_no_panic|].
  intros f Hf. destruct (Contains kindArg "/") eqn:Hs.
  - revert Hf. unfold Main.getFilter.
    destruct (String.length kindArg =? 0)%nat eqn:El.
    { destruct kindArg; discriminate. }
    rewrite ToLower_slash, Hs.
    destruct (Contains (ToLower lower kindArg) ","); [discriminate|].
    destruct (index _ 0); try discriminate.
    destruct (index _ 1); try discriminate.
    intros [= <-]. cbn [ResourceFilter.Label ResourceFilter.Exclude
                        ResourceFilter.Kinds ResourceFilter.Name].
    split; [reflexivity|]. split; [reflexivity|]. split; [|discriminate].
    intros _. split; [reflexivity|]. rewrite Contains_byte_app.
    change ("/" ++ a0) with (String "/" a0).
    now rewrite (Contains_byte (String "/" a0)), Ascii.eqb_refl, orb_true_r.
  - destruct (getFilter_Kinds _ _ _ Hs Hf) as (_ & Hn & Hl & He).
    split; [exact Hl|]. split; [exact He|]. split; [discriminate | intros _; exact Hn].
Qed.

Section DiffShows.
Variable env : Commands.Env.

Lemma shows_compare_new rl ll u a r p :
  only shows (Commands.compare env rl ll u a r p).
Proof.
  unfold Commands.compare.
  destruct (Commands.NewChangeset _ _ _ _ _ _) as [cs [e|]]; [apply only_ret|].
  repeat only_step.
Qed.

Lemma shows_calculateChangeset_new o :
  only shows (Commands.calculateChangeset env o).
Proof.
  unfold Commands.calculateChangeset.
  apply only_bind; [now apply only_emit|]; intros _ _.
  apply only_bind; [now apply only_limiting|]; intros _ _.
  destruct (Commands.NewResourceFilter _ _ _ _); [|apply only_ret].
  apply only_bind; [now apply only_assembleTemplate|]. intros [tl|e] _; [|apply only_ret].
  apply only_bind; [now apply only_assemblePlatform|]. intros [pl|e] _; [|apply only_ret].
  apply only_bind; [now apply only_emit|]; intros _ _.
  destruct (_ && _).
  - apply only_bind; [now apply only_refuse | intros; apply only_ret].
  - apply only_bind; [apply shows_compare_new|].
    intros [cs [e|]] _; apply only_ret.
Qed.

End DiffShows.


(** X24: a run of [diff] only prints, logs and writes debug messages:
    it never asks the user, never updates the cluster and never writes
    a file, however the run ends. *)
Theorem diff_only_shows (env : Commands.Env) (opts : Cmd.Options) :
  only shows (Cmd.diff env opts).
Proof.
  unfold Cmd.diff.
  destruct (Cmd.NewGlobalOptions opts); [now apply only_Fatal|].
  destruct (Cmd.NewCompareOptions opts); [|now apply only_Fatal].
  apply only_bind.
  { unfold Commands.Diff. apply only_bind; [apply shows_calculateChangeset_new|].
    intros [[u cs] err] _. apply only_ret. }
  intros [u [err|]] _; [now apply only_Fatal|].
  destruct u; [apply only_osExit | apply only_ret].
Qed.


(** X21: [calculateChangeset] of package [commands] always returns,
    and [Diff] returns its flag and error; the flag is set only with a
    [nil] error and a changeset that is not blank, and without
    [--force] only when the templates gave at least one resource. *)
Theorem drift_means_changes (env : Commands.Env) (o : Commands.CompareOptions) :
  exists drift cs err,
    snd (Commands.calculateChangeset env o) = Return (drift, cs, err)
    /\ snd (Commands.Diff env o) = Return (drift, err)
    /\ (drift = true -> err = None /\ Changeset.Blank cs = false)
    /\ (Commands.Force o = false -> drift = true ->
        exists f tl,
          Commands.NewResourceFilter env (Commands.Resource o) (Commands.Selector o)
            (Commands.Exclude o) = Success f
          /\ snd (Commands.assembleTemplateBasedResourceList env f o)
             = Return (Success tl)
          /\ ResourceList.Length tl <> 0%nat).
Proof.
  destruct (calculateChangeset_returns env o) as [[[u cs] err] Hv].
  exists u, cs, err. split; [exact Hv|].
  split; [unfold Commands.Diff; now rewrite snd_bind, Hv|].
  revert Hv. rewrite calculateChangeset_steps.
  destruct (Commands.NewResourceFilter _ _ _ _) as [f|e] eqn:Ef;
    [|intros [= <- _ _]; split; [discriminate | intros _; discriminate]].
  destruct (snd (Commands.assembleTemplateBasedResourceList env f o)) as [[tl|e]|c] eqn:Et;
    [|intros [= <- _ _]; split; [discriminate | intros _; discriminate]|discriminate].
  destruct (snd (Commands.assemblePlatformBasedResourceList env f o)) as [[pl|e]|c];
    [|intros [= <- _ _]; split; [discriminate | intros _; discriminate]|discriminate].
  destruct (ResourceList.Length tl =? 0)%nat eqn:El; cbn [andb].
  - destruct (Commands.Force o); cbn [negb].
    + destruct (Commands.NewChangeset _ _ _ _ _ _) as [cs' [e|]];
        [intros [= <- _ _]; split; [discriminate | intros [=]]|].
      intros [= <- <- <-]. split; [|intros [=]].
      intros H. split; [reflexivity|]. now apply negb_true_iff.
    + intros [= <- _ _]; split; [discriminate | intros _; discriminate].
  - destruct (Commands.NewChangeset _ _ _ _ _ _) as [cs' [e|]];
      [intros [= <- _ _]; split; [discriminate | intros _; discriminate]|].
    intros [= <- <- <-]. split.
    + intros H. split; [reflexivity|]. now apply negb_true_iff.
    + intros _ _. exists f, tl. split; [reflexivity|]. split; [exact Et|].
      now apply Nat.eqb_neq.
Qed.

(** ** The commands of [main] together *)


(** X5: when the Tailorfile cannot be read or the global options
    cannot be processed, every command of release 0.7.0, [version]
    included, ends with code 1 after one log line and does nothing
    else. *)
Theorem options_failure_stops (env : Main.Env) (command : Main.Command)
    (o : Main.CompareOptions) :
  Main.GetFileFlags env <> None \/ Main.GlobalProcess env <> None ->
  exists msg, Main.main env command o = ([Log msg], Exit 1).
Proof.
  intros H. unfold Main.main.
  destruct (Main.GetFileFlags env); [eexists; reflexivity|].
  destruct (Main.GlobalProcess env); [eexists; reflexivity|].
  destruct H as [H|H]; now elim H.
Qed.

Lemma options_failure_stops_witness :
  exists msg,
    Main.main Cases.misconfigured Main.versionCommand (Scenario.flags true)
    = ([Log msg], Exit 1).
Proof.
  apply (@options_failure_stops Cases.misconfigured Main.versionCommand
           (Scenario.flags true)).
  right. discriminate.
Defined.

Lemma filter_only {A} (P : Event -> bool) (p : proc A) :
  only P p -> filter P (trace p) = trace p.
Proof.
  unfold only. induction (trace p) as [|e t IH]; [reflexivity|].
  cbn [forallb filter]. intros H. apply andb_true_iff in H as [-> Ht].
  now rewrite IH.
Qed.


(** X7: what a run of [update] prints and logs is, line for line, what
    [status] prints and logs on the same options: [update] adds the
    question and the update of the cluster, and nothing to the
    output. *)
Theorem update_shows_what_status_shows (env : Main.Env) (o : Main.CompareOptions) :
  filter shows (trace (Main.main env Main.updateCommand o))
  = trace (Main.main env Main.statusCommand o).
Proof.
  unfold Main.main, Main.status, Main.update, Main.checkLoggedIn.
  destruct (Main.GetFileFlags env); [reflexivity|].
  destruct (Main.GlobalProcess env); [reflexivity|].
  destruct (Main.Whoami env); [|reflexivity].
  rewrite !bind_ret.
  destruct (Main.CompareProcess env); [reflexivity|].
  rewrite !trace_bind.
  pose proof (filter_only (@shows_calculateChangeset env o)) as Hs.
  destruct (snd (Main.calculateChangeset env o)) as [[[u cs] [err|]]|c];
    [| |exact Hs]; rewrite filter_app, Hs; f_equal; try reflexivity.
  destruct u; [|reflexivity].
  unfold Main.askForConfirmation, Main.UpdateRemote.
  destruct (Main.NonInteractive o); [reflexivity|].
  now destruct (Main.AskForConfirmation _ _ _).
Qed.


